(** * Smart-Scheduler: travel-time lookup, travel segments, conflict
    detection, slot probing (smart_scheduler_app.py) and the territory
    balancing / minimum-days estimator (tsp_clustering_app.py).

    Driving times and coordinates are floats in the source; they are
    modelled here as exact rationals [Q].  A time slot string
    [f"{h}:{m:02d}"] is modelled by the pair [(h, m)] it is formatted from
    and parsed back to by [time_to_minutes]. *)

From Stdlib Require Import QArith Qround ZArith Ascii String List Lia Lqa.
From stdpp Require Import base list gmap sets strings sorting.

Open Scope Z_scope.

(* ------------------------------------------------------------------ *)
(** ** Python string helpers ([str.strip], [str.upper]) on ASCII text *)

Module PyStr.

(** characters Python's [str.isspace] accepts in the ASCII range *)
Definition is_space (c : ascii) : bool :=
  let n := nat_of_ascii c in
  ((9 <=? n)%nat && (n <=? 13)%nat) || ((28 <=? n)%nat && (n <=? 32)%nat).

Fixpoint lstrip_list (l : list ascii) : list ascii :=
  match l with
  | [] => []
  | c :: r => if is_space c then lstrip_list r else l
  end.

Definition strip (s : string) : string :=
  string_of_list_ascii
    (rev (lstrip_list (rev (lstrip_list (list_ascii_of_string s))))).

Definition upper_char (c : ascii) : ascii :=
  let n := nat_of_ascii c in
  if ((97 <=? n)%nat && (n <=? 122)%nat) then ascii_of_nat (n - 32) else c.

Fixpoint upper (s : string) : string :=
  match s with
  | EmptyString => EmptyString
  | String c r => String (upper_char c) (upper r)
  end.

(** Python truthiness of a string *)
Definition truthy (s : string) : bool :=
  match s with EmptyString => false | _ => true end.

(** [x < y] on floats *)
Definition Qlt_bool (x y : Q) : bool := negb (Qle_bool y x).

(** [int(x)] on a float: truncation toward zero *)
Definition py_int (x : Q) : Z :=
  if Qle_bool 0 x then Qfloor x else - Qfloor (- x).

End PyStr.

(* ------------------------------------------------------------------ *)
(** ** Data frames used by [get_travel_time] *)

(** a row of [clustered_regions.csv]; [client_name] is [None] when the
    cell is NaN *)
Record region_row := {
  rr_postcode : string;
  rr_client_name : option string }.

(** a row of [distances.csv] *)
Record dist_row := {
  origin : string;
  destination : string;
  driving_time_minutes : Q }.

(** the data frames [get_travel_time] reads *)
Record travel_data := {
  distances_df : option (list dist_row);
  clustered_regions_df : option (list region_row);
  has_client_name_column : bool }.

(** A time slot [f"{h}:{m:02d}"] as the pair it denotes. *)
Abbreviation slot := (Z * Z)%type.

Definition time_to_minutes (t : slot) : Z := t.1 * 60 + t.2.

(** one travel segment [(date, start, end, {'minutes', 'to_home', 'from_home'})] *)
Record segment := {
  seg_date : string;
  seg_start : Z;
  seg_end : Z;
  seg_minutes : Z;
  to_home : bool;
  from_home : bool }.

Definition seg_key (s : segment) : string * Z * Z :=
  (seg_date s, seg_start s, seg_end s).

(** The fields of [SmartSchedulerApp] the scheduling engine reads and writes. *)
Record sched := {
  appointments : list ((string * slot) * string);  (* dict {(date, slot): postcode}, insertion order *)
  confirmed_appointments : list (string * (string * slot * Z * bool));  (* {postcode: (date, time, duration, in_outlook)} *)
  travel_segments : list segment;
  conflicting_segments : gset (string * Z * Z);
  home_postcode : option string;
  travel_db : travel_data;
  start_hour : Z;
  end_hour : Z;
  time_slots : list slot;
  appointment_duration_var : Z;
  selected_dates : list string;   (* already formatted with '%d-%b-%y' *)
  postcode_var : string }.

Definition set_travel (st : sched) (segs : list segment)
    (conf : gset (string * Z * Z)) : sched :=
  {| appointments := appointments st;
     confirmed_appointments := confirmed_appointments st;
     travel_segments := segs;
     conflicting_segments := conf;
     home_postcode := home_postcode st;
     travel_db := travel_db st;
     start_hour := start_hour st;
     end_hour := end_hour st;
     time_slots := time_slots st;
     appointment_duration_var := appointment_duration_var st;
     selected_dates := selected_dates st;
     postcode_var := postcode_var st |}.

Definition set_appointments (st : sched) (a : list ((string * slot) * string)) : sched :=
  {| appointments := a;
     confirmed_appointments := confirmed_appointments st;
     travel_segments := travel_segments st;
     conflicting_segments := conflicting_segments st;
     home_postcode := home_postcode st;
     travel_db := travel_db st;
     start_hour := start_hour st;
     end_hour := end_hour st;
     time_slots := time_slots st;
     appointment_duration_var := appointment_duration_var st;
     selected_dates := selected_dates st;
     postcode_var := postcode_var st |}.

(* ------------------------------------------------------------------ *)
(** ** [display_text_to_postcode] and [get_travel_time] *)

Definition display_text_to_postcode (td : travel_data) (display_text : string) : string :=
  match clustered_regions_df td with
  | None => display_text
  | Some df =>
      if negb (PyStr.truthy display_text) then display_text else
      let t := PyStr.upper (PyStr.strip display_text) in
      if existsb (fun r => bool_decide (PyStr.upper (rr_postcode r) = t)) df then t
      else if has_client_name_column td then
        match find (fun r => match rr_client_name r with
                             | Some n => bool_decide (PyStr.upper n = t)
                             | None => false end) df with
        | Some r => PyStr.upper (PyStr.strip (rr_postcode r))
        | None => t
        end
      else t
  end.

(** the row filter of [get_travel_time]: both orderings are accepted *)
Definition row_matches (o d : string) (r : dist_row) : bool :=
  bool_decide ((origin r = o /\ destination r = d) \/ (origin r = d /\ destination r = o)).

(** names to postcodes, then [.strip().upper()] *)
Definition normalize_postcode (td : travel_data) (s : string) : string :=
  PyStr.upper (PyStr.strip (display_text_to_postcode td s)).

Definition get_travel_time (td : travel_data) (o d : string) : Z :=
  match distances_df td with
  | None => 30
  | Some df =>
      if negb (PyStr.truthy o) || negb (PyStr.truthy d) then 30 else
      let o' := normalize_postcode td o in
      let d' := normalize_postcode td d in
      if bool_decide (o' = d') then 0 else
      match find (row_matches o' d') df with
      | Some r =>
          let t := driving_time_minutes r in
          if PyStr.Qlt_bool 0 t then Z.max (PyStr.py_int t) 1 else 30
      | None => 30
      end
  end.

(* ------------------------------------------------------------------ *)
(** ** Dict helpers: a Python dict as an insertion-ordered association list *)

Definition dict_get {K V} `{EqDecision K} (k : K) (d : list (K * V)) : option V :=
  option_map snd (find (fun kv => bool_decide (kv.1 = k)) d).

Definition dict_mem {K V} `{EqDecision K} (k : K) (d : list (K * V)) : bool :=
  existsb (fun kv => bool_decide (kv.1 = k)) d.

(** [d[k] = v]: update in place if present, append otherwise *)
Definition dict_set {K V} `{EqDecision K} (k : K) (v : V) (d : list (K * V)) : list (K * V) :=
  if dict_mem k d then map (fun kv => if bool_decide (kv.1 = k) then (k, v) else kv) d
  else d ++ [(k, v)].

(** [del d[k]] *)
Definition dict_del {K V} `{EqDecision K} (k : K) (d : list (K * V)) : list (K * V) :=
  filter (fun kv => kv.1 <> k) d.

(** [list.index]; [None] where Python raises [ValueError] *)
Fixpoint index_of (x : slot) (l : list slot) : option nat :=
  match l with
  | [] => None
  | y :: r => if bool_decide (y = x) then Some 0%nat
              else option_map S (index_of x r)
  end.

(** [list.sort(key=...)]: a stable insertion sort on a [nat] key *)
Fixpoint insert_by {A} (key : A -> nat) (x : A) (l : list A) : list A :=
  match l with
  | [] => [x]
  | y :: r => if (key x <? key y)%nat then x :: y :: r else y :: insert_by key x r
  end.

Definition sort_by {A} (key : A -> nat) (l : list A) : list A :=
  fold_left (fun acc x => insert_by key x acc) l [].

(* ------------------------------------------------------------------ *)
(** ** [recalculate_travel_times] and [check_travel_conflicts] *)

Definition appt_entry := ((string * slot) * string)%type.

Definition appt_slot (a : appt_entry) : slot := a.1.2.
Definition appt_postcode (a : appt_entry) : string := a.2.

(** duration of an appointment: the confirmed one, else the spinbox value *)
Definition appt_duration (st : sched) (postcode : string) : Z :=
  match dict_get postcode (confirmed_appointments st) with
  | Some (_, _, duration, _) => duration
  | None => appointment_duration_var st
  end.

(** [if self.home_postcode:] *)
Definition home_set (st : sched) : option string :=
  match home_postcode st with
  | Some h => if PyStr.truthy h then Some h else None
  | None => None
  end.

Definition date_appointments (st : sched) (date_str : string) : list appt_entry :=
  filter (fun kv => kv.1.1 = date_str) (appointments st).

(** [date_appointments.sort(key=lambda x: self.time_slots.index(x[0][1]))];
    [None] when some slot is not in [time_slots] *)
Definition slot_index (st : sched) (a : appt_entry) : nat :=
  default 0%nat (index_of (appt_slot a) (time_slots st)).

Definition sort_date_appointments (st : sched) (l : list appt_entry) : option (list appt_entry) :=
  if forallb (fun a => bool_decide (is_Some (index_of (appt_slot a) (time_slots st)))) l
  then Some (sort_by (slot_index st) l)
  else None.

Definition dummy_appt : appt_entry := (("", (0, 0)), "").

(** the travel segment emitted for [date_appointments[i]] and [[i + 1]] *)
Definition between_segment (st : sched) (date_str : string)
    (current_appt next_appt : appt_entry) : segment :=
  let current_end_minutes :=
    time_to_minutes (appt_slot current_appt) + appt_duration st (appt_postcode current_appt) in
  let travel_minutes := get_travel_time (travel_db st) (appt_postcode current_appt) (appt_postcode next_appt) in
  {| seg_date := date_str; seg_start := current_end_minutes;
     seg_end := current_end_minutes + travel_minutes;
     seg_minutes := travel_minutes; to_home := false; from_home := false |}.

(** the loop [for i in range(len(date_appointments) - 1)] *)
Definition between_segments (st : sched) (date_str : string) (sorted : list appt_entry) : list segment :=
  map (fun i => between_segment st date_str (nth i sorted dummy_appt) (nth (S i) sorted dummy_appt))
      (seq 0 (length sorted - 1)).

(** travel from home to the first appointment, with its
    window-violation flag *)
Definition from_home_part (st : sched) (date_str : string) (first_appt : appt_entry)
    : list segment * gset (string * Z * Z) :=
  match home_set st with
  | None => ([], ∅)
  | Some h =>
      let first_time_minutes := time_to_minutes (appt_slot first_appt) in
      let travel_to_first := get_travel_time (travel_db st) h (appt_postcode first_appt) in
      let travel_start := first_time_minutes - travel_to_first in
      let is_exceeding_start := bool_decide (travel_start < start_hour st * 60) in
      ([{| seg_date := date_str; seg_start := travel_start; seg_end := first_time_minutes;
           seg_minutes := travel_to_first; to_home := false; from_home := true |}],
       if is_exceeding_start then {[ (date_str, travel_start, first_time_minutes) ]} else ∅)
  end.

(** travel home after the last appointment, with its window-violation flag *)
Definition to_home_part (st : sched) (date_str : string) (last_appt : appt_entry)
    : segment * gset (string * Z * Z) :=
  let last_duration := appt_duration st (appt_postcode last_appt) in
  let last_end_minutes := time_to_minutes (appt_slot last_appt) + last_duration in
  let travel_home_minutes :=
    match home_set st with
    | Some h => get_travel_time (travel_db st) (appt_postcode last_appt) h
    | None => 30
    end in
  let travel_home_end := last_end_minutes + travel_home_minutes in
  let is_exceeding_end := bool_decide (travel_home_end > end_hour st * 60) in
  ({| seg_date := date_str; seg_start := last_end_minutes; seg_end := travel_home_end;
      seg_minutes := travel_home_minutes; to_home := true; from_home := false |},
   if is_exceeding_end then {[ (date_str, last_end_minutes, travel_home_end) ]} else ∅).

(** [recalculate_travel_times(date_str)]; [None] where [time_slots.index]
    raises *)
Definition recalculate_travel_times (st : sched) (date_str : string) : option sched :=
  let segs0 := filter (fun s => seg_date s <> date_str) (travel_segments st) in
  let conf0 := filter (fun k : string * Z * Z => k.1.1 <> date_str) (conflicting_segments st) in
  match date_appointments st date_str with
  | [] => Some (set_travel st segs0 conf0)
  | l =>
      match sort_date_appointments st l with
      | None => None
      | Some sorted =>
          let first_appt := nth 0 sorted dummy_appt in
          let last_appt := default dummy_appt (last sorted) in
          let '(from_segs, from_conf) := from_home_part st date_str first_appt in
          let '(to_seg, to_conf) := to_home_part st date_str last_appt in
          Some (set_travel st
                  (segs0 ++ from_segs ++ between_segments st date_str sorted ++ [to_seg])
                  (conf0 ∪ from_conf ∪ to_conf))
      end
  end.

(** one entry of the returned [conflicts] list:
    [f"Travel {travel_type} ({minutes} min) overlaps with appointment at {appt_time}"] *)
Record conflict_msg := {
  travel_type : string;
  cm_minutes : Z;
  appt_time : slot }.

Definition appt_ranges (st : sched) (date_str : string) : list (Z * Z * slot) :=
  map (fun a => let start_min := time_to_minutes (appt_slot a) in
                (start_min, start_min + appt_duration st (appt_postcode a), appt_slot a))
      (date_appointments st date_str).

Definition travel_type_of (s : segment) : string :=
  if from_home s then "from home" else if to_home s then "to home" else "between appointments".

Definition overlaps (s : segment) (r : Z * Z * slot) : bool :=
  bool_decide (seg_start s < r.1.2 /\ seg_end s > r.1.1).

(** [check_travel_conflicts(date_str)]: returns the conflict list and the
    new state ([self.conflicting_segments = set()] first, then one key per
    overlapping segment/appointment pair) *)
Definition check_travel_conflicts (st : sched) (date_str : string) : list conflict_msg * sched :=
  let ranges := appt_ranges st date_str in
  let segs := filter (fun s => seg_date s = date_str) (travel_segments st) in
  let hits := list_prod segs ranges in
  let hits := filter (fun sr => overlaps sr.1 sr.2 = true) hits in
  (map (fun sr => {| travel_type := travel_type_of sr.1; cm_minutes := seg_minutes sr.1;
                     appt_time := sr.2.2 |}) hits,
   set_travel st (travel_segments st) (list_to_set (map (fun sr => seg_key sr.1) hits))).

(* ------------------------------------------------------------------ *)
(** ** [generate_time_slots] and [get_available_slots] *)

(** [for minutes in range(start_hour * 60, end_hour * 60, 30)] *)
Definition generate_time_slots (start_h end_h : Z) : list slot :=
  let start_time := start_h * 60 in
  let end_time := end_h * 60 in
  map (fun i : nat => let minutes := start_time + 30 * Z.of_nat i in
                      (minutes / 60, minutes mod 60))
      (seq 0 (Z.to_nat ((end_time - start_time + 29) / 30))).

(** the [has_conflict] loop over [self.time_slots].  Its guard
    [other_cell_key[1] in self.appointments] tests a time string against
    the dict's [(date, time)] keys and is always false, so
    [other_duration] stays 30. *)
Definition overlaps_existing (st : sched) (date_str : string)
    (start_minutes end_minutes : Z) : bool :=
  existsb (fun other_slot =>
             let other_start_minutes := time_to_minutes other_slot in
             if dict_mem (date_str, other_slot) (appointments st) then
               let other_duration := 30 in
               let other_end_minutes := other_start_minutes + other_duration in
               bool_decide (start_minutes < other_end_minutes /\ end_minutes > other_start_minutes)
             else false)
          (time_slots st).

(** one speculative probe: insert, recalculate, check, delete *)
Definition probe_slot (st : sched) (postcode date_str : string) (t : slot)
    : option (bool * sched) :=
  let cell_key := (date_str, t) in
  let st1 := set_appointments st (dict_set cell_key postcode (appointments st)) in
  match recalculate_travel_times st1 date_str with
  | None => None
  | Some st2 =>
      let '(conflicts, st3) := check_travel_conflicts st2 date_str in
      let st4 := set_appointments st3 (dict_del cell_key (appointments st3)) in
      Some (match conflicts with [] => true | _ => false end, st4)
  end.

Fixpoint scan_slots (st : sched) (postcode date_str : string) (duration : Z)
    (ts : list slot) : option (list (string * slot) * sched) :=
  match ts with
  | [] => Some ([], st)
  | time_slot :: rest =>
      let start_minutes := time_to_minutes time_slot in
      let end_minutes := start_minutes + duration in
      let end_h := end_minutes / 60 in
      if bool_decide (end_h > end_hour st) then scan_slots st postcode date_str duration rest
      else if overlaps_existing st date_str start_minutes end_minutes
      then scan_slots st postcode date_str duration rest
      else if dict_mem (date_str, time_slot) (appointments st)
      then scan_slots st postcode date_str duration rest
      else
        match probe_slot st postcode date_str time_slot with
        | None => None
        | Some (ok, st') =>
            match scan_slots st' postcode date_str duration rest with
            | None => None
            | Some (found, st'') =>
                Some (if ok then (date_str, time_slot) :: found else found, st'')
            end
        end
  end.

Fixpoint scan_dates (st : sched) (postcode : string) (duration : Z)
    (dates : list string) : option (list (string * slot) * sched) :=
  match dates with
  | [] => Some ([], st)
  | date_str :: rest =>
      match scan_slots st postcode date_str duration (time_slots st) with
      | None => None
      | Some (found, st') =>
          match scan_dates st' postcode duration rest with
          | None => None
          | Some (found', st'') => Some (found ++ found', st'')
          end
      end
  end.

(** [get_available_slots()]: the available [(date_str, time_slot)] pairs
    and the state after the call; [None] where the code raises *)
Definition get_available_slots (st : sched) : option (list (string * slot) * sched) :=
  if negb (PyStr.truthy (postcode_var st)) then Some ([], st) else
  match selected_dates st with
  | [] => Some ([], st)
  | dates => scan_dates st (postcode_var st) (appointment_duration_var st) dates
  end.

(** [place_appointment]'s engine step: stage the cell, recalculate the
    date, then run conflict detection *)
Definition stage_and_check (st : sched) (date_str : string) (t : slot) (postcode : string)
    : option (list conflict_msg * sched) :=
  let st1 := set_appointments st (dict_set (date_str, t) postcode (appointments st)) in
  match recalculate_travel_times st1 date_str with
  | None => None
  | Some st2 => Some (check_travel_conflicts st2 date_str)
  end.

(* ------------------------------------------------------------------ *)
(** ** Spec reading of §4.4 steps 3-5 (for the refinement claim C1) *)

(** The spec's day itinerary over the date's appointments [l] already in
    start-time order: one FROM_DEPOT segment, one BETWEEN segment per
    consecutive pair, one TO_DEPOT segment. *)
Definition spec_day_segments (st : sched) (d h : string) (l : list appt_entry) : list segment :=
  match l with
  | [] => []
  | first :: _ =>
      let final := List.last l first in
      let first_start := time_to_minutes (appt_slot first) in
      let t_from := get_travel_time (travel_db st) h (appt_postcode first) in
      let finish p := time_to_minutes (appt_slot p) + appt_duration st (appt_postcode p) in
      let t_to := get_travel_time (travel_db st) (appt_postcode final) h in
      {| seg_date := d; seg_start := first_start - t_from; seg_end := first_start;
         seg_minutes := t_from; to_home := false; from_home := true |}
      :: map (fun pn => let t := get_travel_time (travel_db st) (appt_postcode pn.1) (appt_postcode pn.2) in
                        {| seg_date := d; seg_start := finish pn.1; seg_end := finish pn.1 + t;
                           seg_minutes := t; to_home := false; from_home := false |})
             (zip l (tail l))
      ++ [{| seg_date := d; seg_start := finish final; seg_end := finish final + t_to;
             seg_minutes := t_to; to_home := true; from_home := false |}]
  end.

(** The spec's window flags: FROM_DEPOT when it starts before the window,
    TO_DEPOT when it ends after it; nothing else. *)
Definition spec_day_window_flags (st : sched) (d h : string) (l : list appt_entry)
    : gset (string * Z * Z) :=
  match l with
  | [] => ∅
  | first :: _ =>
      let final := List.last l first in
      let first_start := time_to_minutes (appt_slot first) in
      let t_from := get_travel_time (travel_db st) h (appt_postcode first) in
      let finish := time_to_minutes (appt_slot final) + appt_duration st (appt_postcode final) in
      let t_to := get_travel_time (travel_db st) (appt_postcode final) h in
      (if bool_decide (first_start - t_from < start_hour st * 60)
       then {[ (d, first_start - t_from, first_start) ]} else ∅)
      ∪ (if bool_decide (finish + t_to > end_hour st * 60)
         then {[ (d, finish, finish + t_to) ]} else ∅)
  end.

(* ------------------------------------------------------------------ *)
(** ** [balance_clusters] (tsp_clustering_app.py) *)

Module Balance.

Local Open Scope nat_scope.

(** [min_size = 3  # Hard-coded minimum cluster size] *)
Definition min_size : nat := 3.

(** [np.sum(labels == c)] *)
Definition count (labels : list nat) (c : nat) : nat :=
  length (filter (fun l => l = c) labels).

(** [np.argmax]: index of the first maximum *)
Fixpoint argmax (l : list nat) : nat :=
  match l with
  | [] => 0
  | x :: r => if (nth (argmax r) r 0 <=? x)%nat then 0 else S (argmax r)
  end.

(** The geometric decisions of [balance_clusters], computed in the source
    from the coordinates with numpy, scipy's [ConvexHull] and shapely:
    - [close i j]: [np.linalg.norm(coords[i] - coords[j]) < proximity_threshold];
    - [closest_to labels cid big]: the member of cluster [big] nearest the
      centroid of [cid] (or a random member of [big] when [cid] is empty);
    - [has_overlap labels]: [check_convex_hulls_overlap];
    - [hull_move labels i j]: the hull vertex of cluster [i] nearest the
      centroid of [j] when the two hulls overlap, [None] when they do not
      or the hull computation raises;
    - [outlier labels cid]: the member of [cid] furthest from its centroid;
    - [best_cluster labels cid k]: the nearest other centroid closer than
      80% of [k]'s distance to its own, if any. *)
Record geometry := {
  close : nat -> nat -> bool;
  closest_to : list nat -> nat -> nat -> nat;
  has_overlap : list nat -> bool;
  hull_move : list nat -> nat -> nat -> option nat;
  outlier : list nat -> nat -> nat;
  best_cluster : list nat -> nat -> nat -> option nat }.

(** What the numpy code guarantees about those choices: each is a member
    of the cluster it is taken from, and a target cluster is a cluster id. *)
Record geometry_ok (g : geometry) (n : nat) : Prop := {
  closest_member : forall labels cid big, 0 < count labels big ->
    labels !! closest_to g labels cid big = Some big;
  hull_member : forall labels i j k, hull_move g labels i j = Some k -> labels !! k = Some i;
  outlier_member : forall labels cid, 0 < count labels cid ->
    labels !! outlier g labels cid = Some cid;
  best_in_range : forall labels cid k b, best_cluster g labels cid k = Some b -> b < n }.

(** [for i in range(n): for j in range(i + 1, n)] *)
Definition upper_pairs (n : nat) : list (nat * nat) :=
  flat_map (fun i => map (fun j => (i, j)) (seq (S i) (n - S i))) (seq 0 n).

(** body of the proximity loop for one pair; returns the new labels and
    the number of violations fixed *)
Definition proximity_pair (g : geometry) (acc : list nat * nat) (ij : nat * nat) : list nat * nat :=
  let '(labels, fixed) := acc in
  let '(i, j) := ij in
  match labels !! i, labels !! j with
  | Some li, Some lj =>
      if bool_decide (li <> lj) && close g i j then
        let cluster_i_size := count labels li in
        let cluster_j_size := count labels lj in
        if (cluster_j_size <? cluster_i_size)%nat && (min_size <? cluster_i_size)%nat
        then (<[i := lj]> labels, S fixed)
        else if (min_size <=? cluster_j_size)%nat
        then (<[j := li]> labels, S fixed)
        else (labels, fixed)
      else (labels, fixed)
  | _, _ => (labels, fixed)
  end.

(** [for prox_iter in range(max_proximity_iterations)] *)
Fixpoint proximity_loop (g : geometry) (fuel : nat) (labels : list nat) : list nat :=
  match fuel with
  | 0 => labels
  | S f =>
      let '(labels', fixed) := fold_left (proximity_pair g) (upper_pairs (length labels)) (labels, 0) in
      if (fixed =? 0)%nat then labels' else proximity_loop g f labels'
  end.

Definition proximity_pass (g : geometry) (labels : list nat) : list nat :=
  proximity_loop g 100 labels.

(** [while np.sum(labels == cluster_id) < min_size]; each iteration moves
    one point into [cid], so [fuel = len(labels)] never runs out first *)
Fixpoint fill_cluster (g : geometry) (n cid fuel : nat) (labels : list nat) : list nat :=
  match fuel with
  | 0 => labels
  | S f =>
      if (count labels cid <? min_size)%nat then
        let cluster_sizes := map (count labels) (seq 0 n) in
        let largest_cluster := argmax cluster_sizes in
        if (nth largest_cluster cluster_sizes 0 <=? min_size)%nat then labels
        else fill_cluster g n cid f (<[closest_to g labels cid largest_cluster := cid]> labels)
      else labels
  end.

(** [for cluster_id in range(n_clusters)] *)
Definition min_size_pass (g : geometry) (n : nat) (labels : list nat) : list nat :=
  fold_left (fun l cid => fill_cluster g n cid (length l) l) (seq 0 n) labels.

(** the [for j in range(i + 1, n)] loop of the overlap pass; a move breaks it *)
Fixpoint overlap_inner (g : geometry) (i : nat) (js : list nat) (labels : list nat) : list nat :=
  match js with
  | [] => labels
  | j :: rest =>
      if (count labels i <=? min_size)%nat || (count labels j <=? min_size)%nat
      then overlap_inner g i rest labels
      else match hull_move g labels i j with
           | Some closest_hull_idx => <[closest_hull_idx := j]> labels
           | None => overlap_inner g i rest labels
           end
  end.

Definition overlap_round (g : geometry) (n : nat) (labels : list nat) : list nat :=
  fold_left (fun l i => overlap_inner g i (seq (S i) (n - S i)) l) (seq 0 n) labels.

(** [for overlap_iter in range(max_overlap_iterations)] *)
Fixpoint overlap_loop (g : geometry) (n fuel : nat) (labels : list nat) : list nat :=
  match fuel with
  | 0 => labels
  | S f => if has_overlap g labels then overlap_loop g n f (overlap_round g n labels) else labels
  end.

Definition overlap_pass (g : geometry) (n : nat) (labels : list nat) : list nat :=
  overlap_loop g n 100 labels.

(** the body of the compactness loop for one cluster *)
Definition compact_step (g : geometry) (acc : list nat * bool) (cid : nat) : list nat * bool :=
  let '(labels, improved) := acc in
  if (count labels cid <=? min_size)%nat then acc else
  let outlier_idx := outlier g labels cid in
  match best_cluster g labels cid outlier_idx with
  | Some b => (<[outlier_idx := b]> labels, true)
  | None => (labels, improved)
  end.

(** [for compact_iter in range(max_compactness_iterations)] *)
Fixpoint compact_loop (g : geometry) (n fuel : nat) (labels : list nat) : list nat :=
  match fuel with
  | 0 => labels
  | S f =>
      let '(labels', improved) := fold_left (compact_step g) (seq 0 n) (labels, false) in
      if improved then compact_loop g n f labels' else labels'
  end.

Definition compact_pass (g : geometry) (n : nat) (labels : list nat) : list nat :=
  compact_loop g n 50 labels.

(** [balance_clusters] from the Ward labels on; the returned [metrics] are
    not modelled *)
Definition balance_clusters (g : geometry) (n_clusters : nat) (ward_labels : list nat) : list nat :=
  compact_pass g n_clusters
    (overlap_pass g n_clusters
       (min_size_pass g n_clusters (proximity_pass g ward_labels))).

(** two Ward clusters of three with one close pair across them *)
Definition two_threes_geometry : geometry :=
  {| close := fun i j => (bool_decide (i = 2) && bool_decide (j = 3))%nat;
     closest_to := fun _ _ _ => 0;
     has_overlap := fun _ => false;
     hull_move := fun _ _ _ => None;
     outlier := fun _ _ => 0;
     best_cluster := fun _ _ _ => None |}.

(** the first position holding [v] *)
Definition first_index (l : list nat) (v : nat) : nat :=
  match list_find (fun x => x = v) l with Some (i, _) => i | None => 0 end.

(** the same layout with member choices that are actual members: the
    nearest member is the first one, no hull overlaps, no outlier moves *)
Definition first_member_geometry : geometry :=
  {| close := close two_threes_geometry;
     closest_to := fun labels _ big => first_index labels big;
     has_overlap := fun _ => false;
     hull_move := fun _ _ _ => None;
     outlier := fun labels cid => first_index labels cid;
     best_cluster := fun _ _ _ => None |}.

End Balance.

(* ------------------------------------------------------------------ *)
(** ** [calculate_minimum_days_for_region] (tsp_clustering_app.py) *)

Module MinDays.

Local Open Scope Q_scope.

(** The attributes of [TSPClusteringApp] the estimator reads. Floats are
    exact rationals; a [float(...)] that raises is [None]; a matrix entry
    [np.inf] is [None]. *)
Record tsp_app := {
  has_matrix : bool;  (** [hasattr] of [driving_time_matrix] and [customer_postcode_to_idx] *)
  labels : option (list Z);  (** [self.labels], [None] before clustering *)
  service_time_var : option Q;
  work_hours_var : option Q;
  customer_postcodes : list string;
  customer_postcode_to_idx : list (string * nat);
  depot_postcode_idx : nat;
  driving_time_matrix : nat -> nat -> option Q }.

(** [np.sum(self.labels == v)] *)
Definition count_label (ls : list Z) (v : Z) : nat :=
  length (filter (fun l => l = v) ls).

(** [np.where(self.labels == (region_num - 1))[0]] *)
Definition region_customer_indices (ls : list Z) (region_num : Z) : list nat :=
  map fst (filter (fun p => p.2 = (region_num - 1)%Z) (zip (seq 0 (length ls)) ls)).

(** the [try] block: both fall back when either conversion raises *)
Definition config (app : tsp_app) : Q * Q :=
  match service_time_var app, work_hours_var app with
  | Some s, Some w => (s, w)
  | _, _ => (1, 8)
  end.

(** the [matrix_indices] loop; [self.customer_postcodes[customer_idx]]
    raises [IndexError] out of range *)
Fixpoint matrix_indices (app : tsp_app) (idxs : list nat) : option (list nat) :=
  match idxs with
  | [] => Some []
  | customer_idx :: rest =>
      match customer_postcodes app !! customer_idx, matrix_indices app rest with
      | Some postcode, Some mi =>
          match dict_get postcode (customer_postcode_to_idx app) with
          | Some idx => Some (idx :: mi)
          | None => Some mi
          end
      | _, _ => None
      end
  end.

(** [if not np.isinf(dist) and dist < min_depot_distance] *)
Definition min_step (acc : option Q) (dist : option Q) : option Q :=
  match dist, acc with
  | None, _ => acc
  | Some d, None => Some d
  | Some d, Some m => if PyStr.Qlt_bool d m then Some d else acc
  end.

(** [min_depot_distance], [None] for [np.inf] *)
Definition min_depot_distance (app : tsp_app) (mi : list nat) : option Q :=
  fold_left min_step (map (driving_time_matrix app (depot_postcode_idx app)) mi) None.

(** the finite [driving_time_matrix[i, j]] with [i != j], in loop order *)
Definition intra_distances (app : tsp_app) (mi : list nat) : list Q :=
  flat_map (fun i => flat_map (fun j =>
    if (i =? j)%nat then []
    else match driving_time_matrix app i j with Some d => [d] | None => [] end) mi) mi.

Definition sumQ (l : list Q) : Q := fold_left Qplus l 0.

(** [total_intra_distance / count] *)
Definition avg_distance (ds : list Q) : Q := sumQ ds / inject_Z (Z.of_nat (length ds)).

(** [int(np.ceil(x) + 1)]; a zero [work_hours] raises (Python
    [ZeroDivisionError], or [OverflowError] on [int(inf)]) *)
Definition days_of (total_time_hours work_hours : Q) : option Z :=
  if Qeq_bool work_hours 0 then None
  else Some (Qceiling (total_time_hours / work_hours) + 1)%Z.

(** the estimator from [matrix_indices] on *)
Definition minimum_days_of_indices (app : tsp_app) (service_time_hours work_hours : Q)
    (mi : list nat) : option Z :=
  let customers_count := inject_Z (Z.of_nat (length mi)) in
  match min_depot_distance app mi with
  | None =>
      let service_time_minutes := service_time_hours * 60 * customers_count in
      days_of (service_time_minutes / 60) work_hours
  | Some m =>
      let tour0 := 0 + m in
      let tour1 :=
        if (1 <? length mi)%nat then
          let ds := intra_distances app mi in
          if (0 <? length ds)%nat then
            tour0 + avg_distance ds * inject_Z (Z.of_nat (length mi) - 1)%Z
          else tour0 + m * customers_count
        else tour0 in
      let tour_time_minutes := tour1 + m in
      let service_time_minutes := service_time_hours * 60 * customers_count in
      let total_time_minutes := tour_time_minutes + service_time_minutes in
      days_of (total_time_minutes / 60) work_hours
  end.

Definition calculate_minimum_days_for_region (app : tsp_app) (region_num : Z) : option Z :=
  if negb (has_matrix app) then
    Some (match labels app with
          | Some ls => Z.max 1 (Qceiling (inject_Z (Z.of_nat (count_label ls (region_num - 1)%Z)) / 5))
          | None => 1%Z
          end)
  else
    let '(service_time_hours, work_hours) := config app in
    match labels app with
    | None => None
    | Some ls =>
        match region_customer_indices ls region_num with
        | [] => Some 1%Z
        | rci =>
            match matrix_indices app rci with
            | None => None
            | Some [] => Some 1%Z
            | Some mi => minimum_days_of_indices app service_time_hours work_hours mi
            end
        end
    end.

(** customers A, B, X at matrix indices 0, 1, 2 and the depot at 3: A and
    B are 1000 minutes apart, X is 1 minute from each, every depot leg is
    10 minutes; 1 hour of service, 8 work hours *)
Definition triangle_matrix (i j : nat) : option Q :=
  match i, j with
  | 0%nat, 1%nat | 1%nat, 0%nat => Some 1000
  | 0%nat, 2%nat | 2%nat, 0%nat | 1%nat, 2%nat | 2%nat, 1%nat => Some 1
  | 3%nat, _ | _, 3%nat => Some 10
  | _, _ => if (i =? j)%nat then Some 0 else None
  end.

Definition triangle_app (ls : list Z) : tsp_app :=
  {| has_matrix := true;
     labels := Some ls;
     service_time_var := Some 1;
     work_hours_var := Some 8;
     customer_postcodes := ["A"; "B"; "X"];
     customer_postcode_to_idx := [("A", 0%nat); ("B", 1%nat); ("X", 2%nat)];
     depot_postcode_idx := 3%nat;
     driving_time_matrix := triangle_matrix |}.

(** the territory {A, B} of [triangle_app [0; 0; 1]] with [-20] typed
    into the service-time entry *)
Definition negative_service_app : tsp_app :=
  {| has_matrix := true;
     labels := Some [0; 0; 1]%Z;
     service_time_var := Some (-20);
     work_hours_var := Some 8;
     customer_postcodes := ["A"; "B"; "X"];
     customer_postcode_to_idx := [("A", 0%nat); ("B", 1%nat); ("X", 2%nat)];
     depot_postcode_idx := 3%nat;
     driving_time_matrix := triangle_matrix |}.

End MinDays.


(* ------------------------------------------------------------------ *)
(** ** Python text conversions: [int(s, base)], [f"{n}"], [f"{n:02d}"],
    [f"{n:02x}"] and [str.split] on ASCII text *)

Module PyText.

(** [_PyLong_DigitValue]: 0-9, a-z and A-Z denote 0..35; anything else 37 *)
Definition digit_value (c : ascii) : Z :=
  let n := Z.of_nat (nat_of_ascii c) in
  if (48 <=? n) && (n <=? 57) then n - 48
  else if (97 <=? n) && (n <=? 122) then n - 87
  else if (65 <=? n) && (n <=? 90) then n - 55
  else 37.

(** the digit loop of [long_from_string_base]: [prev] records whether the
    previous character was an underscore; a double or trailing underscore
    is an error ([None]); it returns the value, the number of digits and
    the unread text *)
Fixpoint scan_digits (base : Z) (l : list ascii) (prev : bool) (acc : Z) (digits : nat)
    : option (Z * nat * list ascii) :=
  match l with
  | c :: r =>
      if bool_decide (c = "_"%char) then
        if prev then None else scan_digits base r true acc digits
      else if digit_value c <? base then
        scan_digits base r false (acc * base + digit_value c) (S digits)
      else if prev then None else Some (acc, digits, l)
  | [] => if prev then None else Some (acc, digits, [])
  end.

(** CPython's default [sys.get_int_max_str_digits()] *)
Definition max_str_digits : Z := 4300.

(** [int(s, base)] for a [str] [s] and base 10 or 16 ([PyLong_FromString]):
    surrounding whitespace, an optional sign, for base 16 an optional
    [0x]/[0X] prefix followed by at most one underscore, then digits with
    single underscores between them.  Base 10 refuses more than
    [max_str_digits] digits.  [None] where Python raises [ValueError]. *)
Definition parse_int (base : Z) (s : string) : option Z :=
  let l := PyStr.lstrip_list (list_ascii_of_string s) in
  let '(sign, l) :=
    match l with
    | "-"%char :: r => (-1, r)
    | "+"%char :: r => (1, r)
    | _ => (1, l)
    end in
  let l :=
    if base =? 16 then
      match l with
      | "0"%char :: x :: r =>
          if bool_decide (x = "x"%char \/ x = "X"%char) then
            match r with "_"%char :: r' => r' | _ => r end
          else l
      | _ => l
      end
    else l in
  match l with
  | "_"%char :: _ => None
  | _ =>
      match scan_digits base l false 0 0 with
      | None => None
      | Some (v, digits, rest) =>
          if (digits =? 0)%nat then None
          else if (base =? 10) && (max_str_digits <? Z.of_nat digits) then None
          else if forallb PyStr.is_space rest then Some (sign * v) else None
      end
  end.

(** the digits of [n >= 0] in base [b], most significant first; [fuel]
    bounds the number of divisions *)
Fixpoint to_digits (fuel : nat) (b n : Z) : list Z :=
  match fuel with
  | O => []
  | S f => if n <? b then [n] else to_digits f b (n / b) ++ [n mod b]
  end.

Definition digits_of (b n : Z) : list Z := to_digits (S (Z.to_nat n)) b n.

(** lower-case digit characters, as [format] writes them *)
Definition digit_char (d : Z) : ascii :=
  if d <? 10 then ascii_of_nat (Z.to_nat (48 + d)) else ascii_of_nat (Z.to_nat (87 + d)).

(** [format(n, f"0{width}" + ("d" | "x"))]: sign, zero fill, digits *)
Definition zfill_int (b : Z) (width : nat) (n : Z) : string :=
  let sign := if n <? 0 then ["-"%char] else [] in
  let ds := map digit_char (digits_of b (Z.abs n)) in
  string_of_list_ascii (sign ++ repeat "0"%char (width - length sign - length ds) ++ ds).

(** [f"{n}"] *)
Definition dec (n : Z) : string := zfill_int 10 0 n.

(** [str.split(sep)] with a one-character separator *)
Fixpoint split_aux (sep : ascii) (cur : list ascii) (l : list ascii) : list string :=
  match l with
  | [] => [string_of_list_ascii (rev cur)]
  | c :: r => if bool_decide (c = sep) then string_of_list_ascii (rev cur) :: split_aux sep [] r
              else split_aux sep (c :: cur) r
  end.

Definition split (sep : ascii) (s : string) : list string :=
  split_aux sep [] (list_ascii_of_string s).

End PyText.

(* ------------------------------------------------------------------ *)
(** ** Time slot strings (smart_scheduler_app.py) *)

Module SlotText.

(** the string [generate_time_slots] appends: [f"{hours}:{mins:02d}"] *)
Definition format_slot (t : slot) : string :=
  (PyText.dec t.1 ++ ":" ++ PyText.zfill_int 10 2 t.2)%string.

(** [time_to_minutes(time_str)]:
    [hours, mins = map(int, time_str.split(':'))]; [None] where the
    unpacking or [int] raises *)
Definition time_to_minutes (time_str : string) : option Z :=
  match PyText.split ":" time_str with
  | [h; m] =>
      match PyText.parse_int 10 h with
      | None => None
      | Some hours =>
          match PyText.parse_int 10 m with
          | None => None
          | Some mins => Some (hours * 60 + mins)
          end
      end
  | _ => None
  end.

(** [datetime.strptime(s, '%H:%M')]: the regular expression
    [(?P<H>2[0-3]|[0-1]\d|\d):(?P<M>[0-5]\d|\d)] is matched at the start of
    the text with backtracking over the alternatives in order, then
    [unconverted data remains] is raised unless the match reaches the end *)
Definition is_digit (c : ascii) : bool :=
  ((48 <=? nat_of_ascii c) && (nat_of_ascii c <=? 57))%nat.

Definition in_range (c lo hi : ascii) : bool :=
  ((nat_of_ascii lo <=? nat_of_ascii c) && (nat_of_ascii c <=? nat_of_ascii hi))%nat.

Definition dval (c : ascii) : Z := Z.of_nat (nat_of_ascii c) - 48.

(** the alternatives of [(?P<H>2[0-3]|[0-1]\d|\d)], in order: value and unread text *)
Definition H_alts (l : list ascii) : list (Z * list ascii) :=
  (match l with
   | c1 :: c2 :: r => if bool_decide (c1 = "2"%char) && in_range c2 "0" "3"
                      then [(10 * dval c1 + dval c2, r)] else []
   | _ => [] end) ++
  (match l with
   | c1 :: c2 :: r => if in_range c1 "0" "1" && is_digit c2
                      then [(10 * dval c1 + dval c2, r)] else []
   | _ => [] end) ++
  (match l with
   | c :: r => if is_digit c then [(dval c, r)] else []
   | _ => [] end).

(** the alternatives of [(?P<M>[0-5]\d|\d)] *)
Definition M_alts (l : list ascii) : list (Z * list ascii) :=
  (match l with
   | c1 :: c2 :: r => if in_range c1 "0" "5" && is_digit c2
                      then [(10 * dval c1 + dval c2, r)] else []
   | _ => [] end) ++
  (match l with
   | c :: r => if is_digit c then [(dval c, r)] else []
   | _ => [] end).

Fixpoint first_some {A B} (f : A -> option B) (l : list A) : option B :=
  match l with
  | [] => None
  | x :: r => match f x with Some y => Some y | None => first_some f r end
  end.

Definition match_HM (l : list ascii) : option (Z * Z * list ascii) :=
  first_some (fun hr =>
                match hr.2 with
                | ":"%char :: r => first_some (fun mr => Some (hr.1, mr.1, mr.2)) (M_alts r)
                | _ => None
                end) (H_alts l).

Definition strptime_HM (s : string) : option (Z * Z) :=
  match match_HM (list_ascii_of_string s) with
  | Some (h, m, []) => Some (h, m)
  | _ => None
  end.

(** [time_obj.strftime('%I:%M %p')] in the C locale *)
Definition strftime_IMp (h m : Z) : string :=
  let h12 := if h mod 12 =? 0 then 12 else h mod 12 in
  (PyText.zfill_int 10 2 h12 ++ ":" ++ PyText.zfill_int 10 2 m ++ " " ++
   (if (h <? 12)%Z then "AM" else "PM"))%string.

(** [format_time_12hour(time_slot)]: the bare [except] returns the input *)
Definition format_time_12hour (time_slot : string) : string :=
  match strptime_HM time_slot with
  | Some (h, m) => strftime_IMp h m
  | None => time_slot
  end.

(** one entry [(date, time_slot, minutes)] of [slots_by_date[date_str]] *)
Definition avail_slot := (string * string * Z)%type.

(** the loop grouping a date's sorted slots into ranges: [prev] is
    [slots[i-1]] *)
Fixpoint group_from (cur_start cur_end prev : avail_slot) (rest : list avail_slot)
    : list (avail_slot * avail_slot) :=
  match rest with
  | [] => [(cur_start, cur_end)]
  | s :: r =>
      if s.2 =? prev.2 + 30 then group_from cur_start s s r
      else (cur_start, cur_end) :: group_from s s s r
  end.

(** [ranges] of [format_availability_message] for one date; [None] where
    [slots[0]] raises *)
Definition group_ranges (slots : list avail_slot) : option (list (avail_slot * avail_slot)) :=
  match slots with
  | [] => None
  | s0 :: r => Some (group_from s0 s0 s0 r)
  end.

(** Python's [range(start, stop, step)] for [step > 0] *)
Definition py_range (start stop step : Z) : list Z :=
  map (fun i : nat => start + step * Z.of_nat i)
      (seq 0 (Z.to_nat ((stop - start + step - 1) / step))).

End SlotText.

(* ------------------------------------------------------------------ *)
(** ** [lighten_color] (smart_scheduler_app.py) *)

Module Colors.

Fixpoint lstrip_char (c : ascii) (l : list ascii) : list ascii :=
  match l with
  | x :: r => if bool_decide (x = c) then lstrip_char c r else l
  | [] => []
  end.

(** [lighten_color(hex_color, factor)]; [None] where an [int(..., 16)]
    raises *)
Definition lighten_color (hex_color : string) (factor : Q) : option string :=
  let h := string_of_list_ascii (lstrip_char "#" (list_ascii_of_string hex_color)) in
  match PyText.parse_int 16 (substring 0 2 h) with
  | None => None
  | Some r =>
      match PyText.parse_int 16 (substring 2 2 h) with
      | None => None
      | Some g =>
          match PyText.parse_int 16 (substring 4 2 h) with
          | None => None
          | Some b =>
              let r := PyStr.py_int (inject_Z r + inject_Z (255 - r) * factor) in
              let g := PyStr.py_int (inject_Z g + inject_Z (255 - g) * factor) in
              let b := PyStr.py_int (inject_Z b + inject_Z (255 - b) * factor) in
              Some ("#" ++ PyText.zfill_int 16 2 r ++ PyText.zfill_int 16 2 g
                        ++ PyText.zfill_int 16 2 b)%string
          end
      end
  end.

End Colors.


(* ------------------------------------------------------------------ *)
(** ** The event handlers around the scheduling engine *)

(** one row of [confirmed_appointments.csv] as [pd.read_csv] gives it;
    [None] where the column is missing or the cell is NaN *)
Record appt_row := {
  ar_postcode : string;
  ar_date : string;
  ar_time : slot;
  ar_duration : option Z;
  ar_in_outlook : option bool }.

(** [self.confirmed_appointments = {...}] *)
Definition set_confirmed (st : sched) (c : list (string * (string * slot * Z * bool))) : sched :=
  {| appointments := appointments st;
     confirmed_appointments := c;
     travel_segments := travel_segments st;
     conflicting_segments := conflicting_segments st;
     home_postcode := home_postcode st;
     travel_db := travel_db st;
     start_hour := start_hour st;
     end_hour := end_hour st;
     time_slots := time_slots st;
     appointment_duration_var := appointment_duration_var st;
     selected_dates := selected_dates st;
     postcode_var := postcode_var st |}.

(** the rest of [SmartSchedulerApp] the handlers read and write;
    [appointments_csv] is [None] when the path is [None], [Some None]
    when the file does not exist, [Some (Some rows)] otherwise *)
Record ui := {
  core : sched;
  pending_appointment : option (string * slot * string * Z);
  region_postcodes : list string;
  selected_region : option Z;
  appointments_csv : option (option (list appt_row)) }.

Definition set_core (u : ui) (st : sched) : ui :=
  {| core := st; pending_appointment := pending_appointment u;
     region_postcodes := region_postcodes u; selected_region := selected_region u;
     appointments_csv := appointments_csv u |}.

Definition set_pending (u : ui) (p : option (string * slot * string * Z)) : ui :=
  {| core := core u; pending_appointment := p;
     region_postcodes := region_postcodes u; selected_region := selected_region u;
     appointments_csv := appointments_csv u |}.

Definition set_csv (u : ui) (f : option (option (list appt_row))) : ui :=
  {| core := core u; pending_appointment := pending_appointment u;
     region_postcodes := region_postcodes u; selected_region := selected_region u;
     appointments_csv := f |}.

(** [pd.read_csv(self.appointments_csv)]; [None] where it raises *)
Definition read_csv (u : ui) : option (list appt_row) :=
  match appointments_csv u with Some (Some rows) => Some rows | _ => None end.

(** [self.recalculate_travel_times(date_str)] on the whole application *)
Definition recalc_ui (u : ui) (date_str : string) : option ui :=
  option_map (set_core u) (recalculate_travel_times (core u) date_str).

(** the second half of [on_cell_click]: pick the postcode and stage it *)
Definition stage_selected (u : ui) (date_str : string) (time_slot : slot)
    (selected_index : Z) : option ui :=
  if (selected_index <? 0) || (Z.of_nat (length (region_postcodes u)) <=? selected_index) then Some u
  else
    let postcode := default "" (nth_error (region_postcodes u) (Z.to_nat selected_index)) in
    let st := core u in
    if dict_mem postcode (confirmed_appointments st) then Some u
    else
      let st1 := set_appointments st (dict_set (date_str, time_slot) postcode (appointments st)) in
      match recalculate_travel_times st1 date_str with
      | None => None
      | Some st2 =>
          let st3 := (check_travel_conflicts st2 date_str).2 in
          Some (set_pending (set_core u st3)
                  (Some (date_str, time_slot, postcode, appointment_duration_var st3)))
      end.

(** [on_cell_click(date_str, time_slot)]: [answer] is what the yes/no
    dialog returns (at most one is shown), [selected_index] is
    [self.postcode_combo.current()]; [None] where it raises *)
Definition on_cell_click (u : ui) (date_str : string) (time_slot : slot)
    (answer : bool) (selected_index : Z) : option ui :=
  let cell_key := (date_str, time_slot) in
  let st := core u in
  match dict_get cell_key (appointments st) with
  | Some postcode =>
      if dict_mem postcode (confirmed_appointments st) then
        if answer then
          let st1 := set_confirmed st (dict_del postcode (confirmed_appointments st)) in
          match read_csv u with
          | None => None
          | Some df =>
              let u1 := set_csv (set_core u st1)
                          (Some (Some (filter (fun r => ar_postcode r <> postcode) df))) in
              recalc_ui (set_core u1 (set_appointments st1 (dict_del cell_key (appointments st1)))) date_str
          end
        else Some u
      else
        recalc_ui (set_pending (set_core u (set_appointments st (dict_del cell_key (appointments st)))) None)
                  date_str
  | None =>
      match pending_appointment u with
      | Some (pending_date, pending_time, _, _) =>
          if answer then
            let old_key := (pending_date, pending_time) in
            let a := appointments st in
            let a := if dict_mem old_key a then dict_del old_key a else a in
            match recalc_ui (set_pending (set_core u (set_appointments st a)) None) pending_date with
            | None => None
            | Some u1 => stage_selected u1 date_str time_slot selected_index
            end
          else Some u
      | None => stage_selected u date_str time_slot selected_index
      end
  end.

(** [submit_appointment()]: [dialog] is what [show_submit_dialog] returns
    ([None] on cancel), [outlook_success] what creating the Outlook item
    gives *)
Definition submit_appointment (u : ui) (dialog : option bool) (outlook_success : bool) : option ui :=
  match pending_appointment u with
  | None => Some u
  | Some (date, time, postcode, duration) =>
      let st := core u in
      let actual_postcode := display_text_to_postcode (travel_db st) postcode in
      if dict_mem actual_postcode (confirmed_appointments st) then Some u
      else
        match dialog with
        | None => Some u
        | Some add_to_outlook =>
            let in_outlook := if add_to_outlook then outlook_success else false in
            let st1 := set_confirmed st (dict_set actual_postcode (date, time, duration, in_outlook)
                                                  (confirmed_appointments st)) in
            match read_csv u with
            | None => None
            | Some df =>
                let new_row := {| ar_postcode := actual_postcode; ar_date := date; ar_time := time;
                                  ar_duration := Some duration; ar_in_outlook := Some in_outlook |} in
                Some (set_pending (set_csv (set_core u st1) (Some (Some (df ++ [new_row])))) None)
            end
        end
  end.

(** [if not self.selected_region]: [None] and region [0] are falsy *)
Definition region_truthy (r : option Z) : bool :=
  match r with Some z => negb (z =? 0) | None => false end.

(** [clear_schedule()]: [answer] is the yes/no dialog's result *)
Definition clear_schedule (u : ui) (answer : bool) : ui :=
  if negb (region_truthy (selected_region u)) then u else
  let region_postcodes_set := region_postcodes u in
  let st := core u in
  let region_appointments :=
    filter (fun kv => kv.1 ∈ region_postcodes_set) (confirmed_appointments st) in
  let region_pending := match pending_appointment u with
                        | Some (_, _, p, _) => bool_decide (p ∈ region_postcodes_set)
                        | None => false end in
  if bool_decide (region_appointments = []) && negb region_pending then u
  else if negb answer then u
  else
    let a := fold_left (fun a kv => if bool_decide (kv.2 ∈ region_postcodes_set) then dict_del kv.1 a else a)
                       (appointments st) (appointments st) in
    let c := fold_left (fun c kv => dict_del kv.1 c) region_appointments (confirmed_appointments st) in
    let segs := filter (fun s => seg_date s ∉ selected_dates st) (travel_segments st) in
    let st1 := set_travel (set_confirmed (set_appointments st a) c) segs ∅ in
    let u1 := set_core u st1 in
    let u1 := if region_pending then set_pending u1 None else u1 in
    match appointments_csv u1 with
    | Some (Some df) =>
        set_csv u1 (Some (Some (filter (fun r => ar_postcode r ∉ region_postcodes_set) df)))
    | _ => u1
    end.

(** the value [load_confirmed_appointments] stores for one CSV row *)
Definition row_entry (r : appt_row) : string * (string * slot * Z * bool) :=
  (ar_postcode r, (ar_date r, ar_time r, default 60 (ar_duration r), default false (ar_in_outlook r))).

Fixpoint load_appointments (st : sched) (items : list (string * (string * slot * Z * bool))) : option sched :=
  match items with
  | [] => Some st
  | (postcode, (date, time, _, _)) :: r =>
      match recalculate_travel_times (set_appointments st (dict_set (date, time) postcode (appointments st))) date with
      | None => None
      | Some st1 => load_appointments st1 r
      end
  end.

(** [load_confirmed_appointments()]; [None] where it raises ([Path]
    is [None], or [time_slots.index] fails) *)
Definition load_confirmed_appointments (u : ui) : option ui :=
  match appointments_csv u with
  | None => None
  | Some None => Some (set_csv u (Some (Some [])))
  | Some (Some df) =>
      let c := fold_left (fun c r => dict_set (row_entry r).1 (row_entry r).2 c) df [] in
      let st := set_confirmed (core u) c in
      option_map (set_core u) (load_appointments st c)
  end.

(** the CSV file holds exactly the confirmed appointments, one row per
    postcode: reloading it gives [confirmed_appointments] back *)
Definition csv_synced (u : ui) : Prop :=
  exists rows, appointments_csv u = Some (Some rows) /\ NoDup (map ar_postcode rows) /\
    confirmed_appointments (core u) ≡ₚ map row_entry rows.

(* ------------------------------------------------------------------ *)
(** ** Region names and colours (tsp_clustering_app.py) *)

Module RegionColors.

(** [region_names.csv] as [pd.read_csv] gives it: rows [(region, name,
    color_code)]; [has_color_code] tells whether the column exists *)
Record names_csv := {
  has_color_code : bool;
  nrows : list (Z * string * Z) }.

(** the fields of [TSPClusteringApp] the region colour code reads and
    writes; [n_clusters] is [0] where it is [None] (both are falsy),
    [output_dir] is whether it is set, [region_names_csv] is [None] when
    the file does not exist *)
Record tsp_regions := {
  n_clusters : Z;
  region_names : list (Z * string);
  region_colors : list (Z * Z);
  output_dir : bool;
  region_names_csv : option names_csv }.

Definition set_colors (s : tsp_regions) (c : list (Z * Z)) : tsp_regions :=
  {| n_clusters := n_clusters s; region_names := region_names s; region_colors := c;
     output_dir := output_dir s; region_names_csv := region_names_csv s |}.

Definition set_names (s : tsp_regions) (n : list (Z * string)) : tsp_regions :=
  {| n_clusters := n_clusters s; region_names := n; region_colors := region_colors s;
     output_dir := output_dir s; region_names_csv := region_names_csv s |}.

Definition set_names_csv (s : tsp_regions) (f : option names_csv) : tsp_regions :=
  {| n_clusters := n_clusters s; region_names := region_names s; region_colors := region_colors s;
     output_dir := output_dir s; region_names_csv := f |}.

(** [range(a, a + n)] *)
Definition z_range (a n : Z) : list Z := map (fun i => a + Z.of_nat i) (seq 0 (Z.to_nat n)).

(** [f"Region {region}"] *)
Definition default_region_name (region : Z) : string := ("Region " ++ PyText.dec region)%string.

(** [save_region_colors()]: the file is written when [data] is not empty
    and removed otherwise *)
Definition save_region_colors (s : tsp_regions) : tsp_regions :=
  if negb (output_dir s) then s else
  let all_regions :=
    if negb (n_clusters s =? 0) then z_range 1 (n_clusters s)
    else merge_sort Z.le (remove_dups ((region_names s).*1 ++ (region_colors s).*1)) in
  let data := map (fun region => (region, default (default_region_name region) (dict_get region (region_names s)),
                                  default 1 (dict_get region (region_colors s)))) all_regions in
  match data with
  | [] => set_names_csv s None
  | _ => set_names_csv s (Some {| has_color_code := true; nrows := data |})
  end.

(** [load_region_colors()] *)
Definition load_region_colors (s : tsp_regions) : tsp_regions :=
  if negb (output_dir s) then s else
  match region_names_csv s with
  | None => s
  | Some df =>
      set_colors s (if has_color_code df
                    then fold_left (fun c row => dict_set row.1.1 row.2 c) (nrows df) []
                    else [])
  end.

(** [load_region_names()]: names and colours from the same loop *)
Definition load_region_names (s : tsp_regions) : tsp_regions :=
  if negb (output_dir s) then s else
  match region_names_csv s with
  | None => s
  | Some df =>
      let '(names, colors) :=
        fold_left (fun nc row =>
                     let names := dict_set row.1.1 row.1.2 nc.1 in
                     (names, if has_color_code df then dict_set row.1.1 row.2 nc.2 else nc.2))
                  (nrows df) ([], []) in
      set_colors (set_names s names) colors
  end.

(** [auto_assign_default_colors()] *)
Definition auto_assign_default_colors (s : tsp_regions) : tsp_regions :=
  if n_clusters s =? 0 then s else
  let colors :=
    fold_left (fun c i => let region_num := i + 1 in
                          if dict_mem region_num c then c
                          else dict_set region_num ((i mod 24) + 1) c)
              (z_range 0 (n_clusters s)) (region_colors s) in
  save_region_colors (set_colors s colors).

End RegionColors.

(* ------------------------------------------------------------------ *)
(** ** Concrete scheduler states used by the examples below *)

Definition dist (o d : string) (t : Q) : dist_row :=
  {| origin := o; destination := d; driving_time_minutes := t |}.

(** a scheduler state with no segments computed yet *)
Definition mk_sched (appts : list appt_entry)
    (confirmed : list (string * (string * slot * Z * bool)))
    (home : option string) (rows : list dist_row) (slots : list slot)
    (duration : Z) (dates : list string) (postcode : string) : sched :=
  {| appointments := appts;
     confirmed_appointments := confirmed;
     travel_segments := [];
     conflicting_segments := ∅;
     home_postcode := home;
     travel_db := {| distances_df := Some rows; clustered_regions_df := None;
                     has_client_name_column := false |};
     start_hour := 8; end_hour := 19;
     time_slots := slots;
     appointment_duration_var := duration;
     selected_dates := dates;
     postcode_var := postcode |}.

(** depot D, X 45 min from D, Y 20 min from D, X and Y 10 min apart *)
Definition scenario_rows : list dist_row :=
  [dist "D" "X" (45 # 1); dist "Y" "D" (20 # 1); dist "X" "Y" (10 # 1)].

(** two appointments on one date, listed out of time order in the dict *)
Definition two_day_sched : sched :=
  mk_sched [(("05-Jan-26", (9, 0)), "X"); (("05-Jan-26", (8, 0)), "Y")] []
    (Some "D") scenario_rows (generate_time_slots 8 10) 60 ["05-Jan-26"] "X".

Definition two_day_sorted : list appt_entry :=
  [(("05-Jan-26", (8, 0)), "Y"); (("05-Jan-26", (9, 0)), "X")].

(** one recorded row, in the B -> A direction only, at 13.5 minutes *)
Definition one_row_db : travel_data :=
  {| distances_df := Some [dist "B" "A" (27 # 2)]; clustered_regions_df := None;
     has_client_name_column := false |}.

(** one appointment at X, 18:30, 60 minutes: the drive home ends at 20:15 *)
Definition late_sched : sched :=
  mk_sched [(("05-Jan-26", (18, 30)), "X")] [] (Some "D") scenario_rows
    (generate_time_slots 8 19) 60 ["05-Jan-26"] "X".

(** an empty day probed for X over the slots 8:00-9:30 *)
Definition probe_sched : sched :=
  mk_sched [] [] (Some "D") scenario_rows (generate_time_slots 8 10) 60 ["05-Jan-26"] "X".

(** an empty day probed for X over the full 8:00-19:00 grid *)
Definition full_day_sched : sched :=
  mk_sched [] [] (Some "D") scenario_rows (generate_time_slots 8 19) 60 ["05-Jan-26"] "X".

(** the spec's scenario (§8): depot D, appointment A at X 09:00 (60 min,
    the spinbox duration), window 08:00-19:00; Y is a confirmed
    appointment of 45 minutes at 08:30, not yet on the timetable *)
Definition scenario_with (td : travel_data) : sched :=
  {| appointments := [(("05-Jan-26", (9, 0)), "X")];
     confirmed_appointments := [("Y", ("05-Jan-26", (8, 30), 45, false))];
     travel_segments := [];
     conflicting_segments := ∅;
     home_postcode := Some "D";
     travel_db := td;
     start_hour := 8; end_hour := 19;
     time_slots := generate_time_slots 8 19;
     appointment_duration_var := 60;
     selected_dates := ["05-Jan-26"];
     postcode_var := "Y" |}.

Definition scenario_db : travel_data :=
  {| distances_df := Some scenario_rows; clustered_regions_df := None;
     has_client_name_column := false |}.


(** a row of [confirmed_appointments.csv]: Y at 08:30 for 45 minutes *)
Definition y_row : appt_row :=
  {| ar_postcode := "Y"; ar_date := "05-Jan-26"; ar_time := (8, 30);
     ar_duration := Some 45; ar_in_outlook := Some false |}.

(** a row for X at 09:00 with both optional columns empty *)
Definition x_row : appt_row :=
  {| ar_postcode := "X"; ar_date := "05-Jan-26"; ar_time := (9, 0);
     ar_duration := None; ar_in_outlook := None |}.

(** a second row for Y, at 11:00 *)
Definition y_late_row : appt_row :=
  {| ar_postcode := "Y"; ar_date := "05-Jan-26"; ar_time := (11, 0);
     ar_duration := Some 30; ar_in_outlook := Some true |}.

(** Y confirmed at 08:30 and X placed at 09:00, both on the timetable *)
Definition demo_sched : sched :=
  mk_sched [(("05-Jan-26", (8, 30)), "Y"); (("05-Jan-26", (9, 0)), "X")]
    [("Y", ("05-Jan-26", (8, 30), 45, false))] (Some "D") scenario_rows
    (generate_time_slots 8 19) 60 ["05-Jan-26"] "X".

(** region 1 (X and Y) selected, the CSV holding Y's row *)
Definition demo_ui : ui :=
  {| core := demo_sched; pending_appointment := None;
     region_postcodes := ["X"; "Y"]; selected_region := Some 1;
     appointments_csv := Some (Some [y_row]) |}.

(** an empty timetable about to load the CSV rows [rows] *)
Definition load_ui (rows : list appt_row) : ui :=
  {| core := full_day_sched; pending_appointment := None;
     region_postcodes := ["X"; "Y"]; selected_region := Some 1;
     appointments_csv := Some (Some rows) |}.

(** three regions, a name for region 2, colours for regions 1 and 7 *)
Definition demo_regions (n : Z) : RegionColors.tsp_regions :=
  {| RegionColors.n_clusters := n; RegionColors.region_names := [(2, "North")];
     RegionColors.region_colors := [(1, 5); (7, 9)]; RegionColors.output_dir := true;
     RegionColors.region_names_csv := None |}.

(* ------------------------------------------------------------------ *)
(** ** Lemmas: the stable sort *)

Section SortBy.
Context {A : Type} (key : A -> nat).

Definition key_le (a b : A) : Prop := (key a <= key b)%nat.

Lemma insert_by_perm (x : A) (l : list A) : insert_by key x l ≡ₚ x :: l.
Proof.
  induction l as [|y r IH]; simpl; [done|].
  destruct (key x <? key y)%nat; [done|].
  rewrite IH. constructor.
Qed.

Lemma sort_by_acc_perm (l acc : list A) :
  fold_left (fun acc x => insert_by key x acc) l acc ≡ₚ l ++ acc.
Proof.
  revert acc; induction l as [|x r IH]; intros acc; simpl; [done|].
  rewrite IH, insert_by_perm. symmetry. apply Permutation_middle.
Qed.

Lemma sort_by_perm (l : list A) : sort_by key l ≡ₚ l.
Proof. unfold sort_by. by rewrite sort_by_acc_perm, app_nil_r. Qed.

Lemma insert_by_sorted (x : A) (l : list A) :
  StronglySorted key_le l -> StronglySorted key_le (insert_by key x l).
Proof.
  induction 1 as [|y r Hr IH Hy]; simpl.
  - repeat constructor.
  - destruct (key x <? key y)%nat eqn:E.
    + apply Nat.ltb_lt in E.
      constructor; [constructor; done|].
      constructor; [unfold key_le; lia|].
      eapply Forall_impl; [exact Hy|]. unfold key_le; intros; lia.
    + apply Nat.ltb_ge in E.
      constructor; [exact IH|].
      rewrite (insert_by_perm x r). constructor; [unfold key_le; lia|done].
Qed.

Lemma sort_by_sorted (l : list A) : StronglySorted key_le (sort_by key l).
Proof.
  unfold sort_by.
  assert (Hgen : forall acc, StronglySorted key_le acc ->
            StronglySorted key_le (fold_left (fun acc x => insert_by key x acc) l acc)).
  { induction l as [|x r IH]; intros acc Hacc; simpl; [done|].
    apply IH, insert_by_sorted, Hacc. }
  apply Hgen. constructor.
Qed.

End SortBy.

Lemma StronglySorted_weaken_in {A} (R R' : A -> A -> Prop) (l : list A) :
  (forall x y, x ∈ l -> y ∈ l -> R x y -> R' x y) ->
  StronglySorted R l -> StronglySorted R' l.
Proof.
  intros HR Hs. induction Hs as [|a l Hl IH Ha]; constructor.
  - apply IH. intros x y ???.
    apply HR; [by apply elem_of_cons; right|by apply elem_of_cons; right|done].
  - rewrite Forall_forall in Ha |- *. intros y Hy.
    apply HR; [by apply elem_of_cons; left|by apply elem_of_cons; right|].
    by apply Ha.
Qed.

Lemma StronglySorted_lookup_lt {A} (R : A -> A -> Prop) (l : list A) i j x y :
  StronglySorted R l -> l !! i = Some x -> l !! j = Some y -> (i < j)%nat -> R x y.
Proof.
  intros Hs. revert i j. induction Hs as [|a l Hl IH Ha]; intros i j Hi Hj Hij; [done|].
  destruct i as [|i], j as [|j]; simpl in *; try lia.
  - injection Hi as <-. rewrite Forall_forall in Ha. apply Ha.
    by eapply list_elem_of_lookup_2.
  - eapply IH; eauto; lia.
Qed.

(* ------------------------------------------------------------------ *)
(** ** Lemmas: [index_of] *)

Lemma index_of_lookup (x : slot) (ts : list slot) (i : nat) :
  index_of x ts = Some i -> ts !! i = Some x.
Proof.
  revert i; induction ts as [|y r IH]; intros i; simpl; [discriminate|].
  case_bool_decide; [intros [= <-]; by subst|].
  destruct (index_of x r) eqn:E; simpl; [|discriminate].
  intros [= <-]. simpl. by apply IH.
Qed.

Lemma index_of_elem (x : slot) (ts : list slot) :
  x ∈ ts -> is_Some (index_of x ts).
Proof.
  induction ts as [|y r IH]; simpl; [by intros ?%elem_of_nil|].
  case_bool_decide; [by eexists|].
  rewrite elem_of_cons. intros [->|Hx]; [done|].
  destruct (IH Hx) as [i ->]. by eexists.
Qed.

Lemma index_of_order (ts : list slot) (x y : slot) (i j : nat) :
  StronglySorted (fun a b => time_to_minutes a < time_to_minutes b) ts ->
  index_of x ts = Some i -> index_of y ts = Some j ->
  time_to_minutes x < time_to_minutes y -> (i < j)%nat.
Proof.
  intros Hs Hi Hj Hlt.
  apply index_of_lookup in Hi, Hj.
  destruct (Nat.lt_total i j) as [?|[->|?]]; [done| |].
  - rewrite Hi in Hj. injection Hj as ->. lia.
  - pose proof (StronglySorted_lookup_lt _ _ _ _ _ _ Hs Hj Hi H). simpl in *. lia.
Qed.

Lemma NoDup_fst_unique {K V} (l : list (K * V)) (k : K) (v1 v2 : V) :
  NoDup l.*1 -> (k, v1) ∈ l -> (k, v2) ∈ l -> v1 = v2.
Proof.
  induction l as [|[k' v'] r IH]; simpl; [by intros _ ?%elem_of_nil|].
  rewrite NoDup_cons, !elem_of_cons. intros [Hn Hd] H1 H2.
  destruct H1 as [[= -> ->]|H1], H2 as [[= ->]|H2]; try done.
  - destruct Hn. apply list_elem_of_fmap. by exists (k', v2).
  - destruct Hn. apply list_elem_of_fmap. by exists (k', v1).
  - by apply IH.
Qed.

(* ------------------------------------------------------------------ *)
(** ** Lemmas: the recalculated itinerary *)

Lemma date_appointments_elem (st : sched) (d : string) (x : appt_entry) :
  x ∈ date_appointments st d <-> x.1.1 = d /\ x ∈ appointments st.
Proof. unfold date_appointments. by rewrite list_elem_of_filter. Qed.

Lemma sort_date_appointments_sorted (st : sched) (d : string) (l : list appt_entry) :
  StronglySorted (fun a b => time_to_minutes a < time_to_minutes b) (time_slots st) ->
  NoDup (appointments st).*1 ->
  Forall (fun a => appt_slot a ∈ time_slots st) (date_appointments st d) ->
  l ≡ₚ date_appointments st d ->
  StronglySorted (fun a b => time_to_minutes (appt_slot a) < time_to_minutes (appt_slot b)) l ->
  sort_date_appointments st (date_appointments st d) = Some l.
Proof.
  intros Hts Hnd Hin Hp Hl.
  rewrite Forall_forall in Hin.
  assert (Hidx : forall x, x ∈ date_appointments st d ->
            index_of (appt_slot x) (time_slots st) = Some (slot_index st x)).
  { intros x Hx. destruct (index_of_elem _ _ (Hin x Hx)) as [i Hi].
    unfold slot_index. by rewrite Hi. }
  unfold sort_date_appointments.
  replace (forallb _ _) with true; last first.
  { symmetry. apply forallb_forall. intros x Hx%list_elem_of_In.
    apply bool_decide_eq_true_2. by rewrite (Hidx x Hx). }
  f_equal.
  apply (StronglySorted_unique_strong (key_le (slot_index st))).
  - intros x1 x2 H1 H2 H12 H21.
    rewrite (sort_by_perm (slot_index st)) in H1. rewrite Hp in H2.
    assert (Heq : slot_index st x1 = slot_index st x2) by (unfold key_le in *; lia).
    pose proof (index_of_lookup _ _ _ (Hidx x1 H1)) as L1.
    pose proof (index_of_lookup _ _ _ (Hidx x2 H2)) as L2.
    rewrite Heq, L2 in L1. injection L1 as Hs.
    apply date_appointments_elem in H1 as [Hd1 H1], H2 as [Hd2 H2].
    destruct x1 as [[d1 s1] p1], x2 as [[d2 s2] p2].
    unfold appt_slot in Hs; simpl in *; subst.
    f_equal. eapply (NoDup_fst_unique (appointments st)); eauto.
  - apply sort_by_sorted.
  - revert Hl. apply StronglySorted_weaken_in.
    intros x y Hx Hy Hxy. rewrite Hp in Hx, Hy. unfold key_le.
    pose proof (index_of_order _ _ _ _ _ Hts (Hidx x Hx) (Hidx y Hy) Hxy). lia.
  - by rewrite sort_by_perm.
Qed.

Lemma last_default {A} (dflt a : A) (l : list A) :
  default dflt (last (a :: l)) = List.last (a :: l) a.
Proof.
  revert a. induction l as [|b r IH]; intros a; [done|].
  rewrite last_cons_cons. change (List.last (a :: b :: r) a) with (List.last (b :: r) a).
  rewrite IH. destruct r; simpl; [done|].
  clear IH. revert b a0. induction r as [|c r IH]; intros b x; [done|]. simpl in *. apply IH.
Qed.

Lemma nth_seq_zip {A B} (f : A -> A -> B) (dflt : A) (l : list A) :
  map (fun i => f (nth i l dflt) (nth (S i) l dflt)) (seq 0 (length l - 1))
  = map (fun p => f p.1 p.2) (zip l (tail l)).
Proof.
  induction l as [|a [|b r] IH]; [done|done|].
  simpl length in *. simpl in IH |- *.
  replace (length r - 0)%nat with (length r) in * by lia.
  rewrite <- seq_shift, map_map. f_equal. exact IH.
Qed.

Lemma between_segments_zip (st : sched) (d : string) (l : list appt_entry) :
  between_segments st d l
  = map (fun p => between_segment st d p.1 p.2) (zip l (tail l)).
Proof. apply nth_seq_zip. Qed.

Lemma filter_date_out (d : string) (xs : list segment) :
  filter (fun s => seg_date s = d) (filter (fun s => seg_date s <> d) xs) = [].
Proof.
  induction xs as [|x r IH]; [done|].
  rewrite filter_cons. case_decide; [|done].
  rewrite filter_cons, decide_False; done.
Qed.

Lemma filter_date_all (d : string) (xs : list segment) :
  Forall (fun s => seg_date s = d) xs -> filter (fun s => seg_date s = d) xs = xs.
Proof.
  induction 1 as [|x r Hx _ IH]; [done|].
  rewrite filter_cons, decide_True by done. by f_equal.
Qed.

(* ------------------------------------------------------------------ *)
(** ** Claims about the travel engine *)

Lemma recalculate_itinerary (st : sched) (d h : string) (l : list appt_entry) :
  home_set st = Some h ->
  StronglySorted (fun a b => time_to_minutes a < time_to_minutes b) (time_slots st) ->
  NoDup (appointments st).*1 ->
  Forall (fun a => appt_slot a ∈ time_slots st) (date_appointments st d) ->
  l ≡ₚ date_appointments st d ->
  StronglySorted (fun a b => time_to_minutes (appt_slot a) < time_to_minutes (appt_slot b)) l ->
  l <> [] ->
  exists segs conf, recalculate_travel_times st d = Some (set_travel st segs conf) /\
    filter (fun s => seg_date s = d) segs = spec_day_segments st d h l /\
    filter (fun k : string * Z * Z => k.1.1 = d) conf = spec_day_window_flags st d h l.
Proof.
  intros Hh Hts Hnd Hin Hp Hl Hne.
  pose proof (sort_date_appointments_sorted st d l Hts Hnd Hin Hp Hl) as Hsort.
  unfold recalculate_travel_times.
  destruct (date_appointments st d) as [|a0 L'] eqn:EL.
  { apply Permutation_nil_r in Hp. done. }
  rewrite Hsort.
  destruct l as [|first rest]; [done|].
  unfold from_home_part, to_home_part. rewrite Hh.
  rewrite (last_default dummy_appt first rest). simpl nth.
  eexists _, _; split; [reflexivity|]. split.
  - rewrite filter_app, filter_date_out, app_nil_l.
    rewrite filter_date_all; last first.
    { apply Forall_app_2; [repeat constructor|].
      apply Forall_app_2; [|repeat constructor].
      rewrite between_segments_zip. apply List.Forall_map, List.Forall_forall. done. }
    rewrite between_segments_zip. reflexivity.
  - apply set_eq. intros k.
    rewrite elem_of_filter, !elem_of_union, elem_of_filter.
    unfold spec_day_window_flags. repeat case_bool_decide. all: try set_solver.
Qed.


(** C1: with a home postcode configured and the date's appointments
    listed [l] in start-time order, [recalculate_travel_times] leaves for
    that date exactly one FROM_DEPOT segment
    [first_start - travel(depot, first), first_start), one BETWEEN segment
    [prev_start + prev_duration, + travel(prev, next)) per consecutive
    pair and one TO_DEPOT segment
    [last_start + last_duration, + travel(last, depot)); the date's
    conflict flags are then exactly the FROM_DEPOT key when it starts
    before the window and the TO_DEPOT key when it ends after it, so no
    BETWEEN segment is flagged against the window. *)
Theorem recalculate_travel_times_day_itinerary (st : sched) (d h : string) (l : list appt_entry) :
  home_set st = Some h ->
  StronglySorted (fun a b => time_to_minutes a < time_to_minutes b) (time_slots st) ->
  NoDup (appointments st).*1 ->
  Forall (fun a => appt_slot a ∈ time_slots st) (date_appointments st d) ->
  l ≡ₚ date_appointments st d ->
  StronglySorted (fun a b => time_to_minutes (appt_slot a) < time_to_minutes (appt_slot b)) l ->
  l <> [] ->
  exists st', recalculate_travel_times st d = Some st' /\
    filter (fun s => seg_date s = d) (travel_segments st') = spec_day_segments st d h l /\
    filter (fun k : string * Z * Z => k.1.1 = d) (conflicting_segments st')
      = spec_day_window_flags st d h l.
Proof.
  intros Hh Hts Hnd Hin Hp Hl Hne.
  destruct (recalculate_itinerary st d h l Hh Hts Hnd Hin Hp Hl Hne)
    as (segs & conf & Hr & Hs & Hc).
  exists (set_travel st segs conf). done.
Qed.

Lemma recalculate_travel_times_day_itinerary_witness :
  exists st', recalculate_travel_times two_day_sched "05-Jan-26" = Some st' /\
    filter (fun s => seg_date s = "05-Jan-26") (travel_segments st')
      = spec_day_segments two_day_sched "05-Jan-26" "D" two_day_sorted /\
    filter (fun k : string * Z * Z => k.1.1 = "05-Jan-26") (conflicting_segments st')
      = spec_day_window_flags two_day_sched "05-Jan-26" "D" two_day_sorted.
Proof.
  apply (recalculate_travel_times_day_itinerary two_day_sched "05-Jan-26" "D" two_day_sorted);
    try (apply (bool_decide_unpack _); vm_compute; reflexivity).
Defined.

(* ------------------------------------------------------------------ *)
(** ** Travel-time lookup *)

Lemma row_matches_sym (o d : string) (r : dist_row) :
  row_matches o d r = row_matches d o r.
Proof. unfold row_matches. apply bool_decide_ext. tauto. Qed.

Lemma find_ext {A} (f g : A -> bool) (l : list A) :
  (forall x, f x = g x) -> find f l = find g l.
Proof.
  intros Hfg. induction l as [|x r IH]; simpl; [done|]. by rewrite Hfg, IH.
Qed.

Lemma get_travel_time_sym (td : travel_data) (a b : string) :
  get_travel_time td a b = get_travel_time td b a.
Proof.
  unfold get_travel_time. destruct (distances_df td) as [df|]; [|done].
  rewrite orb_comm.
  destruct (negb (PyStr.truthy b) || negb (PyStr.truthy a)); [done|].
  rewrite (bool_decide_ext (normalize_postcode td a = normalize_postcode td b)
             (normalize_postcode td b = normalize_postcode td a)) by (split; congruence).
  destruct (bool_decide _); [done|].
  rewrite (find_ext (row_matches (normalize_postcode td a) (normalize_postcode td b))
             (row_matches (normalize_postcode td b) (normalize_postcode td a)))
    by (intros; apply row_matches_sym).
  done.
Qed.

Lemma get_travel_time_nonneg (td : travel_data) (a b : string) : 0 <= get_travel_time td a b.
Proof.
  unfold get_travel_time. destruct (distances_df td); [|lia].
  destruct (_ || _); [lia|]. destruct (bool_decide _); [lia|].
  destruct (find _ _); [|lia]. destruct (PyStr.Qlt_bool _ _); lia.
Qed.

(** C9: the travel-time lookup is symmetric, also when the distance data
    holds a row for one ordering only (the row filter accepts both). *)
Theorem get_travel_time_symmetric (td : travel_data) (a b : string) :
  get_travel_time td a b = get_travel_time td b a.
Proof. apply get_travel_time_sym. Qed.

(** C10: for two non-empty postcodes that normalise to distinct ones and
    have a matching row, the lookup returns [max(int(t), 1)] for the first
    matching row's time [t] when [t > 0] ([int] is the floor there), and
    the 30-minute fallback, the value returned for a missing pair, when
    [t <= 0]. *)
Theorem get_travel_time_recorded (td : travel_data) (a b : string) (df : list dist_row) (r : dist_row) :
  distances_df td = Some df ->
  a <> "" -> b <> "" ->
  normalize_postcode td a <> normalize_postcode td b ->
  find (row_matches (normalize_postcode td a) (normalize_postcode td b)) df = Some r ->
  ((0 < driving_time_minutes r)%Q ->
     get_travel_time td a b = Z.max (Qfloor (driving_time_minutes r)) 1)
  /\ ((driving_time_minutes r <= 0)%Q -> get_travel_time td a b = 30).
Proof.
  intros Hdf Ha Hb Hne Hfind.
  unfold get_travel_time. rewrite Hdf.
  destruct a as [|ca a]; [done|]. destruct b as [|cb b]; [done|]. simpl negb. simpl orb.
  rewrite bool_decide_eq_false_2 by exact Hne. rewrite Hfind.
  unfold PyStr.Qlt_bool, PyStr.py_int. split.
  - intros Hpos.
    replace (Qle_bool (driving_time_minutes r) 0) with false; last first.
    { symmetry. apply not_true_iff_false. rewrite Qle_bool_iff.
      intros Hle. apply (Qlt_not_le _ _ Hpos Hle). }
    replace (Qle_bool 0 (driving_time_minutes r)) with true; [done|].
    symmetry. apply Qle_bool_iff, Qlt_le_weak, Hpos.
  - intros Hle. replace (Qle_bool (driving_time_minutes r) 0) with true; [done|].
    symmetry. by apply Qle_bool_iff.
Qed.

Lemma get_travel_time_recorded_witness :
  ((0 < 27 # 2)%Q -> get_travel_time one_row_db "A" "B" = Z.max (Qfloor (27 # 2)) 1)
  /\ ((27 # 2 <= 0)%Q -> get_travel_time one_row_db "A" "B" = 30).
Proof.
  apply (get_travel_time_recorded one_row_db "A" "B" [dist "B" "A" (27 # 2)]
           (dist "B" "A" (27 # 2)));
    try (apply (bool_decide_unpack _); vm_compute; reflexivity); reflexivity.
Defined.

(** C2 (code bug): [recalculate_travel_times] flags the TO_DEPOT segment
    [18:30 + 60, + 45) = [19:30, 20:15) for ending after 19:00, and the
    following [check_travel_conflicts], which starts with
    [self.conflicting_segments = set()], drops that flag: the segment
    overlaps no appointment. *)
Theorem check_travel_conflicts_drops_window_flag :
  exists st1, recalculate_travel_times late_sched "05-Jan-26" = Some st1 /\
    ("05-Jan-26", 1170, 1215) ∈ conflicting_segments st1 /\
    (check_travel_conflicts st1 "05-Jan-26").1 = [] /\
    ("05-Jan-26", 1170, 1215) ∉ conflicting_segments (check_travel_conflicts st1 "05-Jan-26").2.
Proof.
  eexists; split; [vm_compute; reflexivity|].
  apply (bool_decide_unpack _); vm_compute; reflexivity.
Qed.

(** C6 (code bug): probing leaves the travel segments of the last probed
    slot in the state (the speculative appointment is deleted without a new
    [recalculate_travel_times]); a second call still returns the same
    slots. *)
Theorem get_available_slots_leaks_segments :
  exists res st',
    get_available_slots probe_sched = Some (res, st') /\
    travel_segments probe_sched = [] /\ travel_segments st' <> [] /\
    appointments st' = appointments probe_sched /\
    option_map fst (get_available_slots st') = Some res.
Proof.
  eexists _, _; split; [vm_compute; reflexivity|].
  vm_compute. split; [reflexivity|]. split; [discriminate|]. split; reflexivity.
Qed.

(** C7 (code bug): with a 60-minute duration the slot 18:30 is offered
    although the appointment ends at 19:30, after the 19:00 window end
    ([end_minutes // 60 > end_hour] admits any end before 20:00, and the
    TO_DEPOT window flag is not part of the returned conflicts). *)
Theorem get_available_slots_offers_overrun :
  exists res st',
    get_available_slots full_day_sched = Some (res, st') /\
    ("05-Jan-26", (18, 30)) ∈ res /\
    time_to_minutes (18, 30) + appointment_duration_var full_day_sched
      > end_hour full_day_sched * 60.
Proof.
  eexists _, _; split; [vm_compute; reflexivity|].
  split; [apply (bool_decide_unpack _); vm_compute; reflexivity|].
  vm_compute. reflexivity.
Qed.

(** C8 (as stated, refuted): after adding Y at 08:30-09:15 the engine
    reports no conflict on a FROM_DEPOT segment, and the [08:15, 09:00)
    segment is no longer flagged. *)
Lemma scenario_no_from_depot_conflict :
  exists cs st2,
    stage_and_check (scenario_with scenario_db) "05-Jan-26" (8, 30) "Y" = Some (cs, st2) /\
    (("05-Jan-26", 495, 540) ∉ conflicting_segments st2) /\
    Forall (fun c => travel_type c <> "from home") cs.
Proof.
  eexists _, _; split; [vm_compute; reflexivity|].
  apply (bool_decide_unpack _); vm_compute; reflexivity.
Qed.

Lemma stage_and_check_unfold (st : sched) (d : string) (t : slot) (pc : string) :
  stage_and_check st d t pc =
  match recalculate_travel_times (set_appointments st (dict_set (d, t) pc (appointments st))) d with
  | None => None
  | Some st2 => Some (check_travel_conflicts st2 d)
  end.
Proof. reflexivity. Qed.

Ltac decide_overlaps :=
  repeat first
    [ rewrite filter_cons_True by (unfold overlaps; cbn; apply bool_decide_eq_true_2; lia)
    | rewrite filter_cons_False by (unfold overlaps; cbn; rewrite bool_decide_eq_false_2 by lia; done)
    | rewrite filter_nil ].

(** C8 (amended): in the scenario the engine produces the FROM_DEPOT
    segment [08:15, 09:00) and reports no conflict; after Y (a confirmed
    45-minute appointment) is staged at 08:30 the legs are recomputed from
    the new first appointment: FROM_DEPOT becomes
    [08:30 - travel(D, Y), 08:30) and is not reported, and the only
    reported conflict is the BETWEEN leg [09:15, 09:15 + travel(Y, X)),
    which overlaps A's 09:00-10:00. *)
Theorem scenario_engine_conflict_on_between (td : travel_data) :
  get_travel_time td "D" "X" = 45 ->
  (exists st1, recalculate_travel_times (scenario_with td) "05-Jan-26" = Some st1 /\
     filter (fun s => seg_date s = "05-Jan-26") (travel_segments st1) =
       [{| seg_date := "05-Jan-26"; seg_start := 495; seg_end := 540; seg_minutes := 45;
           to_home := false; from_home := true |};
        {| seg_date := "05-Jan-26"; seg_start := 600; seg_end := 645; seg_minutes := 45;
           to_home := true; from_home := false |}] /\
     (("05-Jan-26", 495, 540) ∉ conflicting_segments st1) /\
     (check_travel_conflicts st1 "05-Jan-26").1 = [] /\
     conflicting_segments (check_travel_conflicts st1 "05-Jan-26").2 = ∅) /\
  (exists st2, stage_and_check (scenario_with td) "05-Jan-26" (8, 30) "Y" =
       Some ([{| travel_type := "between appointments"; cm_minutes := get_travel_time td "Y" "X";
                 appt_time := (9, 0) |}], st2) /\
     filter (fun s => seg_date s = "05-Jan-26") (travel_segments st2) =
       [{| seg_date := "05-Jan-26"; seg_start := 510 - get_travel_time td "D" "Y"; seg_end := 510;
           seg_minutes := get_travel_time td "D" "Y"; to_home := false; from_home := true |};
        {| seg_date := "05-Jan-26"; seg_start := 555; seg_end := 555 + get_travel_time td "Y" "X";
           seg_minutes := get_travel_time td "Y" "X"; to_home := false; from_home := false |};
        {| seg_date := "05-Jan-26"; seg_start := 600; seg_end := 645; seg_minutes := 45;
           to_home := true; from_home := false |}] /\
     conflicting_segments st2 = {[ ("05-Jan-26", 555, 555 + get_travel_time td "Y" "X") ]}).
Proof.
  intros Hdx.
  assert (Hxd : get_travel_time td "X" "D" = 45) by (rewrite get_travel_time_sym; exact Hdx).
  pose proof (get_travel_time_nonneg td "D" "Y") as Hdy.
  pose proof (get_travel_time_nonneg td "Y" "X") as Hyx.
  split.
  - destruct (recalculate_itinerary (scenario_with td) "05-Jan-26" "D"
                [(("05-Jan-26", (9, 0)), "X")])
      as (segs & conf & Hr & Hs & Hc);
      try (apply (bool_decide_unpack _); vm_compute; reflexivity).
    exists (set_travel (scenario_with td) segs conf). split; [exact Hr|].
    assert (Es : spec_day_segments (scenario_with td) "05-Jan-26" "D" [(("05-Jan-26", (9, 0)), "X")] =
      [{| seg_date := "05-Jan-26"; seg_start := 540 - get_travel_time td "D" "X"; seg_end := 540;
          seg_minutes := get_travel_time td "D" "X"; to_home := false; from_home := true |};
       {| seg_date := "05-Jan-26"; seg_start := 600; seg_end := 600 + get_travel_time td "X" "D";
          seg_minutes := get_travel_time td "X" "D"; to_home := true; from_home := false |}])
      by reflexivity.
    assert (Ef : spec_day_window_flags (scenario_with td) "05-Jan-26" "D" [(("05-Jan-26", (9, 0)), "X")] =
      (if bool_decide (540 - get_travel_time td "D" "X" < 8 * 60)
       then {[ ("05-Jan-26", 540 - get_travel_time td "D" "X", 540) ]} else ∅)
      ∪ (if bool_decide (600 + get_travel_time td "X" "D" > 19 * 60)
         then {[ ("05-Jan-26", 600, 600 + get_travel_time td "X" "D") ]} else ∅))
      by reflexivity.
    rewrite Es, Hdx, Hxd in Hs. rewrite Ef, Hdx, Hxd in Hc.
    rewrite !bool_decide_eq_false_2 in Hc by lia.
    cbn [travel_segments conflicting_segments set_travel].
    split; [exact Hs|]. split.
    { intros Hin.
      assert (Hin' : ("05-Jan-26", 495, 540) ∈ filter (fun k : string * Z * Z => k.1.1 = "05-Jan-26") conf)
        by (apply elem_of_filter; done).
      rewrite Hc in Hin'. set_solver. }
    unfold check_travel_conflicts.
    cbn [travel_segments conflicting_segments set_travel].
    rewrite Hs.
    assert (Er : appt_ranges (set_travel (scenario_with td) segs conf) "05-Jan-26" =
                 [(540, 600, (9, 0))]) by (vm_compute; reflexivity).
    rewrite Er. cbn [list_prod map app].
    decide_overlaps. split; reflexivity.
  - rewrite stage_and_check_unfold.
    set (st1 := set_appointments (scenario_with td)
                  (dict_set ("05-Jan-26", (8, 30)) "Y" (appointments (scenario_with td)))).
    destruct (recalculate_itinerary st1 "05-Jan-26" "D"
                [(("05-Jan-26", (8, 30)), "Y"); (("05-Jan-26", (9, 0)), "X")])
      as (segs & conf & Hr & Hs & _);
      try (apply (bool_decide_unpack _); vm_compute; reflexivity).
    rewrite Hr.
    assert (Es : spec_day_segments st1 "05-Jan-26" "D"
                   [(("05-Jan-26", (8, 30)), "Y"); (("05-Jan-26", (9, 0)), "X")] =
      [{| seg_date := "05-Jan-26"; seg_start := 510 - get_travel_time td "D" "Y"; seg_end := 510;
          seg_minutes := get_travel_time td "D" "Y"; to_home := false; from_home := true |};
       {| seg_date := "05-Jan-26"; seg_start := 555; seg_end := 555 + get_travel_time td "Y" "X";
          seg_minutes := get_travel_time td "Y" "X"; to_home := false; from_home := false |};
       {| seg_date := "05-Jan-26"; seg_start := 600; seg_end := 600 + get_travel_time td "X" "D";
          seg_minutes := get_travel_time td "X" "D"; to_home := true; from_home := false |}])
      by reflexivity.
    rewrite Es, Hxd in Hs.
    unfold check_travel_conflicts.
    cbn [travel_segments conflicting_segments set_travel].
    rewrite Hs.
    assert (Er : appt_ranges (set_travel st1 segs conf) "05-Jan-26" =
                 [(540, 600, (9, 0)); (510, 555, (8, 30))]) by (vm_compute; reflexivity).
    rewrite Er. cbn [list_prod map app].
    decide_overlaps.
    eexists. split; [reflexivity|].
    cbn [travel_segments conflicting_segments set_travel].
    split; [exact Hs|].
    cbn. set_solver.
Qed.

Lemma scenario_engine_conflict_on_between_witness :
  get_travel_time scenario_db "D" "X" = 45 /\
  ((exists st1, recalculate_travel_times (scenario_with scenario_db) "05-Jan-26" = Some st1 /\
     filter (fun s => seg_date s = "05-Jan-26") (travel_segments st1) =
       [{| seg_date := "05-Jan-26"; seg_start := 495; seg_end := 540; seg_minutes := 45;
           to_home := false; from_home := true |};
        {| seg_date := "05-Jan-26"; seg_start := 600; seg_end := 645; seg_minutes := 45;
           to_home := true; from_home := false |}] /\
     (("05-Jan-26", 495, 540) ∉ conflicting_segments st1) /\
     (check_travel_conflicts st1 "05-Jan-26").1 = [] /\
     conflicting_segments (check_travel_conflicts st1 "05-Jan-26").2 = ∅) /\
  (exists st2, stage_and_check (scenario_with scenario_db) "05-Jan-26" (8, 30) "Y" =
       Some ([{| travel_type := "between appointments";
                 cm_minutes := get_travel_time scenario_db "Y" "X";
                 appt_time := (9, 0) |}], st2) /\
     filter (fun s => seg_date s = "05-Jan-26") (travel_segments st2) =
       [{| seg_date := "05-Jan-26"; seg_start := 510 - get_travel_time scenario_db "D" "Y";
           seg_end := 510; seg_minutes := get_travel_time scenario_db "D" "Y";
           to_home := false; from_home := true |};
        {| seg_date := "05-Jan-26"; seg_start := 555;
           seg_end := 555 + get_travel_time scenario_db "Y" "X";
           seg_minutes := get_travel_time scenario_db "Y" "X"; to_home := false; from_home := false |};
        {| seg_date := "05-Jan-26"; seg_start := 600; seg_end := 645; seg_minutes := 45;
           to_home := true; from_home := false |}] /\
     conflicting_segments st2 = {[ ("05-Jan-26", 555, 555 + get_travel_time scenario_db "Y" "X") ]})).
Proof.
  split; [vm_compute; reflexivity|].
  apply (scenario_engine_conflict_on_between scenario_db). vm_compute. reflexivity.
Defined.

Module BalanceFacts.
Import Balance.
Local Open Scope nat_scope.

Lemma count_cons x l c : count (x :: l) c = (if decide (x = c) then 1 else 0) + count l c.
Proof. unfold count. rewrite filter_cons. case_decide; simpl; lia. Qed.

Lemma count_insert l k old v c : l !! k = Some old ->
  count (<[k := v]> l) c + (if decide (old = c) then 1 else 0) =
  count l c + (if decide (v = c) then 1 else 0).
Proof.
  revert k. induction l as [|x l IH]; intros [|k] Hk; simplify_eq/=.
  - rewrite !count_cons. lia.
  - rewrite !count_cons. specialize (IH k Hk). lia.
Qed.

Definition keeps_min (l l' : list nat) : Prop :=
  forall c, min_size <= count l c -> min_size <= count l' c.

Lemma keeps_min_refl l : keeps_min l l.
Proof. intros c H. exact H. Qed.

Lemma keeps_min_trans l1 l2 l3 : keeps_min l1 l2 -> keeps_min l2 l3 -> keeps_min l1 l3.
Proof. intros H12 H23 c Hc. auto. Qed.

Lemma move_keeps_min l k old v : l !! k = Some old -> min_size < count l old ->
  keeps_min l (<[k := v]> l).
Proof.
  intros Hk Hold c Hc. pose proof (count_insert l k old v c Hk) as E.
  unfold min_size in *. repeat case_decide; subst; lia.
Qed.

Lemma count_filter_lt_S l m :
  length (filter (fun x => x < S m) l) = length (filter (fun x => x < m) l) + count l m.
Proof.
  induction l as [|x l IH]; [done|].
  rewrite count_cons, !filter_cons. repeat case_decide; simpl; lia.
Qed.

Lemma filter_lt_bound l m :
  (forall c, c < m -> count l c <= min_size) ->
  length (filter (fun x => x < m) l) <= m * min_size.
Proof.
  induction m as [|m IH]; intros Hc.
  - induction l as [|x l IHl]; [simpl; lia|].
    rewrite filter_cons. case_decide; [lia|]. apply IHl. intros c Hc'. lia.
  - rewrite count_filter_lt_S. pose proof (Hc m ltac:(lia)).
    assert (length (filter (fun x => x < m) l) <= m * min_size) by (apply IH; intros; apply Hc; lia).
    lia.
Qed.

Lemma filter_lt_all l n : Forall (fun x => x < n) l -> filter (fun x => x < n) l = l.
Proof.
  induction 1 as [|x l Hx _ IH]; [done|]. rewrite filter_cons_True by done. by rewrite IH.
Qed.

Lemma argmax_max l k v : l !! k = Some v -> v <= nth (argmax l) l 0.
Proof.
  revert k. induction l as [|x r IH]; intros [|k] Hk; simpl in Hk; try discriminate; simpl.
  - injection Hk as <-. destruct (Nat.leb_spec (nth (argmax r) r 0) x); simpl; lia.
  - specialize (IH k Hk). destruct (Nat.leb_spec (nth (argmax r) r 0) x); simpl; lia.
Qed.

Lemma argmax_lt l : l <> [] -> argmax l < length l.
Proof.
  induction l as [|x r IH]; [done|]; intros _. simpl.
  destruct (Nat.leb_spec (nth (argmax r) r 0) x); [lia|].
  destruct r as [|y r']; [simpl in *; lia|].
  assert (argmax (y :: r') < length (y :: r')) by (apply IH; done). lia.
Qed.

Lemma nth_sizes l n m : m < n -> nth m (map (count l) (seq 0 n)) 0 = count l m.
Proof.
  intros Hm. rewrite (nth_indep _ 0 (count l 0)) by (rewrite length_map, length_seq; lia).
  rewrite map_nth, seq_nth by lia. done.
Qed.

Lemma lookup_sizes l n c : c < n -> map (count l) (seq 0 n) !! c = Some (count l c).
Proof. intros Hc. rewrite list_lookup_fmap, lookup_seq_lt by done. done. Qed.

Section MinSizePass.
Variables (g : geometry) (n : nat).
Hypothesis Hg : geometry_ok g n.

Lemma fill_cluster_spec cid fuel l : cid < n -> Forall (fun x => x < n) l ->
  n * min_size <= length l -> min_size - count l cid <= fuel ->
  Forall (fun x => x < n) (fill_cluster g n cid fuel l) /\
  length (fill_cluster g n cid fuel l) = length l /\
  min_size <= count (fill_cluster g n cid fuel l) cid /\
  keeps_min l (fill_cluster g n cid fuel l).
Proof.
  revert l. induction fuel as [|f IH]; intros l Hcid Hl Hlen Hfuel; simpl.
  - split_and!; [done | done | lia | apply keeps_min_refl].
  - destruct (Nat.ltb_spec (count l cid) min_size) as [Hlt|Hge];
      [|split_and!; [done | done | lia | apply keeps_min_refl]].
    set (sizes := map (count l) (seq 0 n)).
    assert (Hne : sizes <> []) by (subst sizes; destruct n; simpl; [lia|done]).
    assert (Hm : argmax sizes < n).
    { pose proof (argmax_lt sizes Hne) as H. unfold sizes in H. rewrite length_map, length_seq in H. exact H. }
    set (m := argmax sizes) in *.
    assert (Hnth : nth m sizes 0 = count l m) by (subst sizes; apply nth_sizes; lia).
    destruct (Nat.leb_spec (nth m sizes 0) min_size) as [Hsmall|Hbig].
    + exfalso.
      assert (Hall : forall c, c < n -> count l c <= min_size).
      { intros c Hc. pose proof (argmax_max sizes c (count l c) (lookup_sizes l n c Hc)) as H.
        fold m in H. lia. }
      assert (Hstrict : length (filter (fun x => x < n) l) < n * min_size).
      { clear -Hall Hcid Hlt. revert Hall.
        assert (forall m', cid < m' -> (forall c, c < m' -> count l c <= min_size) ->
                  length (filter (fun x => x < m') l) < m' * min_size) as Key.
        { induction m' as [|m' IHm]; intros Hc Hall; [lia|].
          rewrite count_filter_lt_S.
          destruct (decide (cid = m')) as [->|Hne'].
          - pose proof (filter_lt_bound l m' ltac:(intros; apply Hall; lia)). lia.
          - assert (length (filter (fun x => x < m') l) < m' * min_size)
              by (apply IHm; [lia | intros; apply Hall; lia]).
            pose proof (Hall m' ltac:(lia)). lia. }
        apply Key. done. }
      rewrite filter_lt_all in Hstrict by done. lia.
    + rewrite Hnth in Hbig.
      assert (Hk : l !! closest_to g l cid m = Some m) by (apply (closest_member g n Hg); unfold min_size in *; lia).
      set (k := closest_to g l cid m) in *.
      assert (Hmc : m <> cid) by (intros ->; lia).
      pose proof (count_insert l k m cid cid Hk) as Ecid.
      destruct (decide (m = cid)); [done|]. rewrite decide_True in Ecid by done.
      destruct (IH (<[k := cid]> l)) as (H1 & H2 & H3 & H4).
      * done.
      * by apply Forall_insert.
      * by rewrite length_insert.
      * lia.
      * rewrite length_insert in H2. split_and!; [done | done | done |].
        eapply keeps_min_trans; [eapply move_keeps_min; [exact Hk | lia] | exact H4].
Qed.

Lemma min_size_fold_spec ds l : Forall (fun c => c < n) ds -> Forall (fun x => x < n) l ->
  n * min_size <= length l ->
  Forall (fun x => x < n) (fold_left (fun l cid => fill_cluster g n cid (length l) l) ds l) /\
  length (fold_left (fun l cid => fill_cluster g n cid (length l) l) ds l) = length l /\
  (forall c, c ∈ ds \/ min_size <= count l c ->
     min_size <= count (fold_left (fun l cid => fill_cluster g n cid (length l) l) ds l) c).
Proof.
  revert l. induction ds as [|d ds IH]; intros l Hds Hl Hlen; simpl.
  - split_and!; [done | done |]. intros c [Hc|Hc]; [set_solver | done].
  - apply Forall_cons in Hds as [Hd Hds].
    assert (Hfuel : min_size - count l d <= length l) by (unfold min_size in *; lia).
    destruct (fill_cluster_spec d (length l) l Hd Hl Hlen Hfuel) as (H1 & H2 & H3 & H4).
    destruct (IH (fill_cluster g n d (length l) l) Hds H1 ltac:(lia)) as (G1 & G2 & G3).
    split_and!; [done | lia |].
    intros c Hc. apply G3. rewrite elem_of_cons in Hc.
    destruct Hc as [[->|Hc]|Hc]; [by right | by left | right; by apply H4].
Qed.

Lemma min_size_pass_spec l : 0 < n -> Forall (fun x => x < n) l -> n * min_size <= length l ->
  forall c, c < n -> min_size <= count (min_size_pass g n l) c.
Proof.
  intros Hn Hl Hlen c Hc. unfold min_size_pass.
  destruct (min_size_fold_spec (seq 0 n) l) as (_ & _ & H).
  - apply Forall_forall. intros x Hx. apply elem_of_seq in Hx. lia.
  - done.
  - done.
  - apply H. left. apply elem_of_seq. lia.
Qed.

End MinSizePass.

Lemma proximity_pair_spec g n acc ij : Forall (fun x => x < n) acc.1 ->
  Forall (fun x => x < n) (proximity_pair g acc ij).1 /\
  length (proximity_pair g acc ij).1 = length acc.1.
Proof.
  destruct acc as [labels fixed], ij as [i j]; unfold proximity_pair; cbv beta iota; cbn [fst]; intros Hl.
  destruct (labels !! i) as [li|] eqn:Hi, (labels !! j) as [lj|] eqn:Hj; try (split; done).
  pose proof (Forall_lookup_1 _ _ _ _ Hl Hi). pose proof (Forall_lookup_1 _ _ _ _ Hl Hj).
  destruct (bool_decide (li <> lj) && close g i j); cbn [fst]; [|split; done].
  destruct (_ && _); cbn [fst]; [split; [by apply Forall_insert | apply length_insert]|].
  destruct (_ <=? _); cbn [fst]; [split; [by apply Forall_insert | apply length_insert] | split; done].
Qed.

Lemma proximity_fold_spec g n ps acc : Forall (fun x => x < n) acc.1 ->
  Forall (fun x => x < n) (fold_left (proximity_pair g) ps acc).1 /\
  length (fold_left (proximity_pair g) ps acc).1 = length acc.1.
Proof.
  revert acc. induction ps as [|p ps IH]; intros acc Hl; simpl; [done|].
  destruct (proximity_pair_spec g n acc p Hl) as [H1 H2].
  destruct (IH _ H1) as [G1 G2]. split; [done | lia].
Qed.

Lemma proximity_pass_spec g n l : Forall (fun x => x < n) l ->
  Forall (fun x => x < n) (proximity_pass g l) /\ length (proximity_pass g l) = length l.
Proof.
  unfold proximity_pass. generalize 100. intros fuel. revert l.
  induction fuel as [|f IH]; intros l Hl; simpl; [done|].
  destruct (proximity_fold_spec g n (upper_pairs (length l)) (l, 0) Hl) as [H1 H2].
  destruct (fold_left (proximity_pair g) (upper_pairs (length l)) (l, 0)) as [l' fixed].
  simpl in H1, H2. destruct (fixed =? 0); [done|].
  destruct (IH l' H1) as [G1 G2]. split; [done | lia].
Qed.

Section LaterPasses.
Variables (g : geometry) (n : nat).
Hypothesis Hg : geometry_ok g n.

Lemma overlap_inner_keeps i js l : keeps_min l (overlap_inner g i js l).
Proof.
  revert l. induction js as [|j js IH]; intros l; simpl; [apply keeps_min_refl|].
  destruct (Nat.leb_spec (count l i) min_size), (Nat.leb_spec (count l j) min_size); simpl; try apply IH.
  destruct (hull_move g l i j) as [k|] eqn:Hk; [|apply IH].
  eapply move_keeps_min; [eapply (hull_member g n Hg); exact Hk | done].
Qed.

Lemma overlap_round_keeps l : keeps_min l (overlap_round g n l).
Proof.
  unfold overlap_round. generalize (seq 0 n). intros is. revert l.
  induction is as [|i is IH]; intros l; simpl; [apply keeps_min_refl|].
  eapply keeps_min_trans; [apply overlap_inner_keeps | apply IH].
Qed.

Lemma overlap_pass_keeps l : keeps_min l (overlap_pass g n l).
Proof.
  unfold overlap_pass. generalize 100. intros fuel. revert l.
  induction fuel as [|f IH]; intros l; simpl; [apply keeps_min_refl|].
  destruct (has_overlap g l); [|apply keeps_min_refl].
  eapply keeps_min_trans; [apply overlap_round_keeps | apply IH].
Qed.

Lemma compact_step_keeps acc cid : keeps_min acc.1 (compact_step g acc cid).1.
Proof.
  destruct acc as [l improved]; simpl.
  destruct (Nat.leb_spec (count l cid) min_size); simpl; [apply keeps_min_refl|].
  destruct (best_cluster g l cid (outlier g l cid)) as [b|]; simpl; [|apply keeps_min_refl].
  eapply move_keeps_min; [apply (outlier_member g n Hg); unfold min_size in *; lia | done].
Qed.

Lemma compact_fold_keeps cids acc : keeps_min acc.1 (fold_left (compact_step g) cids acc).1.
Proof.
  revert acc. induction cids as [|c cids IH]; intros acc; simpl; [apply keeps_min_refl|].
  eapply keeps_min_trans; [apply compact_step_keeps | apply IH].
Qed.

Lemma compact_pass_keeps l : keeps_min l (compact_pass g n l).
Proof.
  unfold compact_pass. generalize 50. intros fuel. revert l.
  induction fuel as [|f IH]; intros l; simpl; [apply keeps_min_refl|].
  pose proof (compact_fold_keeps (seq 0 n) (l, false)) as H. simpl in H.
  destruct (fold_left (compact_step g) (seq 0 n) (l, false)) as [l' improved].
  destruct improved; [|done].
  eapply keeps_min_trans; [exact H | apply IH].
Qed.

End LaterPasses.

Lemma first_index_member l v : 0 < count l v -> l !! first_index l v = Some v.
Proof.
  intros Hc. unfold first_index.
  assert (Hin : v ∈ l).
  { unfold count in Hc. destruct (filter (fun x => x = v) l) as [|y r] eqn:E; simpl in Hc; [lia|].
    assert (y ∈ filter (fun x => x = v) l) by (rewrite E; left).
    apply list_elem_of_filter in H as [-> ?]. done. }
  destruct (list_find_elem_of (fun x => x = v) l v Hin eq_refl) as [[i x] Hf].
  rewrite Hf. apply list_find_Some in Hf as (Hi & -> & _). done.
Qed.

Lemma first_member_geometry_ok n : geometry_ok first_member_geometry n.
Proof.
  split; simpl.
  - intros labels _ big Hc. by apply first_index_member.
  - done.
  - intros labels cid Hc. by apply first_index_member.
  - done.
Qed.

End BalanceFacts.

(** C3 (code bug): in two Ward clusters of three with points 2 and 3
    close, the proximity pass's [elif cluster_j_size >= min_size] branch
    moves point 3 out of a cluster that has exactly [min_size] members,
    leaving it with 2, below [min_size]. *)
Lemma proximity_pass_shrinks_min_size_cluster :
  Balance.count [0; 0; 0; 1; 1; 1]%nat 1 = 3%nat /\
  Balance.count (Balance.proximity_pass Balance.two_threes_geometry [0; 0; 0; 1; 1; 1]%nat) 1 = 2%nat.
Proof. split; vm_compute; reflexivity. Qed.

(** X21: when the Ward labels are cluster ids, there are at least
    [n_clusters * min_size] locations and the geometric choices are
    members of their cluster ([geometry_ok]), every territory returned by
    [balance_clusters] has at least [min_size] members. The minimum-size
    pass establishes this after the proximity pass, and the
    overlap-resolution and compactness passes keep it, since they move a
    point only out of a territory with more than [min_size] members. *)
Theorem balance_clusters_min_size (g : Balance.geometry) (n_clusters : nat) (ward_labels : list nat) :
  Balance.geometry_ok g n_clusters ->
  Forall (fun c => c < n_clusters)%nat ward_labels ->
  (n_clusters * Balance.min_size <= length ward_labels)%nat ->
  (forall c, c < n_clusters -> Balance.min_size <= Balance.count (Balance.balance_clusters g n_clusters ward_labels) c)%nat /\
  (forall labels, (forall c, c < n_clusters -> Balance.min_size <= Balance.count labels c)%nat ->
     forall c, (c < n_clusters)%nat ->
     (Balance.min_size <= Balance.count (Balance.overlap_pass g n_clusters labels) c)%nat /\
     (Balance.min_size <= Balance.count (Balance.compact_pass g n_clusters labels) c)%nat).
Proof.
  intros Hg Hw Hlen. split.
  - intros c Hc. unfold Balance.balance_clusters.
    destruct (BalanceFacts.proximity_pass_spec g n_clusters ward_labels Hw) as [Hp Hplen].
    apply (BalanceFacts.compact_pass_keeps g n_clusters Hg).
    apply (BalanceFacts.overlap_pass_keeps g n_clusters Hg).
    apply (BalanceFacts.min_size_pass_spec g n_clusters Hg); [lia | done | lia | done].
  - intros labels Hl c Hc. split.
    + apply (BalanceFacts.overlap_pass_keeps g n_clusters Hg). by apply Hl.
    + apply (BalanceFacts.compact_pass_keeps g n_clusters Hg). by apply Hl.
Qed.

Lemma balance_clusters_min_size_witness :
  (forall c, c < 2 -> Balance.min_size <= Balance.count
     (Balance.balance_clusters Balance.first_member_geometry 2 [0; 0; 0; 1; 1; 1]) c)%nat /\
  (forall labels, (forall c, c < 2 -> Balance.min_size <= Balance.count labels c)%nat ->
     forall c, (c < 2)%nat ->
     (Balance.min_size <= Balance.count (Balance.overlap_pass Balance.first_member_geometry 2 labels) c)%nat /\
     (Balance.min_size <= Balance.count (Balance.compact_pass Balance.first_member_geometry 2 labels) c)%nat).
Proof.
  apply (balance_clusters_min_size Balance.first_member_geometry 2 [0; 0; 0; 1; 1; 1]%nat).
  - apply BalanceFacts.first_member_geometry_ok.
  - repeat constructor; lia.
  - vm_compute. lia.
Defined.

Module MinDaysFacts.
Import MinDays.
Local Open Scope Q_scope.

Lemma min_step_None acc d : min_step acc d = None -> acc = None /\ d = None.
Proof. destruct d, acc; simpl; try done. destruct (PyStr.Qlt_bool _ _); done. Qed.

Lemma min_fold_None ds acc : fold_left min_step ds acc = None -> acc = None /\ Forall (fun d => d = None) ds.
Proof.
  revert acc. induction ds as [|d ds IH]; intros acc H; simpl in H; [done|].
  destruct (IH _ H) as [H1 H2]. apply min_step_None in H1 as [-> ->]. by split; [|constructor].
Qed.

Lemma Qlt_bool_true a b : PyStr.Qlt_bool a b = true -> a < b.
Proof.
  unfold PyStr.Qlt_bool. intros H. apply negb_true_iff in H.
  apply Qnot_le_lt. intros Hle. apply Qle_bool_iff in Hle. congruence.
Qed.

Lemma Qlt_bool_false a b : PyStr.Qlt_bool a b = false -> b <= a.
Proof.
  unfold PyStr.Qlt_bool. intros H. apply negb_false_iff in H. by apply Qle_bool_iff.
Qed.

Lemma min_fold_Some ds acc m : fold_left min_step ds acc = Some m ->
  (acc = Some m \/ Some m ∈ ds) /\ (forall a, acc = Some a -> m <= a) /\
  (forall d, Some d ∈ ds -> m <= d).
Proof.
  revert acc. induction ds as [|d ds IH]; intros acc H; simpl in H.
  - subst. split_and!; [by left | intros a [= ->]; apply Qle_refl | intros d Hd; inversion Hd].
  - destruct (IH _ H) as (H1 & H2 & H3). split_and!.
    + destruct H1 as [H1|H1]; [|right; by right].
      destruct d as [d|], acc as [a|]; simpl in H1; try (by left); try (right; rewrite H1; by left).
      destruct (PyStr.Qlt_bool d a); [right; injection H1 as ->; by left | by left].
    + intros a ->. destruct d as [d|]; simpl in H2; [|by apply H2].
      destruct (PyStr.Qlt_bool d a) eqn:E; [|by apply H2].
      apply Qlt_bool_true in E. apply Qle_trans with d; [by apply H2 | by apply Qlt_le_weak].
    + intros d' Hd'. apply elem_of_cons in Hd' as [<-|Hd']; [|by apply H3].
      destruct acc as [a|]; simpl in H2; [|by apply H2].
      destruct (PyStr.Qlt_bool d' a) eqn:E; [by apply H2|].
      apply Qlt_bool_false in E. apply Qle_trans with a; [by apply H2 | done].
Qed.

Lemma min_depot_distance_spec app mi m : min_depot_distance app mi = Some m ->
  (exists idx, idx ∈ mi /\ driving_time_matrix app (depot_postcode_idx app) idx = Some m) /\
  (forall idx d, idx ∈ mi -> driving_time_matrix app (depot_postcode_idx app) idx = Some d -> m <= d).
Proof.
  unfold min_depot_distance. intros H. destruct (min_fold_Some _ _ _ H) as (H1 & _ & H3). split.
  - destruct H1 as [H1|H1]; [done|]. apply list_elem_of_fmap in H1 as (idx & Hidx & Hin).
    by exists idx.
  - intros idx d Hin Hd. apply H3. apply list_elem_of_fmap. by exists idx.
Qed.

Lemma min_depot_distance_exists app mi idx d : idx ∈ mi ->
  driving_time_matrix app (depot_postcode_idx app) idx = Some d ->
  exists m, min_depot_distance app mi = Some m.
Proof.
  unfold min_depot_distance. intros Hin Hd.
  destruct (fold_left min_step _ None) as [m|] eqn:E; [by exists m|].
  apply min_fold_None in E as [_ E]. rewrite Forall_forall in E.
  assert (Some d ∈ map (driving_time_matrix app (depot_postcode_idx app)) mi)
    by (apply list_elem_of_fmap; by exists idx).
  specialize (E _ H). done.
Qed.

Lemma intra_distances_elem app mi d : d ∈ intra_distances app mi <->
  exists i j, i ∈ mi /\ j ∈ mi /\ i <> j /\ driving_time_matrix app i j = Some d.
Proof.
  unfold intra_distances. rewrite !list_elem_of_In, in_flat_map. split.
  - intros (i & Hi & Hd). rewrite in_flat_map in Hd. destruct Hd as (j & Hj & Hd).
    destruct (Nat.eqb_spec i j); [done|].
    destruct (driving_time_matrix app i j) as [d'|] eqn:E; [|done].
    destruct Hd as [<-|[]]. exists i, j. rewrite !list_elem_of_In. done.
  - intros (i & j & Hi & Hj & Hij & Hd). rewrite list_elem_of_In in Hi, Hj.
    exists i. split; [done|]. rewrite in_flat_map. exists j. split; [done|].
    destruct (Nat.eqb_spec i j); [done|]. rewrite Hd. by left.
Qed.

Lemma intra_distances_short app mi : (length mi <= 1)%nat -> intra_distances app mi = [].
Proof.
  destruct mi as [|i [|j mi]]; cbn [length]; intros H; [done | | lia].
  unfold intra_distances. cbn [flat_map]. rewrite Nat.eqb_refl. done.
Qed.

Lemma intra_distances_incl app mi mi' : (0 < length (intra_distances app mi))%nat ->
  (forall i, i ∈ mi -> i ∈ mi') -> (0 < length (intra_distances app mi'))%nat.
Proof.
  intros H Hincl. destruct (intra_distances app mi) as [|d ds] eqn:E; simpl in H; [lia|].
  assert (Hd : d ∈ intra_distances app mi) by (rewrite E; left).
  apply intra_distances_elem in Hd as (i & j & Hi & Hj & Hij & Hd).
  assert (Hd' : d ∈ intra_distances app mi') by (apply intra_distances_elem; exists i, j; auto).
  destruct (intra_distances app mi'); [inversion Hd' | simpl; lia].
Qed.

Lemma sumQ_acc_nonneg l a : 0 <= a -> Forall (fun d => 0 <= d) l -> 0 <= fold_left Qplus l a.
Proof.
  revert a. induction l as [|d l IH]; intros a Ha Hl; simpl; [done|].
  apply Forall_cons in Hl as [Hd Hl]. apply IH; [lra | done].
Qed.

Lemma inject_nat_nonneg k : 0 <= inject_Z (Z.of_nat k).
Proof. change 0 with (inject_Z 0). rewrite <- Zle_Qle. lia. Qed.

Lemma avg_distance_nonneg ds : Forall (fun d => 0 <= d) ds -> 0 <= avg_distance ds.
Proof.
  intros H. unfold avg_distance, Qdiv. apply Qmult_le_0_compat.
  - apply sumQ_acc_nonneg; [lra | done].
  - apply Qinv_le_0_compat, inject_nat_nonneg.
Qed.

Lemma intra_distances_nonneg app mi : (forall i j d, driving_time_matrix app i j = Some d -> 0 <= d) ->
  Forall (fun d => 0 <= d) (intra_distances app mi).
Proof.
  intros H. apply Forall_forall. intros d Hd.
  apply intra_distances_elem in Hd as (i & j & _ & _ & _ & Hd). by apply (H i j).
Qed.

Lemma minimum_days_of_indices_main app sh wh mi m :
  min_depot_distance app mi = Some m -> (0 < length (intra_distances app mi))%nat -> 0 < wh ->
  minimum_days_of_indices app sh wh mi =
  Some (Qceiling ((0 + m + avg_distance (intra_distances app mi) * inject_Z (Z.of_nat (length mi) - 1)
                   + m + sh * 60 * inject_Z (Z.of_nat (length mi))) / 60 / wh) + 1)%Z.
Proof.
  intros Hm Hds Hwh. unfold minimum_days_of_indices. rewrite Hm.
  assert (Hlen : (1 < length mi)%nat).
  { destruct (Nat.le_gt_cases (length mi) 1) as [Hle|]; [|done].
    rewrite intra_distances_short in Hds by done. simpl in Hds. lia. }
  apply Nat.ltb_lt in Hlen, Hds. rewrite Hlen, Hds.
  unfold days_of. destruct (Qeq_bool wh 0) eqn:E; [apply Qeq_bool_iff in E; lra | done].
Qed.

Lemma minimum_days_of_indices_nz app sh wh mi m :
  min_depot_distance app mi = Some m -> (0 < length (intra_distances app mi))%nat -> ~ wh == 0 ->
  minimum_days_of_indices app sh wh mi =
  Some (Qceiling ((0 + m + avg_distance (intra_distances app mi) * inject_Z (Z.of_nat (length mi) - 1)
                   + m + sh * 60 * inject_Z (Z.of_nat (length mi))) / 60 / wh) + 1)%Z.
Proof.
  intros Hm Hds Hwh. unfold minimum_days_of_indices. rewrite Hm.
  assert (Hlen : (1 < length mi)%nat).
  { destruct (Nat.le_gt_cases (length mi) 1) as [Hle|]; [|done].
    rewrite intra_distances_short in Hds by done. simpl in Hds. lia. }
  apply Nat.ltb_lt in Hlen, Hds. rewrite Hlen, Hds.
  unfold days_of. destruct (Qeq_bool wh 0) eqn:E; [apply Qeq_bool_iff in E; contradiction | done].
Qed.

Lemma ceiling_days_nonneg t wh : 0 <= t -> 0 < wh -> (0 <= Qceiling (t / 60 / wh))%Z.
Proof.
  intros Ht Hwh. assert (H0 : 0 <= t / 60 / wh).
  { unfold Qdiv. apply Qmult_le_0_compat; [apply Qmult_le_0_compat; [done|] |];
      apply Qinv_le_0_compat; lra. }
  pose proof (Qle_ceiling (t / 60 / wh)) as H1.
  rewrite Zle_Qle. change (inject_Z 0) with 0. lra.
Qed.

Lemma days_div_mono t t' wh : t <= t' -> 0 < wh -> t / 60 / wh <= t' / 60 / wh.
Proof.
  intros H Hwh. unfold Qdiv. apply Qmult_le_compat_r; [apply Qmult_le_compat_r|]; try lra.
  - apply Qinv_le_0_compat. lra.
  - apply Qinv_le_0_compat. lra.
Qed.

End MinDaysFacts.

Local Open Scope Q_scope.

(** C4 (counterexample): the service time is a free-text entry read by
    [float()]; with [-20] hours the territory {A, B} (depot legs 10, A-B
    1000 minutes, 8 work hours) gets
    [ceil((10 + 1000 + 10 - 2400) / 60 / 8) + 1 = ceil(-2.875) + 1 = -1]
    days, below 1. *)
Lemma minimum_days_below_one_negative_service :
  MinDays.service_time_var MinDays.negative_service_app = Some (-20) /\
  MinDays.min_depot_distance MinDays.negative_service_app [0; 1]%nat = Some 10 /\
  MinDays.intra_distances MinDays.negative_service_app [0; 1]%nat = [1000; 1000] /\
  MinDays.calculate_minimum_days_for_region MinDays.negative_service_app 1 = Some (-1)%Z.
Proof. split_and!; vm_compute; reflexivity. Qed.

(** C4 (amended): when the nearest depot leg and at least one
    intra-territory pair are finite and the work hours are not 0 (0
    raises), the estimator returns
    [ceil((leg + avg * (n - 1) + leg + service_hours * 60 * n) / (work_hours * 60)) + 1],
    where [leg] is the minimum finite depot leg over the members, [avg] the
    mean of the finite ordered intra-territory times and [n] the member
    count; the result is at least 1 when the work hours are positive and
    the service hours and driving times non-negative. *)
Theorem calculate_minimum_days_formula (app : MinDays.tsp_app) (region_num : Z) (ls : list Z)
    (mi : list nat) (service_time_hours work_hours nearest_depot_leg : Q) :
  MinDays.has_matrix app = true ->
  MinDays.config app = (service_time_hours, work_hours) ->
  MinDays.labels app = Some ls ->
  MinDays.matrix_indices app (MinDays.region_customer_indices ls region_num) = Some mi ->
  MinDays.min_depot_distance app mi = Some nearest_depot_leg ->
  (0 < length (MinDays.intra_distances app mi))%nat ->
  ~ work_hours == 0 ->
  MinDays.calculate_minimum_days_for_region app region_num =
    Some (Qceiling ((nearest_depot_leg
                     + MinDays.avg_distance (MinDays.intra_distances app mi)
                       * inject_Z (Z.of_nat (length mi) - 1)
                     + nearest_depot_leg
                     + service_time_hours * 60 * inject_Z (Z.of_nat (length mi)))
                    / (work_hours * 60)) + 1)%Z /\
  (exists idx, idx ∈ mi /\
     MinDays.driving_time_matrix app (MinDays.depot_postcode_idx app) idx = Some nearest_depot_leg) /\
  (forall idx d, idx ∈ mi ->
     MinDays.driving_time_matrix app (MinDays.depot_postcode_idx app) idx = Some d ->
     nearest_depot_leg <= d) /\
  (0 < work_hours -> 0 <= service_time_hours ->
   (forall i j d, MinDays.driving_time_matrix app i j = Some d -> 0 <= d) ->
   exists k, MinDays.calculate_minimum_days_for_region app region_num = Some k /\ (1 <= k)%Z).
Proof.
  intros Hmat Hcfg Hls Hmi Hleg Hds Hwh.
  destruct (MinDaysFacts.min_depot_distance_spec app mi nearest_depot_leg Hleg) as [Hex Hmin].
  assert (Hcalc : MinDays.calculate_minimum_days_for_region app region_num =
            MinDays.minimum_days_of_indices app service_time_hours work_hours mi).
  { unfold MinDays.calculate_minimum_days_for_region. rewrite Hmat, Hcfg, Hls. simpl negb.
    cbv beta iota.
    destruct (MinDays.region_customer_indices ls region_num) as [|r rs].
    - simpl in Hmi. injection Hmi as <-. destruct Hex as (idx & Hidx & _). inversion Hidx.
    - rewrite Hmi. destruct mi as [|k mi']; [destruct Hex as (idx & Hidx & _); inversion Hidx | done]. }
  rewrite (MinDaysFacts.minimum_days_of_indices_nz app service_time_hours work_hours mi
             nearest_depot_leg Hleg Hds Hwh) in Hcalc.
  split_and!; [| done | done |].
  - rewrite Hcalc. do 2 f_equal. apply Qceiling_comp. field. exact Hwh.
  - intros Hwp Hsh Hnn. eexists. split; [exact Hcalc|].
    assert (Hleg0 : 0 <= nearest_depot_leg).
    { destruct Hex as (idx & _ & Hidx). by apply (Hnn _ _ _ Hidx). }
    pose proof (MinDaysFacts.avg_distance_nonneg _ (MinDaysFacts.intra_distances_nonneg app mi Hnn)).
    assert (Hn1 : 0 <= inject_Z (Z.of_nat (length mi) - 1)).
    { assert (Hl : (1 < length mi)%nat).
      { destruct (Nat.le_gt_cases (length mi) 1) as [Hle|]; [|done].
        rewrite MinDaysFacts.intra_distances_short in Hds by done. simpl in Hds. lia. }
      change 0 with (inject_Z 0). rewrite <- Zle_Qle. lia. }
    pose proof (MinDaysFacts.inject_nat_nonneg (length mi)).
    match goal with |- (1 <= Qceiling ?t + 1)%Z => cut (0 <= Qceiling t)%Z; [lia|] end.
    apply MinDaysFacts.ceiling_days_nonneg; [|exact Hwp].
    assert (0 <= MinDays.avg_distance (MinDays.intra_distances app mi) * inject_Z (Z.of_nat (length mi) - 1))
      by (apply Qmult_le_0_compat; done).
    assert (0 <= service_time_hours * 60 * inject_Z (Z.of_nat (length mi)))
      by (apply Qmult_le_0_compat; [lra | done]).
    lra.
Qed.

Lemma calculate_minimum_days_formula_witness :
  MinDays.calculate_minimum_days_for_region (MinDays.triangle_app [0; 0; 1]%Z) 1 =
    Some (Qceiling ((10 + MinDays.avg_distance (MinDays.intra_distances (MinDays.triangle_app [0; 0; 1]%Z) [0; 1]%nat)
                       * inject_Z (Z.of_nat 2 - 1) + 10 + 1 * 60 * inject_Z (Z.of_nat 2)) / (8 * 60)) + 1)%Z /\
  (exists idx, idx ∈ [0; 1]%nat /\
     MinDays.driving_time_matrix (MinDays.triangle_app [0; 0; 1]%Z)
       (MinDays.depot_postcode_idx (MinDays.triangle_app [0; 0; 1]%Z)) idx = Some 10) /\
  (forall idx d, idx ∈ [0; 1]%nat ->
     MinDays.driving_time_matrix (MinDays.triangle_app [0; 0; 1]%Z)
       (MinDays.depot_postcode_idx (MinDays.triangle_app [0; 0; 1]%Z)) idx = Some d -> 10 <= d) /\
  (0 < 8 -> 0 <= 1 ->
   (forall i j d, MinDays.driving_time_matrix (MinDays.triangle_app [0; 0; 1]%Z) i j = Some d -> 0 <= d) ->
   exists k, MinDays.calculate_minimum_days_for_region (MinDays.triangle_app [0; 0; 1]%Z) 1 = Some k /\ (1 <= k)%Z).
Proof.
  apply (calculate_minimum_days_formula (MinDays.triangle_app [0; 0; 1]%Z) 1 [0; 0; 1]%Z [0; 1]%nat 1 8 10);
    vm_compute; first [reflexivity | lia | discriminate].
Defined.

(** C5 (counterexample): the territory {A, B} needs 4 days; adding X,
    1 minute from both, lowers the average intra-territory time from 1000
    to 334 minutes and the estimate to 3 days. *)
Lemma minimum_days_drops_when_location_added :
  MinDays.calculate_minimum_days_for_region (MinDays.triangle_app [0; 0; 1]%Z) 1 = Some 4%Z /\
  MinDays.calculate_minimum_days_for_region (MinDays.triangle_app [0; 0; 0]%Z) 1 = Some 3%Z.
Proof. split; vm_compute; reflexivity. Qed.

(** C5 (amended): with positive work hours and non-negative service and
    driving times, adding a location [x] to a member list whose nearest
    depot leg and some intra-territory pair are finite does not decrease
    the estimate, provided the depot leg of [x] is not shorter than the
    current nearest one and the average intra-territory time does not
    decrease. *)
Theorem minimum_days_monotone_when_legs_kept (app : MinDays.tsp_app)
    (service_time_hours work_hours nearest_depot_leg : Q) (mi mi' : list nat) (x : nat) :
  0 < work_hours -> 0 <= service_time_hours ->
  (forall i j d, MinDays.driving_time_matrix app i j = Some d -> 0 <= d) ->
  mi' ≡ₚ x :: mi ->
  MinDays.min_depot_distance app mi = Some nearest_depot_leg ->
  (0 < length (MinDays.intra_distances app mi))%nat ->
  (forall d, MinDays.driving_time_matrix app (MinDays.depot_postcode_idx app) x = Some d ->
     nearest_depot_leg <= d) ->
  MinDays.avg_distance (MinDays.intra_distances app mi) <=
    MinDays.avg_distance (MinDays.intra_distances app mi') ->
  exists k k', MinDays.minimum_days_of_indices app service_time_hours work_hours mi = Some k /\
    MinDays.minimum_days_of_indices app service_time_hours work_hours mi' = Some k' /\ (k <= k')%Z.
Proof.
  intros Hwh Hsh Hnn Hperm Hleg Hds Hx Havg.
  destruct (MinDaysFacts.min_depot_distance_spec app mi nearest_depot_leg Hleg) as [Hex Hmin].
  assert (Hin : forall i, i ∈ mi' <-> i = x \/ i ∈ mi) by (intros i; rewrite Hperm; apply elem_of_cons).
  destruct Hex as (idx & Hidx & Hd).
  destruct (MinDaysFacts.min_depot_distance_exists app mi' idx nearest_depot_leg ltac:(apply Hin; by right) Hd)
    as [m' Hleg'].
  destruct (MinDaysFacts.min_depot_distance_spec app mi' m' Hleg') as [Hex' Hmin'].
  assert (Hm'le : m' <= nearest_depot_leg) by (apply (Hmin' idx); [apply Hin; by right | done]).
  assert (Hle_m' : nearest_depot_leg <= m').
  { destruct Hex' as (idx' & Hidx' & Hd'). apply Hin in Hidx' as [->|Hidx']; [by apply Hx | by apply (Hmin idx')]. }
  assert (Hds' : (0 < length (MinDays.intra_distances app mi'))%nat)
    by (apply (MinDaysFacts.intra_distances_incl app mi); [done | intros i Hi; apply Hin; by right]).
  rewrite (MinDaysFacts.minimum_days_of_indices_main app _ _ mi _ Hleg Hds Hwh).
  rewrite (MinDaysFacts.minimum_days_of_indices_main app _ _ mi' _ Hleg' Hds' Hwh).
  do 2 eexists. split_and!; [done | done |].
  apply Zplus_le_compat_r, Qceiling_resp_le, MinDaysFacts.days_div_mono; [|done].
  rewrite (Permutation_length Hperm). cbn [length].
  pose proof (MinDaysFacts.avg_distance_nonneg _ (MinDaysFacts.intra_distances_nonneg app mi Hnn)) as Ha.
  assert (Hl : (1 < length mi)%nat).
  { destruct (Nat.le_gt_cases (length mi) 1) as [Hle|]; [|done].
    rewrite MinDaysFacts.intra_distances_short in Hds by done. simpl in Hds. lia. }
  set (a := MinDays.avg_distance (MinDays.intra_distances app mi)) in *.
  set (a' := MinDays.avg_distance (MinDays.intra_distances app mi')) in *.
  assert (E1 : inject_Z (Z.of_nat (S (length mi)) - 1) == inject_Z (Z.of_nat (length mi)))
    by (unfold Qeq, inject_Z; simpl; lia).
  assert (E2 : inject_Z (Z.of_nat (S (length mi))) == inject_Z (Z.of_nat (length mi) - 1) + 1 + 1).
  { unfold Qeq, inject_Z; simpl; lia. }
  assert (E3 : inject_Z (Z.of_nat (length mi)) == inject_Z (Z.of_nat (length mi) - 1) + 1).
  { unfold Qeq, inject_Z; simpl; lia. }
  rewrite E1, E2, E3.
  assert (Hn1 : 0 <= inject_Z (Z.of_nat (length mi) - 1)).
  { change 0 with (inject_Z 0). rewrite <- Zle_Qle. lia. }
  set (k := inject_Z (Z.of_nat (length mi) - 1)) in *.
  assert (a * k <= a' * k) by (apply Qmult_le_compat_r; done).
  assert (H1 : a * k <= a' * (k + 1)) by (rewrite Qmult_plus_distr_r; lra).
  lra.
Qed.

Lemma minimum_days_monotone_when_legs_kept_witness :
  exists k k', MinDays.minimum_days_of_indices (MinDays.triangle_app [0; 0; 0]%Z) 1 8 [1; 2]%nat = Some k /\
    MinDays.minimum_days_of_indices (MinDays.triangle_app [0; 0; 0]%Z) 1 8 [0; 1; 2]%nat = Some k' /\ (k <= k')%Z.
Proof.
  apply (minimum_days_monotone_when_legs_kept (MinDays.triangle_app [0; 0; 0]%Z) 1 8 10 [1; 2]%nat [0; 1; 2]%nat 0%nat);
    try (vm_compute; first [reflexivity | lia | discriminate]).
  - intros i j d Hd. cbn [MinDays.driving_time_matrix MinDays.triangle_app] in Hd.
    unfold MinDays.triangle_matrix in Hd. repeat case_match; simplify_eq; vm_compute; discriminate.
  - intros d Hd. vm_compute in Hd. injection Hd as <-. vm_compute. discriminate.
Defined.

(* ------------------------------------------------------------------ *)
(** ** Text conversions, slot labels and colours *)

Local Open Scope Z_scope.

(* ================================================================== *)
Module PyTextFacts.
Import PyText.

Definition horner (b : Z) (ds : list Z) : Z := fold_left (fun a d => a * b + d) ds 0.

Lemma horner_snoc b ds d : horner b (ds ++ [d]) = horner b ds * b + d.
Proof. unfold horner. by rewrite fold_left_app. Qed.

Lemma to_digits_spec (b : Z) (Hb : 2 <= b) (f : nat) :
  forall n, 0 <= n -> (Z.to_nat n < f)%nat ->
  to_digits f b n <> [] /\ Forall (fun d => 0 <= d < b) (to_digits f b n) /\
  horner b (to_digits f b n) = n.
Proof.
  induction f as [|f IH]; intros n Hn Hf; [lia|].
  simpl. destruct (Z.ltb_spec n b).
  - split_and!; [done | constructor; [lia | constructor] | done].
  - assert (Hq : 0 <= n / b) by (apply Z.div_pos; lia).
    assert (Hlt : n / b < n) by (apply Z.div_lt; lia).
    destruct (IH (n / b)) as (_ & Hall & Hv); [done | lia |].
    split_and!.
    + intros Hnil. apply app_eq_nil in Hnil as [_ Hc]. discriminate.
    + apply Forall_app. split; [done|]. constructor; [|constructor].
      apply Z.mod_pos_bound. lia.
    + rewrite horner_snoc, Hv. pose proof (Z.div_mod n b). lia.
Qed.

Lemma digits_of_spec (b n : Z) : 2 <= b -> 0 <= n ->
  digits_of b n <> [] /\ Forall (fun d => 0 <= d < b) (digits_of b n) /\
  horner b (digits_of b n) = n.
Proof. intros Hb Hn. apply to_digits_spec; lia. Qed.

Lemma to_digits_length (b : Z) (Hb : 2 <= b) (f : nat) :
  forall n k, 0 <= n < b ^ k -> 1 <= k -> Z.of_nat (length (to_digits f b n)) <= k.
Proof.
  induction f as [|f IH]; intros n k Hn Hk; simpl; [lia|].
  destruct (Z.ltb_spec n b); simpl; [lia|].
  assert (Hk2 : 2 <= k).
  { destruct (Z.eq_dec k 1) as [->|]; [|lia]. rewrite Z.pow_1_r in Hn. lia. }
  rewrite length_app. simpl.
  assert (n / b < b ^ (k - 1)).
  { apply Z.div_lt_upper_bound; [lia|].
    replace k with (Z.succ (k - 1)) in Hn by lia.
    rewrite Z.pow_succ_r in Hn by lia. lia. }
  assert (0 <= n / b) by (apply Z.div_pos; lia).
  specialize (IH (n / b) (k - 1) ltac:(lia) ltac:(lia)). lia.
Qed.

(** the characters [digit_char] writes for the digits 0..15 *)
Lemma digit_char_props (d : Z) : 0 <= d < 16 ->
  PyStr.is_space (digit_char d) = false /\ digit_char d <> "_"%char /\
  digit_value (digit_char d) = d /\ digit_char d <> ":"%char /\
  digit_char d <> "-"%char /\ digit_char d <> "+"%char /\ digit_char d <> "#"%char /\
  (d < 10 -> SlotText.is_digit (digit_char d) = true /\ SlotText.dval (digit_char d) = d).
Proof.
  intros Hd.
  assert (d = 0 \/ d = 1 \/ d = 2 \/ d = 3 \/ d = 4 \/ d = 5 \/ d = 6 \/ d = 7 \/
          d = 8 \/ d = 9 \/ d = 10 \/ d = 11 \/ d = 12 \/ d = 13 \/ d = 14 \/ d = 15)
    as HD by lia.
  repeat destruct HD as [-> | HD]; subst; vm_compute;
    (split_and!; first [reflexivity | discriminate | intros; split; reflexivity | lia]).
Qed.

Lemma scan_digits_map (b : Z) (Hb : b <= 16) (ds : list Z) :
  Forall (fun d => 0 <= d < b) ds -> forall acc nd,
  scan_digits b (map digit_char ds) false acc nd =
    Some (fold_left (fun a d => a * b + d) ds acc, (nd + length ds)%nat, []).
Proof.
  induction 1 as [|d ds Hd Hds IH]; intros acc nd; simpl.
  - f_equal. f_equal. f_equal. lia.
  - destruct (digit_char_props d ltac:(lia)) as (_ & Hus & Hval & _).
    rewrite bool_decide_false by done. rewrite Hval.
    destruct (Z.ltb_spec d b); [|lia].
    rewrite IH. do 3 f_equal. lia.
Qed.

(** the tail of [parse_int] once the sign and prefix are read *)
Definition finish_parse (base sign : Z) (res : option (Z * nat * list ascii)) : option Z :=
  match res with
  | None => None
  | Some (v, digits, rest) =>
      if (digits =? 0)%nat then None
      else if (base =? 10) && (max_str_digits <? Z.of_nat digits) then None
      else if forallb PyStr.is_space rest then Some (sign * v) else None
  end.

Lemma parse_int_10_plain (c : ascii) (r : list ascii) :
  PyStr.is_space c = false -> c <> "-"%char -> c <> "+"%char -> c <> "_"%char ->
  parse_int 10 (string_of_list_ascii (c :: r)) = finish_parse 10 1 (scan_digits 10 (c :: r) false 0 0).
Proof.
  intros H1 H2 H3 H4. unfold parse_int. rewrite list_ascii_of_string_of_list_ascii.
  destruct c as [[] [] [] [] [] [] [] []];
    first [reflexivity | exfalso; vm_compute in H1; discriminate | congruence].
Qed.

Lemma parse_int_10_neg (c : ascii) (r : list ascii) :
  c <> "_"%char ->
  parse_int 10 (string_of_list_ascii ("-"%char :: c :: r)) =
    finish_parse 10 (-1) (scan_digits 10 (c :: r) false 0 0).
Proof.
  intros H4. unfold parse_int. rewrite list_ascii_of_string_of_list_ascii.
  destruct c as [[] [] [] [] [] [] [] []]; first [reflexivity | congruence].
Qed.

Lemma dec_chars (h : Z) :
  list_ascii_of_string (dec h) =
    (if h <? 0 then ["-"%char] else []) ++ map digit_char (digits_of 10 (Z.abs h)).
Proof. unfold dec, zfill_int. by rewrite list_ascii_of_string_of_list_ascii. Qed.

(** [int(f"{h}")] gives back [h] below the 4300-digit limit *)
Lemma parse_int_dec (h : Z) : Z.abs h < 10 ^ 4300 -> parse_int 10 (dec h) = Some h.
Proof.
  intros Hh. pose proof (Z.abs_nonneg h) as Habs.
  assert (Hlen : Z.of_nat (length (digits_of 10 (Z.abs h))) <= 4300).
  { exact (to_digits_length 10 ltac:(clear Hh; lia) _ (Z.abs h) 4300 (conj Habs Hh) ltac:(clear Hh; lia)). }
  clear Hh.
  destruct (digits_of_spec 10 (Z.abs h)) as (Hne & Hall & Hv); [lia | lia |].
  rewrite <- (string_of_list_ascii_of_string (dec h)), dec_chars.
  destruct (digits_of 10 (Z.abs h)) as [|d0 ds] eqn:Eds; [done|].
  pose proof (Forall_inv Hall) as Hd0. cbv beta in Hd0.
  destruct (digit_char_props d0 ltac:(lia)) as (Hsp & Hus & _ & _ & Hmi & Hpl & _).
  assert (Hfin : scan_digits 10 (map digit_char (d0 :: ds)) false 0 0 =
                 Some (Z.abs h, length (d0 :: ds), [])).
  { rewrite scan_digits_map by (lia || done). simpl. unfold horner in Hv. simpl in Hv.
    rewrite Hv. done. }
  destruct (Z.ltb_spec h 0).
  - simpl app. rewrite parse_int_10_neg by done.
    simpl map in Hfin. rewrite Hfin. unfold finish_parse.
    cbn [length]. simpl in Hlen.
    destruct (Z.ltb_spec max_str_digits (Z.of_nat (S (length ds)))) as [Hm|]; [unfold max_str_digits in Hm; lia|].
    simpl. f_equal. lia.
  - simpl app. cbn [map]. rewrite parse_int_10_plain by (done || congruence).
    simpl map in Hfin. rewrite Hfin. unfold finish_parse.
    cbn [length]. simpl in Hlen.
    destruct (Z.ltb_spec max_str_digits (Z.of_nat (S (length ds)))) as [Hm|]; [unfold max_str_digits in Hm; lia|].
    simpl. f_equal. lia.
Qed.

End PyTextFacts.

Module SlotTextFacts.
Import PyText SlotText.

Lemma list_ascii_of_string_app (s1 s2 : string) :
  list_ascii_of_string (s1 ++ s2) = list_ascii_of_string s1 ++ list_ascii_of_string s2.
Proof.
  induction s1 as [|c s1 IH]; [reflexivity|].
  change (String c s1 ++ s2)%string with (String c (s1 ++ s2)). cbn. by rewrite IH.
Qed.

Lemma split_aux_no_sep (sep : ascii) (l : list ascii) :
  Forall (fun c => c <> sep) l -> forall cur,
  split_aux sep cur l = [string_of_list_ascii (rev cur ++ l)].
Proof.
  induction 1 as [|c l Hc Hl IH]; intros cur; simpl.
  - by rewrite app_nil_r.
  - rewrite bool_decide_false by done. rewrite IH. simpl. by rewrite <- app_assoc.
Qed.

Lemma split_aux_app (sep : ascii) (l1 l2 : list ascii) :
  Forall (fun c => c <> sep) l1 -> forall cur,
  split_aux sep cur (l1 ++ sep :: l2) =
    string_of_list_ascii (rev cur ++ l1) :: split_aux sep [] l2.
Proof.
  induction 1 as [|c l Hc Hl IH]; intros cur; simpl.
  - rewrite bool_decide_true by done. by rewrite app_nil_r.
  - rewrite bool_decide_false by done. rewrite IH. simpl. by rewrite <- app_assoc.
Qed.

Lemma split_aux_length (sep : ascii) (l : list ascii) : forall cur,
  length (split_aux sep cur l) = S (length (filter (fun c => c = sep) l)).
Proof.
  induction l as [|c l IH]; intros cur; simpl; [done|].
  case_bool_decide as Hc.
  - rewrite filter_cons_True by done. simpl. by rewrite IH.
  - rewrite filter_cons_False by done. by rewrite IH.
Qed.

Lemma dec_chars_nonneg (h : Z) : 0 <= h ->
  list_ascii_of_string (dec h) = map digit_char (digits_of 10 h).
Proof.
  intros Hh. rewrite PyTextFacts.dec_chars.
  destruct (Z.ltb_spec h 0); [lia|]. simpl. by rewrite Z.abs_eq.
Qed.

Lemma dec_no_colon (h : Z) : Forall (fun c => c <> ":"%char) (list_ascii_of_string (dec h)).
Proof.
  rewrite PyTextFacts.dec_chars.
  destruct (PyTextFacts.digits_of_spec 10 (Z.abs h)) as (_ & Hall & _); [lia | lia |].
  apply Forall_app. split.
  - destruct (h <? 0); repeat constructor; discriminate.
  - apply Forall_map. eapply Forall_impl; [exact Hall|]. intros d Hd. cbv beta in Hd.
    apply (PyTextFacts.digit_char_props d). lia.
Qed.

Definition Zrange (n : nat) : list Z := map Z.of_nat (seq 0 n).

Lemma Zrange_elem (n : nat) (z : Z) : 0 <= z < Z.of_nat n -> In z (Zrange n).
Proof.
  intros Hz. unfold Zrange. apply in_map_iff. exists (Z.to_nat z).
  split; [lia|]. apply in_seq. lia.
Qed.

(** the minutes field [f"{mins:02d}"] for [0 <= mins < 60] *)
Lemma minutes_field (m : Z) : 0 <= m < 60 ->
  Forall (fun c => c <> ":"%char) (list_ascii_of_string (zfill_int 10 2 m)) /\
  parse_int 10 (zfill_int 10 2 m) = Some m.
Proof.
  intros Hm.
  assert (Hall : forallb (fun m => bool_decide
             (Forall (fun c => c <> ":"%char) (list_ascii_of_string (zfill_int 10 2 m)) /\
              parse_int 10 (zfill_int 10 2 m) = Some m)) (Zrange 60) = true)
    by (vm_compute; reflexivity).
  rewrite forallb_forall in Hall.
  specialize (Hall m (Zrange_elem 60 m ltac:(lia))). by apply bool_decide_eq_true in Hall.
Qed.

Lemma format_slot_chars (t : slot) :
  list_ascii_of_string (format_slot t) =
    list_ascii_of_string (dec t.1) ++ ":"%char :: list_ascii_of_string (zfill_int 10 2 t.2).
Proof. unfold format_slot. by rewrite list_ascii_of_string_app. Qed.

(** [time_to_minutes(f"{h}:{m:02d}")] is [h * 60 + m] *)
Lemma time_to_minutes_format_slot (h m : Z) :
  Z.abs h < 10 ^ 4300 -> 0 <= m < 60 ->
  SlotText.time_to_minutes (format_slot (h, m)) = Some (h * 60 + m).
Proof.
  intros Hh Hm. destruct (minutes_field m Hm) as [Hmc Hmp].
  unfold SlotText.time_to_minutes, split. rewrite format_slot_chars. simpl fst; simpl snd.
  rewrite split_aux_app by apply dec_no_colon. rewrite split_aux_no_sep by done.
  simpl. rewrite !string_of_list_ascii_of_string.
  rewrite (PyTextFacts.parse_int_dec h Hh), Hmp. done.
Qed.

(** the value the digit characters [p] spell with dval *)
Definition chars_value (p : list ascii) : Z := fold_left (fun a c => a * 10 + dval c) p 0.

Lemma H_alts_shape (l : list ascii) (v : Z) (r : list ascii) :
  (v, r) ∈ H_alts l ->
  exists p, l = p ++ r /\ Forall (fun c => is_digit c = true) p /\ v = chars_value p /\ v <= 23.
Proof.
  unfold H_alts, in_range, is_digit, dval.
  destruct l as [|c1 [|c2 r']]; cbv beta iota; intros H; rewrite ?elem_of_app in H.
  all: repeat match goal with H : _ \/ _ |- _ => destruct H as [H|H] end.
  all: try (by apply elem_of_nil in H).
  all: match type of H with _ ∈ (if ?b then _ else _) => destruct b eqn:E end;
         [| by apply elem_of_nil in H].
  all: apply list_elem_of_singleton in H; injection H as -> ->.
  - apply andb_prop in E as [E1 E2]. apply Nat.leb_le in E1, E2.
    exists [c1]. split_and!; [done | | unfold chars_value, dval; simpl; lia | lia].
    repeat constructor. apply andb_true_intro; split; by apply Nat.leb_le.
  - apply andb_prop in E as [E1 E2]. apply bool_decide_eq_true in E1. subst c1.
    apply andb_prop in E2 as [E2 E3]. apply Nat.leb_le in E2, E3.
    change (nat_of_ascii "0") with 48%nat in E2. change (nat_of_ascii "3") with 51%nat in E3.
    exists ["2"%char; c2]. split_and!; [done | | unfold chars_value, dval; simpl; lia | change (Z.of_nat (nat_of_ascii "2")) with 50; lia].
    repeat constructor. apply andb_true_intro; split; apply Nat.leb_le; simpl; lia.
  - apply andb_prop in E as [E E3]. apply andb_prop in E as [E1 E2].
    apply andb_prop in E3 as [E3 E4].
    apply Nat.leb_le in E1, E2, E3, E4.
    change (nat_of_ascii "0") with 48%nat in E1. change (nat_of_ascii "1") with 49%nat in E2.
    exists [c1; c2]. split_and!; [done | | unfold chars_value, dval; simpl; lia | lia].
    repeat constructor; apply andb_true_intro; split; apply Nat.leb_le; lia.
  - apply andb_prop in E as [E1 E2]. apply Nat.leb_le in E1, E2.
    exists [c1]. split_and!; [done | | unfold chars_value, dval; simpl; lia | lia].
    repeat constructor. apply andb_true_intro; split; by apply Nat.leb_le.
Qed.

Lemma first_some_Some {A B} (f : A -> option B) (l : list A) (y : B) :
  first_some f l = Some y -> exists x, x ∈ l /\ f x = Some y.
Proof.
  induction l as [|x l IH]; simpl; [done|].
  destruct (f x) eqn:E.
  - intros [= ->]. exists x. split; [by left | done].
  - intros H. destruct (IH H) as (x' & Hx' & Hf). exists x'. split; [by right | done].
Qed.

Lemma app_sep_unique (sep : ascii) (p1 p2 r1 r2 : list ascii) :
  Forall (fun c => c <> sep) p1 -> Forall (fun c => c <> sep) p2 ->
  p1 ++ sep :: r1 = p2 ++ sep :: r2 -> p1 = p2.
Proof.
  intros H1. revert p2. induction H1 as [|c p1 Hc H1 IH]; intros p2 H2 E.
  - destruct p2 as [|c p2]; [done|]. simpl in E. injection E as <- _.
    inversion H2. congruence.
  - destruct p2 as [|c' p2]; simpl in E; injection E as -> E; [congruence|].
    inversion H2; subst. f_equal. by apply IH.
Qed.

Lemma chars_value_digits (ds : list Z) :
  Forall (fun d => 0 <= d < 10) ds -> chars_value (map digit_char ds) = PyTextFacts.horner 10 ds.
Proof.
  intros Hall. unfold chars_value, PyTextFacts.horner.
  generalize 0. induction Hall as [|d ds Hd Hds IH]; intros a; simpl; [done|].
  destruct (PyTextFacts.digit_char_props d ltac:(lia)) as (_ & _ & _ & _ & _ & _ & _ & Hdig).
  destruct (Hdig ltac:(lia)) as [_ ->]. apply IH.
Qed.

(** [strptime(f"{h}:{m:02d}", '%H:%M')] raises for every hour above 23 *)
Lemma strptime_HM_hour_too_big (h m : Z) : 24 <= h -> strptime_HM (format_slot (h, m)) = None.
Proof.
  intros Hh. unfold strptime_HM.
  destruct (match_HM _) as [[[h' m'] rest]|] eqn:E; [|done]. exfalso.
  unfold match_HM in E. apply first_some_Some in E as ([v r] & Hin & Hf).
  simpl in Hf. destruct r as [|c r]; [done|].
  destruct (bool_decide (c = ":"%char)) eqn:Ec.
  - apply bool_decide_eq_true in Ec. subst c.
    destruct (H_alts_shape _ _ _ Hin) as (p & Hl & Hp & Hv & Hle).
    rewrite format_slot_chars in Hl. simpl fst in Hl. simpl snd in Hl.
    rewrite dec_chars_nonneg in Hl by lia.
    destruct (PyTextFacts.digits_of_spec 10 h) as (_ & Hall & Hval); [lia | lia |].
    assert (Hpc : Forall (fun c => c <> ":"%char) p).
    { eapply Forall_impl; [exact Hp|]. intros c Hc ->. discriminate. }
    assert (Hdc : Forall (fun c => c <> ":"%char) (map digit_char (digits_of 10 h))).
    { apply Forall_map. eapply Forall_impl; [exact Hall|]. intros d Hd. cbv beta in Hd.
      apply (PyTextFacts.digit_char_props d). lia. }
    pose proof (app_sep_unique _ _ _ _ _ Hdc Hpc Hl) as Hpe.
    rewrite <- Hpe, chars_value_digits in Hv by done. lia.
  - (* the unread text after the hour is not a colon *)
    destruct c as [[] [] [] [] [] [] [] []]; try discriminate Hf; discriminate Ec.
Qed.

Lemma generate_time_slots_elem (start_h end_h : Z) (t : slot) :
  t ∈ generate_time_slots start_h end_h ->
  exists n, start_h <= n / 60 /\ n / 60 < end_h /\ 0 <= n mod 60 < 60 /\
            t = (n / 60, n mod 60) /\ n / 60 * 60 + n mod 60 = n.
Proof.
  intros Ht. unfold generate_time_slots in Ht.
  apply list_elem_of_fmap in Ht as (i & -> & Hi).
  apply elem_of_seq in Hi.
  set (n := start_h * 60 + 30 * Z.of_nat i).
  assert (Hn : start_h * 60 <= n < end_h * 60).
  { split; [unfold n; lia|].
    destruct Hi as [_ Hi]. simpl in Hi.
    assert (Hq : Z.of_nat i < (end_h * 60 - start_h * 60 + 29) / 30) by lia.
    assert (30 * Z.of_nat i + 30 <= end_h * 60 - start_h * 60 + 29).
    { pose proof (Z.mul_div_le (end_h * 60 - start_h * 60 + 29) 30 ltac:(lia)). nia. }
    unfold n. lia. }
  exists n. refine (conj _ (conj _ (conj _ (conj eq_refl _)))).
  - apply Z.div_le_lower_bound; lia.
  - apply Z.div_lt_upper_bound; lia.
  - apply Z.mod_pos_bound; lia.
  - pose proof (Z.div_mod n 60). lia.
Qed.

Lemma abs_between (a x b B : Z) : a <= x -> x < b -> Z.abs a < B -> Z.abs b < B -> Z.abs x < B.
Proof. lia. Qed.

End SlotTextFacts.

Module GroupFacts.
Import SlotText.

Definition expand (r : avail_slot * avail_slot) : list Z := py_range r.1.2 (r.2.2 + 30) 30.

Lemma py_range_run (a : Z) (j : nat) :
  py_range a (a + 30 * Z.of_nat j + 30) 30 = map (fun i : nat => a + 30 * Z.of_nat i) (seq 0 (S j)).
Proof.
  unfold py_range. f_equal. f_equal.
  replace (a + 30 * Z.of_nat j + 30 - a + 30 - 1) with (Z.of_nat (S j) * 30 + 29) by lia.
  rewrite Z.div_add_l by lia. change (29 / 30) with 0. lia.
Qed.

Lemma group_from_concat (rest : list avail_slot) : forall (cs p : avail_slot) (j : nat),
  p.2 = cs.2 + 30 * Z.of_nat j ->
  concat (map expand (group_from cs p p rest)) =
    map (fun i : nat => cs.2 + 30 * Z.of_nat i) (seq 0 (S j)) ++ map snd rest.
Proof.
  induction rest as [|s r IH]; intros cs p j Hp; cbn [group_from].
  - cbn [map concat]. rewrite !app_nil_r. unfold expand. cbn [fst snd].
    rewrite Hp. apply py_range_run.
  - destruct (Z.eqb_spec s.2 (p.2 + 30)) as [Hs|Hs].
    + rewrite (IH cs s (S j)) by lia.
      rewrite (seq_S (S j)), map_app, <- app_assoc. cbn [map app]. do 3 f_equal. lia.
    + cbn [map concat]. rewrite (IH s s 0%nat) by lia. unfold expand at 1. cbn [fst snd].
      rewrite Hp, py_range_run. cbn [map app seq]. do 3 f_equal. lia.
Qed.

Lemma group_from_head (rest : list avail_slot) : forall (cs p : avail_slot),
  exists ce tl, group_from cs p p rest = (cs, ce) :: tl.
Proof.
  induction rest as [|s r IH]; intros cs p; simpl; [by eexists _, _|].
  destruct (s.2 =? p.2 + 30); [apply IH | by eexists _, _].
Qed.

Lemma group_from_gaps (rest : list avail_slot) : forall (cs p : avail_slot),
  let g := group_from cs p p rest in
  Forall (fun rr => rr.2.1.2 <> rr.1.2.2 + 30) (zip g (tail g)).
Proof.
  induction rest as [|s r IH]; intros cs p; simpl; [constructor|].
  destruct (Z.eqb_spec s.2 (p.2 + 30)) as [Hs|Hs]; [apply IH|].
  destruct (group_from_head r s s) as (ce & tl & Eg). simpl.
  rewrite Eg. simpl. constructor; [done|]. specialize (IH s s). rewrite Eg in IH. exact IH.
Qed.

End GroupFacts.

(** X1: every slot label that [generate_time_slots] writes
    ([f"{hours}:{mins:02d}"]) is parsed back by [time_to_minutes]
    ([split(':')] and [int]) to the slot's minutes from midnight, for
    any start and end hours that [int()] accepts. *)
Theorem slot_text_round_trip (start_h end_h : Z) (t : slot) :
  Z.abs start_h < 10 ^ 4300 -> Z.abs end_h < 10 ^ 4300 ->
  t ∈ generate_time_slots start_h end_h ->
  SlotText.time_to_minutes (SlotText.format_slot t) = Some (time_to_minutes t).
Proof.
  intros Hs He Ht.
  destruct (SlotTextFacts.generate_time_slots_elem _ _ _ Ht) as (n & Hlo & Hhi & Hmod & -> & Hn).
  rewrite SlotTextFacts.time_to_minutes_format_slot
    by (exact (SlotTextFacts.abs_between _ _ _ _ Hlo Hhi Hs He) || exact Hmod).
  unfold time_to_minutes. cbn [fst snd]. by rewrite Hn.
Qed.

Lemma slot_text_round_trip_witness :
  SlotText.time_to_minutes (SlotText.format_slot (8, 30)) = Some (time_to_minutes (8, 30)).
Proof.
  apply (slot_text_round_trip 8 19 (8, 30));
    [vm_compute; reflexivity | vm_compute; reflexivity | apply (bool_decide_unpack _); vm_compute; reflexivity].
Defined.

(** X2: [time_to_minutes] raises on every string that does not hold
    exactly one colon: the unpacking of [split(':')] needs exactly two
    fields. *)
Theorem time_to_minutes_needs_one_colon (s : string) :
  length (filter (fun c => c = ":"%char) (list_ascii_of_string s)) <> 1%nat ->
  SlotText.time_to_minutes s = None.
Proof.
  intros Hc. unfold SlotText.time_to_minutes, PyText.split.
  pose proof (SlotTextFacts.split_aux_length ":" (list_ascii_of_string s) []) as Hl.
  destruct (PyText.split_aux _ _ _) as [|a [|b [|c r]]]; simpl in Hl; try done; lia.
Qed.

Lemma time_to_minutes_needs_one_colon_witness : SlotText.time_to_minutes "12:30:00" = None.
Proof. apply time_to_minutes_needs_one_colon. vm_compute. discriminate. Defined.

(** X3: for hours 0..23 and minutes 0..59, [strptime('%H:%M')] accepts
    the slot label and reads back that hour and minute, so
    [format_time_12hour] returns its [strftime('%I:%M %p')] rendering. *)
Theorem format_time_12hour_of_slot (h m : Z) :
  0 <= h < 24 -> 0 <= m < 60 ->
  SlotText.strptime_HM (SlotText.format_slot (h, m)) = Some (h, m) /\
  SlotText.format_time_12hour (SlotText.format_slot (h, m)) = SlotText.strftime_IMp h m.
Proof.
  intros Hh Hm.
  assert (Hall : forallb (fun h => forallb (fun m =>
             bool_decide (SlotText.strptime_HM (SlotText.format_slot (h, m)) = Some (h, m)))
             (SlotTextFacts.Zrange 60)) (SlotTextFacts.Zrange 24) = true)
    by (vm_compute; reflexivity).
  rewrite forallb_forall in Hall.
  specialize (Hall h (SlotTextFacts.Zrange_elem 24 h ltac:(lia))).
  rewrite forallb_forall in Hall.
  specialize (Hall m (SlotTextFacts.Zrange_elem 60 m ltac:(lia))).
  apply bool_decide_eq_true in Hall.
  split; [done|]. unfold SlotText.format_time_12hour. by rewrite Hall.
Qed.

Lemma format_time_12hour_of_slot_witness :
  SlotText.strptime_HM (SlotText.format_slot (14, 5)) = Some (14, 5) /\
  SlotText.format_time_12hour (SlotText.format_slot (14, 5)) = SlotText.strftime_IMp 14 5.
Proof. apply format_time_12hour_of_slot; lia. Defined.

(** X4: for an hour of 24 or more, [strptime] rejects the slot label and
    [format_time_12hour] returns the label unchanged. *)
Theorem format_time_12hour_late_slot (h m : Z) :
  24 <= h ->
  SlotText.format_time_12hour (SlotText.format_slot (h, m)) = SlotText.format_slot (h, m).
Proof.
  intros Hh. unfold SlotText.format_time_12hour.
  by rewrite SlotTextFacts.strptime_HM_hour_too_big.
Qed.

Lemma format_time_12hour_late_slot_witness :
  SlotText.format_time_12hour (SlotText.format_slot (25, 0)) = SlotText.format_slot (25, 0).
Proof. apply format_time_12hour_late_slot; lia. Defined.

(** X5: for a non-empty list of one date's slots, the
    grouping loop of [format_availability_message] returns ranges which,
    expanded in steps of 30 minutes from start to end, give back exactly
    the slots' minutes in order; two successive ranges never join up
    (the next one does not start 30 minutes after the previous end). *)
Theorem availability_ranges_cover_slots (slots : list SlotText.avail_slot) :
  slots <> [] ->
  exists ranges, SlotText.group_ranges slots = Some ranges /\
    concat (map (fun r => SlotText.py_range r.1.2 (r.2.2 + 30) 30) ranges) = map snd slots /\
    Forall (fun rr => rr.2.1.2 <> rr.1.2.2 + 30) (zip ranges (tail ranges)).
Proof.
  destruct slots as [|s0 r]; [done|]. intros _. eexists. split; [reflexivity|]. split.
  - change (concat (map GroupFacts.expand (SlotText.group_from s0 s0 s0 r)) = map snd (s0 :: r)).
    rewrite (GroupFacts.group_from_concat r s0 s0 0%nat) by lia. simpl. do 2 f_equal. lia.
  - apply GroupFacts.group_from_gaps.
Qed.

Lemma availability_ranges_cover_slots_witness :
  let slots := [("09:00", "9:00 AM", 540); ("09:30", "9:30 AM", 570); ("11:00", "11:00 AM", 660)] in
  exists ranges, SlotText.group_ranges slots = Some ranges /\
    concat (map (fun r => SlotText.py_range r.1.2 (r.2.2 + 30) 30) ranges) = map snd slots /\
    Forall (fun rr => rr.2.1.2 <> rr.1.2.2 + 30) (zip ranges (tail ranges)).
Proof. apply availability_ranges_cover_slots. discriminate. Defined.

Module ColorFacts.
Import PyText.

Definition hex_chars : list ascii :=
  filter (fun c => digit_value c < 16) (map ascii_of_nat (seq 0 256)).

Lemma hex_chars_elem (c : ascii) : digit_value c < 16 -> c ∈ hex_chars.
Proof.
  intros Hc. unfold hex_chars. apply list_elem_of_filter. split; [done|].
  apply list_elem_of_fmap. exists (nat_of_ascii c). split.
  - by rewrite ascii_nat_embedding.
  - apply elem_of_seq. pose proof (nat_ascii_bounded c). lia.
Qed.

Definition pair_value (c1 c2 : ascii) : Z := 16 * digit_value c1 + digit_value c2.

Definition lower_char (c : ascii) : ascii :=
  let n := nat_of_ascii c in
  if ((65 <=? n)%nat && (n <=? 90)%nat) then ascii_of_nat (n + 32) else c.

Lemma hex_pair (c1 c2 : ascii) : digit_value c1 < 16 -> digit_value c2 < 16 ->
  parse_int 16 (String c1 (String c2 EmptyString)) = Some (pair_value c1 c2) /\
  0 <= pair_value c1 c2 <= 255 /\
  zfill_int 16 2 (pair_value c1 c2) = String (lower_char c1) (String (lower_char c2) EmptyString) /\
  c1 <> "#"%char.
Proof.
  intros H1 H2.
  assert (Hall : forallb (fun c1 => forallb (fun c2 => bool_decide (
             parse_int 16 (String c1 (String c2 EmptyString)) = Some (pair_value c1 c2) /\
             0 <= pair_value c1 c2 <= 255 /\
             zfill_int 16 2 (pair_value c1 c2) =
               String (lower_char c1) (String (lower_char c2) EmptyString) /\
             c1 <> "#"%char)) hex_chars) hex_chars = true) by (vm_compute; reflexivity).
  rewrite forallb_forall in Hall. specialize (Hall c1).
  rewrite <- list_elem_of_In in Hall. specialize (Hall (hex_chars_elem _ H1)).
  rewrite forallb_forall in Hall. specialize (Hall c2).
  rewrite <- list_elem_of_In in Hall. specialize (Hall (hex_chars_elem _ H2)).
  by apply bool_decide_eq_true in Hall.
Qed.

Lemma byte_field (v : Z) : 0 <= v <= 255 -> String.length (zfill_int 16 2 v) = 2%nat.
Proof.
  intros Hv.
  assert (Hall : forallb (fun v => bool_decide (String.length (zfill_int 16 2 v) = 2%nat))
                   (SlotTextFacts.Zrange 256) = true) by (vm_compute; reflexivity).
  rewrite forallb_forall in Hall.
  specialize (Hall v (SlotTextFacts.Zrange_elem 256 v ltac:(lia))).
  by apply bool_decide_eq_true in Hall.
Qed.

Local Open Scope Q_scope.

Lemma Qfloor_unique (x : Q) (z : Z) : inject_Z z <= x -> x < inject_Z (z + 1) -> Qfloor x = z.
Proof.
  intros Hlo Hhi.
  pose proof (Qfloor_le x) as Hf. pose proof (Qlt_floor x) as Hf'.
  assert (Qfloor x < z + 1)%Z by (rewrite Zlt_Qlt; eapply Qle_lt_trans; [exact Hf | exact Hhi]).
  assert (z < Qfloor x + 1)%Z by (rewrite Zlt_Qlt; eapply Qle_lt_trans; [exact Hlo | exact Hf']).
  lia.
Qed.

Lemma Qfloor_add_Z (z : Z) (y : Q) : Qfloor (inject_Z z + y) = (z + Qfloor y)%Z.
Proof.
  apply Qfloor_unique.
  - rewrite inject_Z_plus. pose proof (Qfloor_le y). lra.
  - rewrite !inject_Z_plus. pose proof (Qlt_floor y) as H. rewrite inject_Z_plus in H. lra.
Qed.

(** one channel of [lighten_color] *)
Lemma blend_channel (v : Z) (factor : Q) : (0 <= v <= 255)%Z -> 0 <= factor <= 1 ->
  PyStr.py_int (inject_Z v + inject_Z (255 - v) * factor) =
    (v + Qfloor (inject_Z (255 - v) * factor))%Z /\
  (v <= v + Qfloor (inject_Z (255 - v) * factor) <= 255)%Z.
Proof.
  intros Hv [Hf0 Hf1].
  assert (Hw : 0 <= inject_Z (255 - v)) by (change 0 with (inject_Z 0); rewrite <- Zle_Qle; lia).
  assert (Hy0 : 0 <= inject_Z (255 - v) * factor) by (apply Qmult_le_0_compat; done).
  assert (Hy1 : inject_Z (255 - v) * factor <= inject_Z (255 - v)).
  { rewrite <- (Qmult_1_r (inject_Z (255 - v))) at 2. rewrite !(Qmult_comm (inject_Z (255 - v))).
    apply Qmult_le_compat_r; done. }
  assert (Hv0 : 0 <= inject_Z v) by (change 0 with (inject_Z 0); rewrite <- Zle_Qle; lia).
  split.
  - unfold PyStr.py_int.
    replace (Qle_bool 0 (inject_Z v + inject_Z (255 - v) * factor)) with true
      by (symmetry; apply Qle_bool_iff; lra).
    apply Qfloor_add_Z.
  - pose proof (Qfloor_resp_le _ _ Hy0) as Hl. pose proof (Qfloor_resp_le _ _ Hy1) as Hu.
    rewrite Qfloor_Z in Hu. change (Qfloor 0) with 0%Z in Hl. lia.
Qed.

Lemma Qfloor_mult_0 (w : Z) : Qfloor (inject_Z w * 0) = 0%Z.
Proof. apply Qfloor_unique; rewrite Qmult_0_r; [apply Qle_refl | reflexivity]. Qed.

Lemma Qfloor_mult_1 (w : Z) : Qfloor (inject_Z w * 1) = w.
Proof. apply Qfloor_unique; rewrite Qmult_1_r; [apply Qle_refl | rewrite <- Zlt_Qlt; lia]. Qed.

End ColorFacts.

Lemma lighten_unfold (c1 c2 c3 c4 c5 c6 : ascii) (factor : Q) :
  Forall (fun c => PyText.digit_value c < 16) [c1; c2; c3; c4; c5; c6] ->
  Colors.lighten_color (String "#" (String c1 (String c2 (String c3 (String c4 (String c5 (String c6 EmptyString))))))) factor =
    Some ("#" ++ PyText.zfill_int 16 2 (PyStr.py_int (inject_Z (ColorFacts.pair_value c1 c2)
                                            + inject_Z (255 - ColorFacts.pair_value c1 c2) * factor))
              ++ PyText.zfill_int 16 2 (PyStr.py_int (inject_Z (ColorFacts.pair_value c3 c4)
                                            + inject_Z (255 - ColorFacts.pair_value c3 c4) * factor))
              ++ PyText.zfill_int 16 2 (PyStr.py_int (inject_Z (ColorFacts.pair_value c5 c6)
                                            + inject_Z (255 - ColorFacts.pair_value c5 c6) * factor)))%string.
Proof.
  intros Hall. rewrite !Forall_cons in Hall. destruct Hall as (H1 & H2 & H3 & H4 & H5 & H6 & _).
  destruct (ColorFacts.hex_pair c1 c2 H1 H2) as (P1 & _ & _ & N1).
  destruct (ColorFacts.hex_pair c3 c4 H3 H4) as (P2 & _ & _ & _).
  destruct (ColorFacts.hex_pair c5 c6 H5 H6) as (P3 & _ & _ & _).
  unfold Colors.lighten_color. cbn [list_ascii_of_string Colors.lstrip_char].
  rewrite bool_decide_true by done. cbn [Colors.lstrip_char].
  rewrite bool_decide_false by done. cbn [string_of_list_ascii substring].
  by rewrite P1, P2, P3.
Qed.

(** X6: for ['#'] followed by six hex digits and [0 <= factor <= 1],
    [lighten_color] returns ['#'] and three two-digit hex fields, each
    channel [v] becoming [v + floor((255 - v) * factor)], which lies
    between [v] and 255. *)
Theorem lighten_color_blends_channels (c1 c2 c3 c4 c5 c6 : ascii) (factor : Q) :
  Forall (fun c => PyText.digit_value c < 16) [c1; c2; c3; c4; c5; c6] ->
  (0 <= factor <= 1)%Q ->
  let blend v := v + Qfloor (inject_Z (255 - v) * factor) in
  let r := ColorFacts.pair_value c1 c2 in
  let g := ColorFacts.pair_value c3 c4 in
  let b := ColorFacts.pair_value c5 c6 in
  Colors.lighten_color (String "#" (String c1 (String c2 (String c3 (String c4 (String c5 (String c6 EmptyString))))))) factor =
    Some ("#" ++ PyText.zfill_int 16 2 (blend r) ++ PyText.zfill_int 16 2 (blend g)
              ++ PyText.zfill_int 16 2 (blend b))%string /\
  Forall (fun v => 0 <= v <= blend v /\ blend v <= 255) [r; g; b] /\
  Forall (fun v => String.length (PyText.zfill_int 16 2 (blend v)) = 2%nat) [r; g; b].
Proof.
  intros Hall Hf blend r g b. subst blend r g b. pose proof Hall as Hall'.
  rewrite !Forall_cons in Hall'. destruct Hall' as (H1 & H2 & H3 & H4 & H5 & H6 & _).
  destruct (ColorFacts.hex_pair c1 c2 H1 H2) as (_ & R & _ & _).
  destruct (ColorFacts.hex_pair c3 c4 H3 H4) as (_ & G & _ & _).
  destruct (ColorFacts.hex_pair c5 c6 H5 H6) as (_ & B & _ & _).
  destruct (ColorFacts.blend_channel _ factor R Hf) as [Rb Rr].
  destruct (ColorFacts.blend_channel _ factor G Hf) as [Gb Gr].
  destruct (ColorFacts.blend_channel _ factor B Hf) as [Bb Br].
  split_and!.
  - rewrite lighten_unfold by done. rewrite Rb, Gb, Bb. reflexivity.
  - repeat constructor; lia.
  - repeat constructor; apply ColorFacts.byte_field; lia.
Qed.

Lemma lighten_color_blends_channels_witness :
  let blend v := v + Qfloor (inject_Z (255 - v) * (1 # 2)) in
  let r := ColorFacts.pair_value "3" "a" in
  let g := ColorFacts.pair_value "7" "B" in
  let b := ColorFacts.pair_value "d" "5" in
  Colors.lighten_color "#3a7Bd5" (1 # 2) =
    Some ("#" ++ PyText.zfill_int 16 2 (blend r) ++ PyText.zfill_int 16 2 (blend g)
              ++ PyText.zfill_int 16 2 (blend b))%string /\
  Forall (fun v => 0 <= v <= blend v /\ blend v <= 255) [r; g; b] /\
  Forall (fun v => String.length (PyText.zfill_int 16 2 (blend v)) = 2%nat) [r; g; b].
Proof.
  apply (lighten_color_blends_channels "3" "a" "7" "B" "d" "5" (1 # 2));
    [apply (bool_decide_unpack _); vm_compute; reflexivity | lra].
Defined.

(** X7: for ['#'] followed by six hex digits, [lighten_color] with
    factor 0 returns the colour with its hex digits in lower case, and
    with factor 1 returns ['#ffffff']. *)
Theorem lighten_color_extremes (c1 c2 c3 c4 c5 c6 : ascii) :
  Forall (fun c => PyText.digit_value c < 16) [c1; c2; c3; c4; c5; c6] ->
  let s := String "#" (String c1 (String c2 (String c3 (String c4 (String c5 (String c6 EmptyString)))))) in
  Colors.lighten_color s 0 =
    Some (String "#" (String (ColorFacts.lower_char c1) (String (ColorFacts.lower_char c2)
            (String (ColorFacts.lower_char c3) (String (ColorFacts.lower_char c4)
            (String (ColorFacts.lower_char c5) (String (ColorFacts.lower_char c6) EmptyString))))))) /\
  Colors.lighten_color s 1 = Some "#ffffff".
Proof.
  intros Hall s. pose proof Hall as Hall'.
  rewrite !Forall_cons in Hall'. destruct Hall' as (H1 & H2 & H3 & H4 & H5 & H6 & _).
  destruct (ColorFacts.hex_pair c1 c2 H1 H2) as (_ & R & Rz & _).
  destruct (ColorFacts.hex_pair c3 c4 H3 H4) as (_ & G & Gz & _).
  destruct (ColorFacts.hex_pair c5 c6 H5 H6) as (_ & B & Bz & _).
  destruct (ColorFacts.blend_channel _ 0 R ltac:(lra)) as [Rb0 _].
  destruct (ColorFacts.blend_channel _ 0 G ltac:(lra)) as [Gb0 _].
  destruct (ColorFacts.blend_channel _ 0 B ltac:(lra)) as [Bb0 _].
  destruct (ColorFacts.blend_channel _ 1 R ltac:(lra)) as [Rb1 _].
  destruct (ColorFacts.blend_channel _ 1 G ltac:(lra)) as [Gb1 _].
  destruct (ColorFacts.blend_channel _ 1 B ltac:(lra)) as [Bb1 _].
  unfold s. rewrite !lighten_unfold by done.
  rewrite Rb0, Gb0, Bb0, Rb1, Gb1, Bb1, !ColorFacts.Qfloor_mult_0, !ColorFacts.Qfloor_mult_1, !Z.add_0_r.
  rewrite Rz, Gz, Bz. split; [reflexivity|].
  rewrite !Zplus_minus. reflexivity.
Qed.

Lemma lighten_color_extremes_witness :
  let s := "#3a7Bd5" in
  Colors.lighten_color s 0 =
    Some (String "#" (String (ColorFacts.lower_char "3") (String (ColorFacts.lower_char "a")
            (String (ColorFacts.lower_char "7") (String (ColorFacts.lower_char "B")
            (String (ColorFacts.lower_char "d") (String (ColorFacts.lower_char "5") EmptyString))))))) /\
  Colors.lighten_color s 1 = Some "#ffffff".
Proof.
  apply (lighten_color_extremes "3" "a" "7" "B" "d" "5").
  apply (bool_decide_unpack _); vm_compute; reflexivity.
Defined.

(* ------------------------------------------------------------------ *)
(** ** The event handlers *)

Module HandlerFacts.

Lemma dict_mem_get {K V} `{EqDecision K} (k : K) (d : list (K * V)) :
  dict_mem k d = false <-> dict_get k d = None.
Proof.
  unfold dict_mem, dict_get. induction d as [|[k' v'] r IH]; simpl; [done|].
  case_bool_decide; simpl; [done|]. done.
Qed.

Lemma dict_set_absent {K V} `{EqDecision K} (k : K) (v : V) (d : list (K * V)) :
  dict_get k d = None -> dict_set k v d = d ++ [(k, v)].
Proof. intros H. apply dict_mem_get in H. unfold dict_set. by rewrite H. Qed.

Lemma dict_get_snoc {K V} `{EqDecision K} (k : K) (v : V) (d : list (K * V)) :
  dict_get k d = None -> dict_get k (d ++ [(k, v)]) = Some v.
Proof.
  unfold dict_get. induction d as [|[k' v'] r IH]; simpl.
  - by rewrite bool_decide_true.
  - case_bool_decide; simpl; [done|]. done.
Qed.

Lemma dict_del_absent {K V} `{EqDecision K} (k : K) (d : list (K * V)) :
  dict_get k d = None -> dict_del k d = d.
Proof.
  unfold dict_get, dict_del. induction d as [|[k' v'] r IH]; simpl; [done|].
  case_bool_decide; simpl; [done|]. intros Hr. rewrite filter_cons_True by done. f_equal. by apply IH.
Qed.

Lemma dict_del_snoc {K V} `{EqDecision K} (k : K) (v : V) (d : list (K * V)) :
  dict_get k d = None -> dict_del k (d ++ [(k, v)]) = d.
Proof.
  intros H. unfold dict_del. rewrite filter_app, (filter_singleton_False _ (k, v) []) by (simpl; intros Hne; by apply Hne).
  rewrite app_nil_r. by apply dict_del_absent.
Qed.

Lemma dict_mem_elem {K V} `{EqDecision K} (k : K) (d : list (K * V)) :
  dict_mem k d = true <-> k ∈ map fst d.
Proof.
  unfold dict_mem. rewrite existsb_exists, list_elem_of_In, in_map_iff.
  split; intros [kv [H1 H2]]; exists kv; split; try done.
  - by apply bool_decide_eq_true in H2.
  - by apply bool_decide_eq_true.
Qed.

(** the part of the new state [recalculate_travel_times] computes from
    the day's appointments *)
Definition recalc_new (st : sched) (date_str : string) : option (list segment * gset (string * Z * Z)) :=
  match date_appointments st date_str with
  | [] => Some ([], ∅)
  | l =>
      match sort_date_appointments st l with
      | None => None
      | Some sorted =>
          let first_appt := nth 0 sorted dummy_appt in
          let last_appt := default dummy_appt (last sorted) in
          let '(from_segs, from_conf) := from_home_part st date_str first_appt in
          let '(to_seg, to_conf) := to_home_part st date_str last_appt in
          Some (from_segs ++ between_segments st date_str sorted ++ [to_seg], from_conf ∪ to_conf)
      end
  end.

Lemma recalc_split (st : sched) (d : string) :
  recalculate_travel_times st d =
  option_map (fun xc => set_travel st (filter (fun s => seg_date s <> d) (travel_segments st) ++ xc.1)
                          (filter (fun k : string * Z * Z => k.1.1 <> d) (conflicting_segments st) ∪ xc.2))
             (recalc_new st d).
Proof.
  unfold recalculate_travel_times, recalc_new.
  destruct (date_appointments st d) as [|a l]; simpl.
  - by rewrite app_nil_r, union_empty_r_L.
  - destruct (sort_date_appointments _ _) as [sorted|]; simpl; [|done].
    destruct (from_home_part st d (nth 0 sorted dummy_appt)),
      (to_home_part st d (default dummy_appt (last sorted))). simpl. by rewrite union_assoc_L.
Qed.

(** the inputs [recalc_new] reads *)
Definition same_inputs (st st' : sched) : Prop :=
  appointments st = appointments st' /\ confirmed_appointments st = confirmed_appointments st' /\
  home_postcode st = home_postcode st' /\ travel_db st = travel_db st' /\
  start_hour st = start_hour st' /\ end_hour st = end_hour st' /\ time_slots st = time_slots st' /\
  appointment_duration_var st = appointment_duration_var st'.

Lemma recalc_new_same (st st' : sched) (d : string) :
  same_inputs st st' -> recalc_new st d = recalc_new st' d.
Proof.
  destruct st, st'; unfold same_inputs; simpl. intros (-> & -> & -> & -> & -> & -> & -> & ->). reflexivity.
Qed.

Lemma recalc_new_dates (st : sched) (d : string) (X : list segment) (C : gset (string * Z * Z)) :
  recalc_new st d = Some (X, C) ->
  Forall (fun s => seg_date s = d) X /\ set_Forall (fun k : string * Z * Z => k.1.1 = d) C.
Proof.
  unfold recalc_new. destruct (date_appointments st d) as [|a l].
  - intros [= <- <-]. split; [constructor|]. apply set_Forall_empty.
  - destruct (sort_date_appointments _ _) as [sorted|]; [|done].
    assert (HB : Forall (fun s => seg_date s = d) (between_segments st d sorted)).
    { unfold between_segments. apply Forall_forall. intros x Hx.
      apply list_elem_of_In, in_map_iff in Hx. by destruct Hx as [i [<- _]]. }
    unfold from_home_part, to_home_part.
    destruct (home_set st); simpl; intros [= <- <-]; split.
    all: try (repeat (apply Forall_app_2 || constructor); done).
    all: apply set_Forall_union; [|case_bool_decide; [apply set_Forall_singleton; done | apply set_Forall_empty]].
    all: try apply set_Forall_empty.
    case_bool_decide; [apply set_Forall_singleton; done | apply set_Forall_empty].
Qed.


Lemma recalc_shape (st st' : sched) (d : string) :
  recalculate_travel_times st d = Some st' ->
  exists s c, st' = set_travel st s c.
Proof.
  rewrite recalc_split. destruct (recalc_new st d); simpl; [|done].
  intros [= <-]. by eexists _, _.
Qed.

Lemma recalc_ui_keeps (u u' : ui) (d : string) :
  recalc_ui u d = Some u' ->
  confirmed_appointments (core u') = confirmed_appointments (core u) /\
  appointments (core u') = appointments (core u) /\
  appointments_csv u' = appointments_csv u /\ pending_appointment u' = pending_appointment u.
Proof.
  unfold recalc_ui. destruct (recalculate_travel_times _ _) as [st'|] eqn:E; simpl; [|done].
  intros [= <-]. destruct (recalc_shape _ _ _ E) as (s & c & ->). done.
Qed.

Lemma stage_selected_keeps (u u' : ui) (d : string) (t : slot) (i : Z) :
  stage_selected u d t i = Some u' ->
  confirmed_appointments (core u') = confirmed_appointments (core u) /\
  appointments_csv u' = appointments_csv u.
Proof.
  unfold stage_selected. destruct (_ || _); [by intros [= <-]|].
  destruct (dict_mem _ _); [by intros [= <-]|].
  destruct (recalculate_travel_times _ _) as [st2|] eqn:E; [|done].
  intros [= <-]. destruct (recalc_shape _ _ _ E) as (s & c & ->). done.
Qed.

Lemma on_cell_click_effect (u u' : ui) (d : string) (t : slot) (a : bool) (i : Z) :
  on_cell_click u d t a i = Some u' ->
  (confirmed_appointments (core u') = confirmed_appointments (core u) /\
   appointments_csv u' = appointments_csv u) \/
  (exists p rows, dict_mem p (confirmed_appointments (core u)) = true /\ read_csv u = Some rows /\
     confirmed_appointments (core u') = dict_del p (confirmed_appointments (core u)) /\
     appointments_csv u' = Some (Some (filter (fun r => ar_postcode r <> p) rows))).
Proof.
  unfold on_cell_click.
  destruct (dict_get _ _) as [p|].
  - destruct (dict_mem p _) eqn:Hm.
    + destruct a; [|intros [= <-]; by left].
      destruct (read_csv u) as [rows|] eqn:Hr; [|done].
      intros H%recalc_ui_keeps. destruct H as (H1 & _ & H2 & _). right. by exists p, rows.
    + intros H%recalc_ui_keeps. destruct H as (H1 & _ & H2 & _). by left.
  - destruct (pending_appointment u) as [[[[pd pt] pp] pdur]|].
    + destruct a; [|intros [= <-]; by left].
      destruct (recalc_ui _ _) as [u1|] eqn:E1; [|done].
      destruct (recalc_ui_keeps _ _ _ E1) as (H1 & _ & H2 & _).
      intros H%stage_selected_keeps. destruct H as [H3 H4]. left.
      rewrite H3, H4, H1, H2. done.
    + intros H%stage_selected_keeps. by left.
Qed.

Lemma filter_map_row (p : string) (rows : list appt_row) :
  filter (fun kv : string * (string * slot * Z * bool) => kv.1 <> p) (map row_entry rows) =
  map row_entry (filter (fun r => ar_postcode r <> p) rows).
Proof.
  induction rows as [|r rs IH]; [done|]. simpl.
  rewrite !filter_cons. simpl. case_decide; simpl; by rewrite IH.
Qed.

Lemma map_filter_postcode (p : string) (rows : list appt_row) :
  map ar_postcode (filter (fun r => ar_postcode r <> p) rows) = filter (fun q => q <> p) (map ar_postcode rows).
Proof.
  induction rows as [|r rs IH]; [done|]. simpl.
  rewrite !filter_cons. case_decide; simpl; by rewrite IH.
Qed.


Lemma filter_all {A} (P : A -> Prop) `{!forall x, Decision (P x)} (l : list A) :
  (forall x, x ∈ l -> P x) -> filter P l = l.
Proof.
  induction l as [|x r IH]; intros Hall; [done|]. rewrite filter_cons_True by (apply Hall; left).
  f_equal. apply IH. intros y Hy. apply Hall. by right.
Qed.

Lemma filter_ext_in {A} (P Q : A -> Prop) `{!forall x, Decision (P x)} `{!forall x, Decision (Q x)}
    (l : list A) :
  (forall x, x ∈ l -> P x <-> Q x) -> filter P l = filter Q l.
Proof.
  induction l as [|x r IH]; intros Hall; [done|]. rewrite !filter_cons.
  assert (Hx : P x <-> Q x) by (apply Hall; left).
  rewrite IH by (intros y Hy; apply Hall; by right).
  destruct (decide (P x)), (decide (Q x)); tauto.
Qed.

Lemma fold_dict_del {K V W} `{EqDecision K} (l : list (K * W)) : forall (c : list (K * V)),
  fold_left (fun c kv => dict_del kv.1 c) l c = filter (fun kv => kv.1 ∉ l.*1) c.
Proof.
  induction l as [|[k w] r IH]; intros c; simpl.
  - symmetry. apply filter_all. intros x _. apply not_elem_of_nil.
  - rewrite IH. unfold dict_del. rewrite list_filter_filter. apply list_filter_iff.
    intros x. rewrite not_elem_of_cons. simpl. tauto.
Qed.

Lemma fold_dict_del_if {K} `{EqDecision K} (R : list string)
    (l : list (K * string)) : forall (c : list (K * string)),
  fold_left (fun a kv => if bool_decide (kv.2 ∈ R) then dict_del kv.1 a else a) l c =
  filter (fun kv => kv.1 ∉ (filter (fun kv => kv.2 ∈ R) l).*1) c.
Proof.
  induction l as [|[k w] r IH]; intros c; simpl.
  - symmetry. apply filter_all. intros x _. apply not_elem_of_nil.
  - rewrite IH, filter_cons. simpl. case_bool_decide as HP.
    + rewrite decide_True by done. unfold dict_del. rewrite list_filter_filter.
      apply list_filter_iff. intros x. simpl. rewrite not_elem_of_cons. tauto.
    + by rewrite decide_False.
Qed.

Lemma keys_in_region {V} (R : list string) (c : list (string * V)) (k : string) :
  k ∈ c.*1 -> (k ∉ (filter (fun kv => kv.1 ∈ R) c).*1 <-> k ∉ R).
Proof.
  intros Hk. split.
  - intros Hn HR. apply Hn. apply list_elem_of_fmap in Hk as [[k' v] [-> Hkv]].
    apply list_elem_of_fmap. exists (k', v). split; [done|]. by apply list_elem_of_filter.
  - intros Hn Hin. apply list_elem_of_fmap in Hin as [[k' v] [-> Hkv]].
    apply list_elem_of_filter in Hkv. by destruct Hkv.
Qed.

Lemma confirmed_region_filter {V} (R : list string) (c : list (string * V)) :
  fold_left (fun c kv => dict_del kv.1 c) (filter (fun kv => kv.1 ∈ R) c) c =
  filter (fun kv => kv.1 ∉ R) c.
Proof.
  rewrite fold_dict_del. apply filter_ext_in. intros x Hx.
  apply keys_in_region. apply list_elem_of_fmap. by exists x.
Qed.

Lemma appointments_region_filter (R : list string) (a : list ((string * slot) * string)) :
  NoDup a.*1 ->
  fold_left (fun a kv => if bool_decide (kv.2 ∈ R) then dict_del kv.1 a else a) a a =
  filter (fun kv => kv.2 ∉ R) a.
Proof.
  intros Hnd. rewrite fold_dict_del_if. apply filter_ext_in. intros [k v] Hx. simpl. split.
  - intros Hn HR. apply Hn. apply list_elem_of_fmap. exists (k, v). split; [done|].
    by apply list_elem_of_filter.
  - intros Hn Hin. apply list_elem_of_fmap in Hin as [[k' v'] [Hk Hkv]]. simpl in Hk. subst k'.
    apply list_elem_of_filter in Hkv as [HR Hkv]. simpl in HR.
    rewrite (NoDup_fst_unique a k v v' Hnd Hx Hkv) in Hn. done.
Qed.

Lemma filter_map_row_region (R : list string) (rows : list appt_row) :
  filter (fun kv : string * (string * slot * Z * bool) => kv.1 ∉ R) (map row_entry rows) =
  map row_entry (filter (fun r => ar_postcode r ∉ R) rows).
Proof.
  induction rows as [|r rs IH]; [done|]. simpl.
  rewrite !filter_cons. simpl. case_decide; simpl; by rewrite IH.
Qed.

Lemma map_filter_postcode_region (R : list string) (rows : list appt_row) :
  map ar_postcode (filter (fun r => ar_postcode r ∉ R) rows) = filter (fun q => q ∉ R) (map ar_postcode rows).
Proof.
  induction rows as [|r rs IH]; [done|]. simpl.
  rewrite !filter_cons. case_decide; simpl; by rewrite IH.
Qed.

Lemma dict_get_map_set {K V} `{EqDecision K} (k k' : K) (v : V) (d : list (K * V)) :
  dict_get k' (map (fun kv => if bool_decide (kv.1 = k) then (k, v) else kv) d) =
  if bool_decide (k = k') && dict_mem k d then Some v else dict_get k' d.
Proof.
  unfold dict_get, dict_mem. induction d as [|[k1 v1] r IH]; simpl.
  - by rewrite andb_false_r.
  - destruct (decide (k1 = k)) as [->|Hne].
    + rewrite (bool_decide_true (k = k)) by done. simpl. rewrite ?orb_true_l, ?andb_true_r.
      destruct (decide (k = k')) as [->|Hne'].
      * by rewrite bool_decide_true.
      * rewrite !bool_decide_false by done. simpl. rewrite IH, bool_decide_false by done. done.
    + rewrite (bool_decide_false (k1 = k)) by done. simpl. rewrite ?orb_false_l.
      destruct (decide (k1 = k')) as [->|Hne'].
      * rewrite (bool_decide_true (k' = k')) by done. simpl.
        by rewrite (bool_decide_false (k = k')) by congruence.
      * rewrite (bool_decide_false (k1 = k')) by done. simpl. done.
Qed.

Lemma dict_get_set {K V} `{EqDecision K} (k k' : K) (v : V) (d : list (K * V)) :
  dict_get k' (dict_set k v d) = if bool_decide (k = k') then Some v else dict_get k' d.
Proof.
  unfold dict_set. destruct (dict_mem k d) eqn:Hm.
  - rewrite dict_get_map_set, Hm, andb_true_r. done.
  - apply dict_mem_get in Hm. case_bool_decide as Hk.
    + subst. by apply dict_get_snoc.
    + unfold dict_get in *.
      assert (Hf : forall (l1 l2 : list (K * V)) (f : K * V -> bool),
                 find f (l1 ++ l2) = match find f l1 with Some x => Some x | None => find f l2 end).
      { induction l1 as [|x r IH]; intros l2 f; simpl; [done|]. destruct (f x); [done|]. apply IH. }
      rewrite Hf. simpl. rewrite (bool_decide_eq_false_2 (k = k') Hk). by case_match.
Qed.

Lemma dict_mem_is_Some {K V} `{EqDecision K} (k : K) (d : list (K * V)) :
  dict_mem k d = bool_decide (is_Some (dict_get k d)).
Proof.
  destruct (dict_mem k d) eqn:E.
  - destruct (dict_get k d) eqn:E2; [by rewrite bool_decide_true by eauto|].
    apply dict_mem_get in E2. congruence.
  - apply dict_mem_get in E. rewrite E. rewrite bool_decide_false; [done|]. by intros [? ?].
Qed.

Lemma dict_mem_set {K V} `{EqDecision K} (k k' : K) (v : V) (d : list (K * V)) :
  dict_mem k' (dict_set k v d) = bool_decide (k = k') || dict_mem k' d.
Proof.
  rewrite !dict_mem_is_Some, dict_get_set.
  destruct (decide (k = k')) as [Hk|Hk].
  - rewrite (bool_decide_eq_true_2 _ Hk). done.
  - by rewrite (bool_decide_eq_false_2 _ Hk).
Qed.

Lemma load_appointments_keeps (items : list (string * (string * slot * Z * bool))) :
  forall st st', load_appointments st items = Some st' ->
  confirmed_appointments st' = confirmed_appointments st /\
  forall k, dict_mem k (appointments st) = true -> dict_mem k (appointments st') = true.
Proof.
  induction items as [|[p [[[d t] dur] o]] r IH]; intros st st'; simpl.
  - by intros [= <-].
  - destruct (recalculate_travel_times _ _) as [st1|] eqn:E; [|done].
    intros H. destruct (IH _ _ H) as [H1 H2].
    destruct (recalc_shape _ _ _ E) as (s & c & ->). simpl in *. split; [done|].
    intros k Hk. apply H2. rewrite dict_mem_set, Hk. apply orb_true_r.
Qed.

Lemma load_appointments_cells (items : list (string * (string * slot * Z * bool))) :
  forall st st', load_appointments st items = Some st' ->
  forall p d t dur o, (p, (d, t, dur, o)) ∈ items -> dict_mem (d, t) (appointments st') = true.
Proof.
  induction items as [|[p [[[d t] dur] o]] r IH]; intros st st'; simpl.
  - intros _ p d t dur o Hin. by apply elem_of_nil in Hin.
  - destruct (recalculate_travel_times _ _) as [st1|] eqn:E; [|done].
    intros H p' d' t' dur' o' Hin. apply elem_of_cons in Hin as [Hin | Hin].
    + injection Hin as -> -> -> -> ->. apply (load_appointments_keeps _ _ _ H).
      destruct (recalc_shape _ _ _ E) as (s & c & ->). simpl.
      rewrite dict_mem_set, bool_decide_true by done. done.
    + by apply (IH _ _ H p' d' t' dur' o').
Qed.

Definition load_rows (df : list appt_row) : list (string * (string * slot * Z * bool)) :=
  fold_left (fun c r => dict_set (row_entry r).1 (row_entry r).2 c) df [].

Lemma load_unfold (u u' : ui) (df : list appt_row) :
  appointments_csv u = Some (Some df) -> load_confirmed_appointments u = Some u' ->
  exists st', load_appointments (set_confirmed (core u) (load_rows df)) (load_rows df) = Some st' /\
    u' = set_core u st' /\ confirmed_appointments st' = load_rows df.
Proof.
  intros Hf. unfold load_confirmed_appointments. rewrite Hf.
  destruct (load_appointments _ _) as [st'|] eqn:E; simpl; [|done].
  intros [= <-]. exists st'. split_and!; [done|done|].
  by destruct (load_appointments_keeps _ _ _ E) as [-> _].
Qed.

Lemma load_rows_get (df : list appt_row) (p : string) :
  dict_get p (load_rows df) = option_map (fun r => (row_entry r).2) (last (filter (fun r => ar_postcode r = p) df)).
Proof.
  unfold load_rows. induction df as [|r rs IH] using rev_ind; [done|].
  rewrite fold_left_app. cbn [fold_left]. rewrite dict_get_set, filter_app, IH, last_app.
  rewrite filter_singleton. simpl. case_bool_decide; case_decide; try done.
  simpl. by destruct (last _).
Qed.

Lemma map_fst_row_entry (df : list appt_row) : (map row_entry df).*1 = map ar_postcode df.
Proof. induction df as [|r rs IH]; [done|]. rewrite map_cons, fmap_cons, IH. done. Qed.

Lemma load_rows_nodup (df : list appt_row) :
  NoDup (map ar_postcode df) -> load_rows df = map row_entry df.
Proof.
  unfold load_rows. induction df as [|r rs IH] using rev_ind; [done|].
  intros Hnd. rewrite map_app in Hnd. apply NoDup_app in Hnd as (Hnd1 & Hnd2 & _).
  rewrite fold_left_app, IH by done. cbn [fold_left]. rewrite map_app. cbn [map].
  rewrite dict_set_absent; [by destruct (row_entry r)|].
  apply dict_mem_get. apply not_true_iff_false. intros Hm.
  apply dict_mem_elem in Hm. change (map fst (map row_entry rs)) with ((map row_entry rs).*1) in Hm.
  rewrite map_fst_row_entry in Hm.
  apply (Hnd2 (ar_postcode r) Hm). by apply list_elem_of_singleton.
Qed.

Lemma check_conflicts_keys (st : sched) (d : string) :
  set_Forall (fun k : string * Z * Z => k.1.1 = d) (conflicting_segments (check_travel_conflicts st d).2) /\
  exists conf, (check_travel_conflicts st d).2 = set_travel st (travel_segments st) conf.
Proof.
  unfold check_travel_conflicts. simpl. split; [|by eexists].
  intros k Hk. apply elem_of_list_to_set, list_elem_of_fmap in Hk as [sr [-> Hsr]].
  apply list_elem_of_filter in Hsr as [_ Hsr].
  destruct sr as [s0 r0]. apply list_elem_of_In, in_prod_iff in Hsr as [Hs _].
  apply list_elem_of_In, list_elem_of_filter in Hs as [Hs _]. done.
Qed.

Lemma filter_other_days (d : string) (segs X : list segment) :
  Forall (fun s => seg_date s = d) X ->
  filter (fun s => seg_date s <> d) (filter (fun s => seg_date s <> d) segs ++ X) =
  filter (fun s => seg_date s <> d) segs.
Proof.
  intros HX.
  assert (HX' : filter (fun s => seg_date s <> d) X = []).
  { induction HX as [|x r Hx _ IH]; [done|]. rewrite filter_cons_False; [done|]. tauto. }
  rewrite filter_app, HX', app_nil_r, list_filter_filter. apply filter_ext_in. intros x _. tauto.
Qed.

End HandlerFacts.

Lemma demo_ui_synced : csv_synced demo_ui.
Proof. exists [y_row]. split_and!; [reflexivity | apply NoDup_singleton | reflexivity]. Qed.

(** X14: [load_confirmed_appointments] keeps, for each postcode, the
    last CSV row with that postcode (missing duration and Outlook cells
    read as 60 and False). *)
Theorem load_confirmed_last_row_wins (u u' : ui) (df : list appt_row) :
  appointments_csv u = Some (Some df) ->
  load_confirmed_appointments u = Some u' ->
  forall p, dict_get p (confirmed_appointments (core u')) =
    option_map (fun r => (row_entry r).2) (last (filter (fun r => ar_postcode r = p) df)).
Proof.
  intros Hf Hl p. destruct (HandlerFacts.load_unfold _ _ _ Hf Hl) as (st' & _ & -> & Hc).
  simpl. rewrite Hc. apply HandlerFacts.load_rows_get.
Qed.

Lemma load_confirmed_last_row_wins_witness :
  let u' := default demo_ui (load_confirmed_appointments (load_ui [y_row; x_row; y_late_row])) in
  load_confirmed_appointments (load_ui [y_row; x_row; y_late_row]) = Some u' /\
  forall p, dict_get p (confirmed_appointments (core u')) =
    option_map (fun r => (row_entry r).2) (last (filter (fun r => ar_postcode r = p) [y_row; x_row; y_late_row])).
Proof.
  split; [vm_compute; reflexivity|].
  apply (load_confirmed_last_row_wins (load_ui [y_row; x_row; y_late_row])); vm_compute; reflexivity.
Defined.

(** X15: after [load_confirmed_appointments] of a CSV with distinct
    postcodes, the CSV holds exactly the confirmed dict. *)
Theorem load_confirmed_synced (u u' : ui) (df : list appt_row) :
  appointments_csv u = Some (Some df) ->
  NoDup (map ar_postcode df) ->
  load_confirmed_appointments u = Some u' ->
  csv_synced u'.
Proof.
  intros Hf Hnd Hl. destruct (HandlerFacts.load_unfold _ _ _ Hf Hl) as (st' & _ & -> & Hc).
  exists df. split_and!; [done|done|]. simpl. rewrite Hc. by rewrite HandlerFacts.load_rows_nodup.
Qed.

Lemma load_confirmed_synced_witness :
  let u' := default demo_ui (load_confirmed_appointments (load_ui [y_row; x_row])) in
  load_confirmed_appointments (load_ui [y_row; x_row]) = Some u' /\ csv_synced u'.
Proof.
  split; [vm_compute; reflexivity|].
  apply (load_confirmed_synced (load_ui [y_row; x_row]) _ [y_row; x_row]);
    [reflexivity | apply (bool_decide_unpack _); vm_compute; reflexivity | vm_compute; reflexivity].
Defined.

(** X16: after [load_confirmed_appointments], every confirmed
    appointment has a timetable cell at its date and time. *)
Theorem load_confirmed_fills_cells (u u' : ui) (df : list appt_row) :
  appointments_csv u = Some (Some df) ->
  load_confirmed_appointments u = Some u' ->
  forall p d t dur o, (p, (d, t, dur, o)) ∈ confirmed_appointments (core u') ->
    is_Some (dict_get (d, t) (appointments (core u'))).
Proof.
  intros Hf Hl p d t dur o Hin. destruct (HandlerFacts.load_unfold _ _ _ Hf Hl) as (st' & Hla & -> & Hc).
  simpl in *. rewrite Hc in Hin.
  pose proof (HandlerFacts.load_appointments_cells _ _ _ Hla p d t dur o Hin) as Hm.
  destruct (dict_get (d, t) (appointments st')) eqn:E; [by eexists|].
  apply HandlerFacts.dict_mem_get in E. congruence.
Qed.

Lemma load_confirmed_fills_cells_witness :
  let u' := default demo_ui (load_confirmed_appointments (load_ui [y_row; x_row])) in
  load_confirmed_appointments (load_ui [y_row; x_row]) = Some u' /\
  forall p d t dur o, (p, (d, t, dur, o)) ∈ confirmed_appointments (core u') ->
    is_Some (dict_get (d, t) (appointments (core u'))).
Proof.
  split; [vm_compute; reflexivity|].
  apply (load_confirmed_fills_cells (load_ui [y_row; x_row]) _ [y_row; x_row]);
    [reflexivity | vm_compute; reflexivity].
Defined.

(** X8: a click on a timetable cell never adds or changes a confirmed
    appointment: the confirmed dict afterwards is a sublist of the one
    before. *)
Theorem on_cell_click_never_confirms (u u' : ui) (date_str : string) (time_slot : slot)
    (answer : bool) (selected_index : Z) :
  on_cell_click u date_str time_slot answer selected_index = Some u' ->
  confirmed_appointments (core u') `sublist_of` confirmed_appointments (core u).
Proof.
  intros [[-> _] | (p & rows & _ & _ & -> & _)]%HandlerFacts.on_cell_click_effect; [done|].
  apply sublist_filter.
Qed.

Lemma on_cell_click_never_confirms_witness :
  let u' := default demo_ui (on_cell_click demo_ui "05-Jan-26" (8, 30) true 0) in
  on_cell_click demo_ui "05-Jan-26" (8, 30) true 0 = Some u' /\
  confirmed_appointments (core u') `sublist_of` confirmed_appointments (core demo_ui).
Proof.
  split; [vm_compute; reflexivity|].
  apply (on_cell_click_never_confirms demo_ui _ "05-Jan-26" (8, 30) true 0). vm_compute. reflexivity.
Defined.

(** X9: when the appointments CSV holds exactly the confirmed dict (one
    row per postcode), it still does after any cell click: deleting a
    confirmed appointment removes it from both. *)
Theorem on_cell_click_keeps_csv_synced (u u' : ui) (date_str : string) (time_slot : slot)
    (answer : bool) (selected_index : Z) :
  csv_synced u ->
  on_cell_click u date_str time_slot answer selected_index = Some u' ->
  csv_synced u'.
Proof.
  intros (rows & Hf & Hnd & Hp) [[Hc Hcsv] | (p & rows' & _ & Hr & Hc & Hcsv)]%HandlerFacts.on_cell_click_effect.
  - exists rows. by rewrite Hc, Hcsv.
  - unfold read_csv in Hr. rewrite Hf in Hr. injection Hr as <-.
    exists (filter (fun r => ar_postcode r <> p) rows). split_and!; [done| |].
    + rewrite HandlerFacts.map_filter_postcode. by apply NoDup_filter.
    + rewrite Hc. unfold dict_del. rewrite <- HandlerFacts.filter_map_row. by rewrite Hp.
Qed.

Lemma on_cell_click_keeps_csv_synced_witness :
  let u' := default demo_ui (on_cell_click demo_ui "05-Jan-26" (8, 30) true 0) in
  on_cell_click demo_ui "05-Jan-26" (8, 30) true 0 = Some u' /\ csv_synced u'.
Proof.
  split; [vm_compute; reflexivity|].
  apply (on_cell_click_keeps_csv_synced demo_ui _ "05-Jan-26" (8, 30) true 0);
    [exact demo_ui_synced | vm_compute; reflexivity].
Defined.

(** X10: when the appointments CSV holds exactly the confirmed dict,
    it still does after [submit_appointment]: a new confirmed
    appointment is added to both. *)
Theorem submit_appointment_keeps_csv_synced (u u' : ui) (dialog : option bool) (outlook_success : bool) :
  csv_synced u ->
  submit_appointment u dialog outlook_success = Some u' ->
  csv_synced u'.
Proof.
  intros (rows & Hf & Hnd & Hp). unfold submit_appointment.
  destruct (pending_appointment u) as [[[[date time] postcode] duration]|]; [|intros [= <-]; by exists rows].
  destruct (dict_mem _ _) eqn:Hm; [intros [= <-]; by exists rows|].
  destruct dialog as [add|]; [|intros [= <-]; by exists rows].
  unfold read_csv. rewrite Hf. intros [= <-].
  set (ap := display_text_to_postcode (travel_db (core u)) postcode) in *.
  assert (Hn : ap ∉ map ar_postcode rows).
  { intros Hin. apply not_true_iff_false in Hm. apply Hm, HandlerFacts.dict_mem_elem.
    rewrite Hp, <- list_fmap_compose. exact Hin. }
  eexists. split_and!; [reflexivity| |].
  - rewrite map_app. simpl. apply NoDup_app. split_and!; [done| |by apply NoDup_singleton].
    intros x Hx ->%list_elem_of_singleton. done.
  - simpl. unfold dict_set. rewrite Hm. rewrite map_app. by rewrite Hp.
Qed.

Lemma submit_appointment_keeps_csv_synced_witness :
  let u := set_pending demo_ui (Some ("05-Jan-26", (11, 0), "X", 60)) in
  let u' := default u (submit_appointment u (Some true) true) in
  submit_appointment u (Some true) true = Some u' /\ csv_synced u'.
Proof.
  split; [vm_compute; reflexivity|].
  apply (submit_appointment_keeps_csv_synced (set_pending demo_ui (Some ("05-Jan-26", (11, 0), "X", 60)))
           _ (Some true) true);
    [exists [y_row]; split_and!; [reflexivity | apply NoDup_singleton | reflexivity] | vm_compute; reflexivity].
Defined.

(** X11: when the appointments CSV holds exactly the confirmed dict,
    it still does after [clear_schedule], whatever the user answers. *)
Theorem clear_schedule_keeps_csv_synced (u : ui) (answer : bool) :
  csv_synced u -> csv_synced (clear_schedule u answer).
Proof.
  intros (rows & Hf & Hnd & Hp). unfold clear_schedule.
  destruct (negb _); [by exists rows|].
  destruct (_ && _); [by exists rows|].
  destruct answer; simpl; [|by exists rows].
  destruct (match pending_appointment u with Some _ => _ | None => _ end); simpl; rewrite Hf;
    (eexists; split_and!; [reflexivity| |]);
    cbn [core confirmed_appointments set_csv set_core set_pending set_travel set_confirmed].
  all: try (rewrite HandlerFacts.map_filter_postcode_region; by apply NoDup_filter).
  all: rewrite HandlerFacts.confirmed_region_filter, <- HandlerFacts.filter_map_row_region; by rewrite Hp.
Qed.

Lemma clear_schedule_keeps_csv_synced_witness : csv_synced (clear_schedule demo_ui true).
Proof. apply clear_schedule_keeps_csv_synced. exact demo_ui_synced. Defined.

(** X12: with a region selected, distinct timetable cells and a
    confirmed or pending appointment of the region, confirming
    [clear_schedule] removes the timetable cells and confirmed
    appointments of the region's postcodes, the travel segments of the
    selected dates, every conflict marker, a pending appointment of the
    region and the region's CSV rows, and keeps everything else. *)
Theorem clear_schedule_removes_region (u : ui) :
  region_truthy (selected_region u) = true ->
  NoDup (appointments (core u)).*1 ->
  filter (fun kv => kv.1 ∈ region_postcodes u) (confirmed_appointments (core u)) <> [] \/
    (exists d t p dur, pending_appointment u = Some (d, t, p, dur) /\ p ∈ region_postcodes u) ->
  let u' := clear_schedule u true in
  let R := region_postcodes u in
  appointments (core u') = filter (fun kv => kv.2 ∉ R) (appointments (core u)) /\
  confirmed_appointments (core u') = filter (fun kv => kv.1 ∉ R) (confirmed_appointments (core u)) /\
  travel_segments (core u') =
    filter (fun s => seg_date s ∉ selected_dates (core u)) (travel_segments (core u)) /\
  conflicting_segments (core u') = ∅ /\
  pending_appointment u' =
    match pending_appointment u with
    | Some (_, _, p, _) => if bool_decide (p ∈ R) then None else pending_appointment u
    | None => None
    end /\
  appointments_csv u' =
    match appointments_csv u with
    | Some (Some rows) => Some (Some (filter (fun r => ar_postcode r ∉ R) rows))
    | f => f
    end.
Proof.
  intros Hr Hnd Hsome u' R. subst u' R. unfold clear_schedule. rewrite Hr. simpl.
  assert (Hgo : (bool_decide (filter (fun kv => kv.1 ∈ region_postcodes u) (confirmed_appointments (core u)) = [])
     && negb (match pending_appointment u with Some (_, _, p, _) => bool_decide (p ∈ region_postcodes u)
              | None => false end)) = false).
  { destruct Hsome as [Hne | (d & t & p & dur & -> & Hp)].
    - by rewrite bool_decide_false.
    - rewrite (bool_decide_true (p ∈ _)) by done. by rewrite andb_false_r. }
  rewrite Hgo. simpl.
  rewrite HandlerFacts.appointments_region_filter by done.
  rewrite HandlerFacts.confirmed_region_filter.
  destruct (pending_appointment u) as [[[[pd pt] pp] pdur]|] eqn:Hpe; simpl.
  - destruct (bool_decide (pp ∈ region_postcodes u)); simpl;
      destruct (appointments_csv u) as [[rows|]|] eqn:Hc; simpl; rewrite ?Hpe, ?Hc; split_and!; done.
  - destruct (appointments_csv u) as [[rows|]|] eqn:Hc; simpl; rewrite ?Hpe, ?Hc; split_and!; done.
Qed.

Lemma clear_schedule_removes_region_witness :
  let u' := clear_schedule demo_ui true in
  let R := region_postcodes demo_ui in
  appointments (core u') = filter (fun kv => kv.2 ∉ R) (appointments (core demo_ui)) /\
  confirmed_appointments (core u') = filter (fun kv => kv.1 ∉ R) (confirmed_appointments (core demo_ui)) /\
  travel_segments (core u') =
    filter (fun s => seg_date s ∉ selected_dates (core demo_ui)) (travel_segments (core demo_ui)) /\
  conflicting_segments (core u') = ∅ /\
  pending_appointment u' =
    match pending_appointment demo_ui with
    | Some (_, _, p, _) => if bool_decide (p ∈ R) then None else pending_appointment demo_ui
    | None => None
    end /\
  appointments_csv u' =
    match appointments_csv demo_ui with
    | Some (Some rows) => Some (Some (filter (fun r => ar_postcode r ∉ R) rows))
    | f => f
    end.
Proof.
  apply (clear_schedule_removes_region demo_ui);
    [reflexivity | apply (bool_decide_unpack _); vm_compute; reflexivity | left; vm_compute; discriminate].
Defined.

(** X13: clicking an empty cell with an unconfirmed postcode selected
    stages it there as the pending appointment; clicking the same cell
    again removes it and clears the pending appointment, leaving the
    timetable and the confirmed dict as before and the travel segments
    as [recalculate_travel_times] of the original state gives them (its
    conflict markers of other dates are dropped). *)
Theorem on_cell_click_unstage_round_trip (u u1 u2 : ui) (date_str : string) (time_slot : slot)
    (answer1 answer2 : bool) (selected_index : Z) (p : string) :
  pending_appointment u = None ->
  dict_get (date_str, time_slot) (appointments (core u)) = None ->
  0 <= selected_index ->
  nth_error (region_postcodes u) (Z.to_nat selected_index) = Some p ->
  dict_mem p (confirmed_appointments (core u)) = false ->
  on_cell_click u date_str time_slot answer1 selected_index = Some u1 ->
  on_cell_click u1 date_str time_slot answer2 selected_index = Some u2 ->
  pending_appointment u1 = Some (date_str, time_slot, p, appointment_duration_var (core u)) /\
  dict_get (date_str, time_slot) (appointments (core u1)) = Some p /\
  appointments (core u2) = appointments (core u) /\
  confirmed_appointments (core u2) = confirmed_appointments (core u) /\
  pending_appointment u2 = None /\
  exists st', recalculate_travel_times (core u) date_str = Some st' /\
    travel_segments (core u2) = travel_segments st' /\
    conflicting_segments (core u2) = filter (fun k : string * Z * Z => k.1.1 = date_str) (conflicting_segments st').
Proof.
  intros Hpend Hget Hi Hp Hnc H1 H2.
  assert (Hlen : (Z.to_nat selected_index < length (region_postcodes u))%nat)
    by (apply nth_error_Some; congruence).
  unfold on_cell_click in H1. rewrite Hget, Hpend in H1. unfold stage_selected in H1.
  assert (Hb : ((selected_index <? 0) || (Z.of_nat (length (region_postcodes u)) <=? selected_index)) = false)
    by (apply orb_false_iff; split; [apply Z.ltb_ge | apply Z.leb_gt]; lia).
  rewrite Hb, Hp in H1. simpl in H1. rewrite Hnc in H1.
  destruct (recalculate_travel_times _ date_str) as [st2|] eqn:E1; [|done].
  injection H1 as <-.
  rewrite (HandlerFacts.dict_set_absent _ _ _ Hget) in E1.
  pose proof E1 as E1'. rewrite HandlerFacts.recalc_split in E1'.
  destruct (HandlerFacts.recalc_new _ date_str) as [[X1 C1]|] eqn:N1; [|done].
  injection E1' as <-.
  destruct (HandlerFacts.check_conflicts_keys
     (set_travel (set_appointments (core u) (appointments (core u) ++ [(date_str, time_slot, p)]))
        (filter (fun s => seg_date s <> date_str)
           (travel_segments (set_appointments (core u) (appointments (core u) ++ [(date_str, time_slot, p)]))) ++ X1)
        (filter (fun k : string * Z * Z => k.1.1 <> date_str)
           (conflicting_segments (set_appointments (core u) (appointments (core u) ++ [(date_str, time_slot, p)]))) ∪ C1))
     date_str) as [Hkeys _].
  simpl in *.
  unfold on_cell_click in H2. simpl in H2.
  rewrite (HandlerFacts.dict_get_snoc _ _ _ Hget), Hnc in H2.
  rewrite (HandlerFacts.dict_del_snoc _ _ _ Hget) in H2.
  unfold recalc_ui in H2. simpl in H2.
  destruct (recalculate_travel_times _ date_str) as [st4|] eqn:E2; [|done].
  injection H2 as <-. simpl.
  rewrite HandlerFacts.recalc_split in E2.
  rewrite (HandlerFacts.recalc_new_same _ (core u)) in E2 by (unfold HandlerFacts.same_inputs; done).
  destruct (HandlerFacts.recalc_new (core u) date_str) as [[X2 C2]|] eqn:N2; [|done].
  injection E2 as <-. simpl.
  split_and!; try done.
  { by rewrite (HandlerFacts.dict_get_snoc _ _ _ Hget). }
  eexists. rewrite HandlerFacts.recalc_split, N2. split; [reflexivity|]. simpl. split.
  - f_equal. apply HandlerFacts.filter_other_days.
    apply (HandlerFacts.recalc_new_dates _ _ _ _ N1).
  - destruct (HandlerFacts.recalc_new_dates _ _ _ _ N2) as [_ HC2].
    apply set_eq. intros k. rewrite elem_of_union, !elem_of_filter, elem_of_union, elem_of_filter.
    split.
    + intros [[Hn HS] | HC]; [exfalso; apply Hn, Hkeys, HS|].
      split; [apply HC2, HC | right; exact HC].
    + intros [Hd [[Hn _] | HC]]; [done | right; exact HC].
Qed.

Lemma on_cell_click_unstage_round_trip_witness :
  let u1 := default demo_ui (on_cell_click demo_ui "05-Jan-26" (11, 0) true 0) in
  let u2 := default demo_ui (on_cell_click u1 "05-Jan-26" (11, 0) true 0) in
  pending_appointment u1 = Some ("05-Jan-26", (11, 0), "X", appointment_duration_var (core demo_ui)) /\
  dict_get ("05-Jan-26", (11, 0)) (appointments (core u1)) = Some "X" /\
  appointments (core u2) = appointments (core demo_ui) /\
  confirmed_appointments (core u2) = confirmed_appointments (core demo_ui) /\
  pending_appointment u2 = None /\
  exists st', recalculate_travel_times (core demo_ui) "05-Jan-26" = Some st' /\
    travel_segments (core u2) = travel_segments st' /\
    conflicting_segments (core u2) = filter (fun k : string * Z * Z => k.1.1 = "05-Jan-26") (conflicting_segments st').
Proof.
  apply (on_cell_click_unstage_round_trip demo_ui _ _ "05-Jan-26" (11, 0) true true 0 "X");
    try (vm_compute; reflexivity); lia.
Defined.

(* ------------------------------------------------------------------ *)
(** ** Region colours *)

Module RegionColorFacts.
Import RegionColors.

Lemma z_range_elem (a n k : Z) : k ∈ z_range a n <-> a <= k < a + n.
Proof.
  unfold z_range. rewrite list_elem_of_fmap. split.
  - intros [i [-> Hi]]. apply elem_of_seq in Hi. lia.
  - intros Hk. exists (Z.to_nat (k - a)). split; [lia|]. apply elem_of_seq. lia.
Qed.

Lemma fold_set_rows {N V} (l : list Z) (g : Z -> N) (f : Z -> V) : forall (c0 : list (Z * V)) k,
  dict_get k (fold_left (fun c (row : Z * N * V) => dict_set row.1.1 row.2 c) (map (fun r => (r, g r, f r)) l) c0) =
  if bool_decide (k ∈ l) then Some (f k) else dict_get k c0.
Proof.
  induction l as [|r l IH]; intros c0 k; cbn [fold_left map].
  - rewrite bool_decide_false; [done|]. apply not_elem_of_nil.
  - rewrite IH, HandlerFacts.dict_get_set.
    destruct (decide (k ∈ l)) as [Hin|Hnin].
    + rewrite !bool_decide_true; [done| |]; [by right|done].
    + rewrite (bool_decide_false (k ∈ l)) by done.
      destruct (decide (r = k)) as [->|Hne].
      * rewrite !bool_decide_true; [done|by left|done].
      * rewrite (bool_decide_false (r = k)) by done. rewrite bool_decide_false; [done|].
        rewrite elem_of_cons. intros [->|]; done.
Qed.

Lemma fold_set_names {V} (l : list Z) (g : Z -> string) (f : Z -> V) : forall (c0 : list (Z * string)) k,
  dict_get k (fold_left (fun c (row : Z * string * V) => dict_set row.1.1 row.1.2 c) (map (fun r => (r, g r, f r)) l) c0) =
  if bool_decide (k ∈ l) then Some (g k) else dict_get k c0.
Proof.
  induction l as [|r l IH]; intros c0 k; cbn [fold_left map].
  - rewrite bool_decide_false; [done|]. apply not_elem_of_nil.
  - rewrite IH, HandlerFacts.dict_get_set.
    destruct (decide (k ∈ l)) as [Hin|Hnin].
    + rewrite !bool_decide_true; [done| |]; [by right|done].
    + rewrite (bool_decide_false (k ∈ l)) by done.
      destruct (decide (r = k)) as [->|Hne].
      * rewrite !bool_decide_true; [done|by left|done].
      * rewrite (bool_decide_false (r = k)) by done. rewrite bool_decide_false; [done|].
        rewrite elem_of_cons. intros [->|]; done.
Qed.

Lemma fold_pair {A} (b : bool) (rows : list (Z * string * A)) : forall n0 c0,
  fold_left (fun nc (row : Z * string * A) =>
               (dict_set row.1.1 row.1.2 nc.1, if b then dict_set row.1.1 row.2 nc.2 else nc.2)) rows (n0, c0) =
  (fold_left (fun c (row : Z * string * A) => dict_set row.1.1 row.1.2 c) rows n0,
   if b then fold_left (fun c (row : Z * string * A) => dict_set row.1.1 row.2 c) rows c0 else c0).
Proof.
  induction rows as [|row r IH]; intros n0 c0; simpl; [by destruct b|].
  rewrite IH. by destruct b.
Qed.

Lemma fold_auto (l : list Z) : forall (c0 : list (Z * Z)) k,
  dict_get k (fold_left (fun c i => let region_num := i + 1 in
                          if dict_mem region_num c then c
                          else dict_set region_num ((i mod 24) + 1) c) l c0) =
  if bool_decide (k - 1 ∈ l) then Some (default (((k - 1) mod 24) + 1) (dict_get k c0)) else dict_get k c0.
Proof.
  induction l as [|i l IH]; intros c0 k; cbn [fold_left map].
  - rewrite bool_decide_false; [done|]. apply not_elem_of_nil.
  - rewrite IH.
    assert (Hstep : dict_get k (if dict_mem (i + 1) c0 then c0 else dict_set (i + 1) (i mod 24 + 1) c0) =
                    if bool_decide (i + 1 = k) then Some (default (((k - 1) mod 24) + 1) (dict_get k c0))
                    else dict_get k c0).
    { destruct (decide (i + 1 = k)) as [<-|Hne].
      - rewrite bool_decide_true by done. replace (i + 1 - 1) with i by lia.
        destruct (dict_mem (i + 1) c0) eqn:Hm.
        + rewrite HandlerFacts.dict_mem_is_Some in Hm. apply bool_decide_eq_true in Hm.
          destruct Hm as [x Hx]. by rewrite Hx.
        + apply HandlerFacts.dict_mem_get in Hm. rewrite Hm, HandlerFacts.dict_get_set, bool_decide_true by done.
          done.
      - rewrite (bool_decide_false (i + 1 = k)) by done.
        destruct (dict_mem _ _); [done|]. rewrite HandlerFacts.dict_get_set, bool_decide_false by done. done. }
    rewrite Hstep.
    destruct (decide (i + 1 = k)) as [Hk|Hk].
    + rewrite (bool_decide_true (i + 1 = k)) by done.
      rewrite (bool_decide_true (k - 1 ∈ i :: l)) by (rewrite elem_of_cons; left; lia).
      destruct (bool_decide (k - 1 ∈ l)); done.
    + rewrite (bool_decide_false (i + 1 = k)) by done.
      destruct (decide (k - 1 ∈ l)) as [Hin|Hnin].
      * rewrite (bool_decide_true (k - 1 ∈ l)) by done.
        rewrite (bool_decide_true (k - 1 ∈ i :: l)) by (by right). done.
      * rewrite (bool_decide_false (k - 1 ∈ l)) by done.
        rewrite (bool_decide_false (k - 1 ∈ i :: l)); [done|].
        rewrite elem_of_cons. intros [Hi|Hi]; [lia|done].
Qed.

Lemma save_keeps (s : tsp_regions) :
  region_colors (save_region_colors s) = region_colors s /\
  region_names (save_region_colors s) = region_names s /\
  output_dir (save_region_colors s) = output_dir s /\
  n_clusters (save_region_colors s) = n_clusters s.
Proof.
  unfold save_region_colors. destruct (negb _); [done|]. by destruct (map _ _).
Qed.

(** [save_region_colors] then [load_region_colors] over the regions [l]
    the save writes *)
Lemma save_load_colors_rows (s : tsp_regions) (l : list Z) (k : Z) :
  output_dir s = true ->
  (l = [] -> region_colors s = []) ->
  region_names_csv (save_region_colors s) =
    match map (fun region => (region, default (default_region_name region) (dict_get region (region_names s)),
                              default 1 (dict_get region (region_colors s)))) l with
    | [] => None
    | data => Some {| has_color_code := true; nrows := data |} end ->
  dict_get k (region_colors (load_region_colors (save_region_colors s))) =
    if bool_decide (k ∈ l) then Some (default 1 (dict_get k (region_colors s))) else None.
Proof.
  intros Ho Hnil Hf. destruct (save_keeps s) as (Hc & _ & Hod & _).
  unfold load_region_colors. rewrite Hod, Ho, Hf.
  destruct l as [|r l'].
  - simpl. rewrite Hc, Hnil by done. done.
  - cbn [negb map has_color_code nrows]. unfold set_colors. cbn [region_colors].
    change ((r, default (default_region_name r) (dict_get r (region_names s)), default 1 (dict_get r (region_colors s)))
       :: map (fun region => (region, default (default_region_name region) (dict_get region (region_names s)),
                              default 1 (dict_get region (region_colors s)))) l')
      with (map (fun region => (region, default (default_region_name region) (dict_get region (region_names s)),
                              default 1 (dict_get region (region_colors s)))) (r :: l')).
    rewrite fold_set_rows. done.
Qed.

End RegionColorFacts.

(** X17: [auto_assign_default_colors] gives each region [r] in
    [1..n_clusters] without a colour the colour [((r - 1) mod 24) + 1],
    keeps every colour already set, and leaves other regions alone. *)
Theorem auto_assign_default_colors_spec (s : RegionColors.tsp_regions) (k : Z) :
  dict_get k (RegionColors.region_colors (RegionColors.auto_assign_default_colors s)) =
  if bool_decide (1 <= k <= RegionColors.n_clusters s)
  then Some (default (((k - 1) mod 24) + 1) (dict_get k (RegionColors.region_colors s)))
  else dict_get k (RegionColors.region_colors s).
Proof.
  unfold RegionColors.auto_assign_default_colors.
  destruct (Z.eqb_spec (RegionColors.n_clusters s) 0) as [Hn|Hn].
  - rewrite bool_decide_false by lia. done.
  - rewrite (proj1 (RegionColorFacts.save_keeps _)). simpl.
    rewrite RegionColorFacts.fold_auto.
    assert (Hiff : k - 1 ∈ RegionColors.z_range 0 (RegionColors.n_clusters s) <-> 1 <= k <= RegionColors.n_clusters s)
      by (rewrite RegionColorFacts.z_range_elem; lia).
    destruct (decide (1 <= k <= RegionColors.n_clusters s)) as [Hk|Hk].
    + rewrite !bool_decide_true; [done|done|by apply Hiff].
    + rewrite !bool_decide_false; [done|done|by rewrite Hiff].
Qed.

(** X18: with an output directory and [n_clusters > 0],
    [save_region_colors] then [load_region_colors] gives each region
    [1..n_clusters] its colour (1, Red, when it had none) and drops the
    colours of all other regions. *)
Theorem save_load_region_colors_round_trip (s : RegionColors.tsp_regions) (k : Z) :
  RegionColors.output_dir s = true -> 0 < RegionColors.n_clusters s ->
  dict_get k (RegionColors.region_colors (RegionColors.load_region_colors (RegionColors.save_region_colors s))) =
  if bool_decide (1 <= k <= RegionColors.n_clusters s)
  then Some (default 1 (dict_get k (RegionColors.region_colors s))) else None.
Proof.
  intros Ho Hn.
  rewrite (RegionColorFacts.save_load_colors_rows s (RegionColors.z_range 1 (RegionColors.n_clusters s))); [| done | |].
  - assert (Hiff : k ∈ RegionColors.z_range 1 (RegionColors.n_clusters s) <-> 1 <= k <= RegionColors.n_clusters s)
      by (rewrite RegionColorFacts.z_range_elem; lia).
    destruct (decide (1 <= k <= RegionColors.n_clusters s)) as [Hk|Hk].
    + rewrite !bool_decide_true; [done|done|by apply Hiff].
    + rewrite !bool_decide_false; [done|done|by rewrite Hiff].
  - unfold RegionColors.z_range. destruct (Z.to_nat (RegionColors.n_clusters s)) eqn:E; [lia|done].
  - unfold RegionColors.save_region_colors. rewrite Ho. simpl.
    rewrite (proj2 (Z.eqb_neq _ 0)) by lia. simpl.
    by destruct (map _ _).
Qed.

Lemma save_load_region_colors_round_trip_witness :
  dict_get 2 (RegionColors.region_colors (RegionColors.load_region_colors (RegionColors.save_region_colors (demo_regions 3)))) =
  if bool_decide (1 <= 2 <= RegionColors.n_clusters (demo_regions 3))
  then Some (default 1 (dict_get 2 (RegionColors.region_colors (demo_regions 3)))) else None.
Proof. apply save_load_region_colors_round_trip; [reflexivity | vm_compute; reflexivity]. Defined.

(** X19: with an output directory and [n_clusters] unset,
    [save_region_colors] then [load_region_colors] keeps exactly the
    regions that had a name or a colour, each with its colour (1 when it
    had none). *)
Theorem save_load_region_colors_fallback (s : RegionColors.tsp_regions) (k : Z) :
  RegionColors.output_dir s = true -> RegionColors.n_clusters s = 0 ->
  dict_get k (RegionColors.region_colors (RegionColors.load_region_colors (RegionColors.save_region_colors s))) =
  if bool_decide (k ∈ (RegionColors.region_names s).*1 \/ k ∈ (RegionColors.region_colors s).*1)
  then Some (default 1 (dict_get k (RegionColors.region_colors s))) else None.
Proof.
  intros Ho Hn.
  set (l := merge_sort Z.le (remove_dups ((RegionColors.region_names s).*1 ++ (RegionColors.region_colors s).*1))).
  assert (Hl : forall x, x ∈ l <-> x ∈ (RegionColors.region_names s).*1 \/ x ∈ (RegionColors.region_colors s).*1).
  { intros x. unfold l. rewrite (merge_sort_Permutation Z.le), elem_of_remove_dups, elem_of_app. done. }
  rewrite (RegionColorFacts.save_load_colors_rows s l); [| done | |].
  - destruct (decide (k ∈ l)) as [Hk|Hk].
    + rewrite !bool_decide_true; [done|by apply Hl|done].
    + rewrite !bool_decide_false; [done|by rewrite <- Hl|done].
  - intros Hnil. destruct (RegionColors.region_colors s) as [|[c v] cs] eqn:Ec; [done|].
    exfalso. assert (Hc : c ∈ l) by (apply Hl; right; left). rewrite Hnil in Hc.
    by apply not_elem_of_nil in Hc.
  - unfold RegionColors.save_region_colors. rewrite Ho, Hn. simpl. fold l.
    by destruct (map _ l).
Qed.

Lemma save_load_region_colors_fallback_witness :
  dict_get 7 (RegionColors.region_colors (RegionColors.load_region_colors (RegionColors.save_region_colors (demo_regions 0)))) =
  if bool_decide (7 ∈ (RegionColors.region_names (demo_regions 0)).*1 \/ 7 ∈ (RegionColors.region_colors (demo_regions 0)).*1)
  then Some (default 1 (dict_get 7 (RegionColors.region_colors (demo_regions 0)))) else None.
Proof. apply save_load_region_colors_fallback; reflexivity. Defined.

(** X20: [load_region_names] loads the same region colours as
    [load_region_colors], in every state of the file and the output
    directory. *)
Theorem load_region_names_colors_agree (s : RegionColors.tsp_regions) :
  RegionColors.region_colors (RegionColors.load_region_names s) =
  RegionColors.region_colors (RegionColors.load_region_colors s).
Proof.
  unfold RegionColors.load_region_names, RegionColors.load_region_colors.
  destruct (negb _); [done|]. destruct (RegionColors.region_names_csv s) as [df|]; [|done].
  rewrite RegionColorFacts.fold_pair. done.
Qed.
